(** * Esthetic dashboard: import pipeline, ledger and aggregator

    A shallow embedding of the TypeScript sources of the sales dashboard
    ([components/SyncView.tsx], [components/DashboardView.tsx], [App.tsx],
    [types.ts]) together with the fragment of the JavaScript runtime these
    functions rely on.  JavaScript numbers are IEEE 754 binary64 values and
    are embedded as Rocq's primitive floats; strings are byte strings (the
    canonical data handled here is ASCII). *)

From Stdlib Require Import ZArith Floats List String Ascii Bool Lia DecimalString.
From Stdlib Require DecimalZ DecimalPos.
From stdpp Require Import base option list gmap strings.

Local Open Scope string_scope.
Local Open Scope Z_scope.

(** ** The JavaScript runtime fragment *)

Module JS.

Abbreviation number := float.

(** *** Characters and strings *)

Definition code (c : ascii) : Z := Z.of_N (N_of_ascii c).

Definition is_digit (c : ascii) : bool := (48 <=? code c) && (code c <=? 57).

Definition digit_val (c : ascii) : Z := code c - 48.

(** Value of a hexadecimal digit, if [c] is one. *)
Definition hex_val (c : ascii) : option Z :=
  let n := code c in
  if (48 <=? n) && (n <=? 57) then Some (n - 48)
  else if (97 <=? n) && (n <=? 102) then Some (n - 87)
  else if (65 <=? n) && (n <=? 70) then Some (n - 55)
  else None.

(** ASCII members of the WhiteSpace and LineTerminator productions. *)
Definition is_space (c : ascii) : bool :=
  let n := code c in ((9 <=? n) && (n <=? 13)) || (n =? 32).

Fixpoint trimStart (s : string) : string :=
  match s with
  | String c r => if is_space c then trimStart r else s
  | EmptyString => EmptyString
  end.

Fixpoint rev_string (s acc : string) : string :=
  match s with
  | String c r => rev_string r (String c acc)
  | EmptyString => acc
  end.

Definition trimEnd (s : string) : string :=
  rev_string (trimStart (rev_string s "")) "".

Definition trim (s : string) : string := trimEnd (trimStart s).

(** [s.split(sep)] for a one-character separator. *)
Fixpoint split_on (sep : ascii) (s : string) : list string :=
  match s with
  | EmptyString => [EmptyString]
  | String c r =>
      if Ascii.eqb c sep then EmptyString :: split_on sep r
      else match split_on sep r with
           | h :: t => String c h :: t
           | [] => [String c EmptyString]
           end
  end.

(** [s.includes(c)] for a one-character needle. *)
Fixpoint includes_char (c : ascii) (s : string) : bool :=
  match s with
  | EmptyString => false
  | String a r => Ascii.eqb a c || includes_char c r
  end.

Fixpoint filter_chars (p : ascii -> bool) (s : string) : string :=
  match s with
  | EmptyString => EmptyString
  | String c r => if p c then String c (filter_chars p r) else filter_chars p r
  end.

(** [s.padStart(2, '0')] and its four-digit analogue. *)
Definition padStart (n : nat) (c : ascii) (s : string) : string :=
  string_of_list_ascii (repeat c (n - String.length s)) ++ s.

(** Strings are truthy unless empty. *)
Definition truthy_str (s : string) : bool :=
  match s with EmptyString => false | _ => true end.

(** The relational operators on two strings compare code units
    lexicographically. *)
Definition str_le (a b : string) : bool := String.leb a b.
Definition str_ge (a b : string) : bool := String.leb b a.

(** Decimal rendering of a mathematical integer. *)
Definition Z_to_string (z : Z) : string := NilZero.string_of_int (Z.to_int z).

(** *** Numbers *)

Definition isNaN (x : number) : bool := PrimFloat.is_nan x.

(** ToBoolean on a number: false for [+0], [-0] and [NaN]. *)
Definition truthy_num (x : number) : bool :=
  negb (PrimFloat.eqb x 0%float || PrimFloat.is_nan x).

(** The Number value for a mathematical integer (round to nearest, ties
    to even; overflows to an infinity). *)
Definition Z2F (z : Z) : number :=
  SF2Prim (binary_normalize prec emax z 0 false).

(** The Number value for the decimal [(-1)^neg * m * 10^e10], [0 <= m]. *)
Definition dec2F (neg : bool) (m e10 : Z) : number :=
  match m with
  | Zpos p =>
      let digits := Z.of_nat (String.length (Z_to_string m)) in
      if 400 <? e10 then (if neg then PrimFloat.neg_infinity else PrimFloat.infinity)
      else if e10 + digits <? -400 then (if neg then PrimFloat.neg_zero else PrimFloat.zero)
      else if 0 <=? e10 then
        SF2Prim (binary_normalize prec emax
                   ((if neg then - m else m) * 10 ^ e10) 0 false)
      else
        SF2Prim (SFdiv prec emax (S754_finite neg p 0)
                   (S754_finite false (Z.to_pos (10 ^ (- e10))) 0))
  | _ => if neg then PrimFloat.neg_zero else PrimFloat.zero
  end.

(** Exact value of a finite number as [(negative, numerator, denominator)]. *)
Definition exact (x : number) : option (bool * Z * Z) :=
  match Prim2SF x with
  | S754_zero s => Some (s, 0, 1)
  | S754_finite s m e =>
      if 0 <=? e then Some (s, Zpos m * 2 ^ e, 1) else Some (s, Zpos m, 2 ^ (- e))
  | _ => None
  end.

(** ToIntegerOrInfinity on a finite number (truncation towards zero);
    [None] for [NaN] and the infinities. *)
Definition trunc (x : number) : option Z :=
  match exact x with
  | Some (s, n, d) => Some ((if s then -1 else 1) * (n / d))
  | None => None
  end.

(** [Math.round]: the integer closest to [x], ties towards +infinity. *)
Definition Math_round (x : number) : number :=
  match exact x with
  | Some (s, n, d) =>
      if d =? 1 then x
      else
        let sn := if s then - n else n in
        let r := (2 * sn + d) / (2 * d) in
        if r =? 0 then (if s then PrimFloat.neg_zero else PrimFloat.zero) else Z2F r
  | None => x
  end.

(** Number of decimal digits of a non-negative integer ([0] has none). *)
Definition ndigits (z : Z) : Z :=
  if z <=? 0 then 0 else Z.of_nat (String.length (Z_to_string z)).

(** Decimal exponent [n] with [10^(n-1) <= num/den < 10^n], for a
    positive rational. *)
Definition dec_exponent (num den : Z) : Z :=
  if den <=? num then ndigits (num / den)
  else 1 - ndigits ((den + num - 1) / num - 1).

(** [floor (num/den * 10^j)]. *)
Definition scale10 (num den j : Z) : Z :=
  if 0 <=? j then (num * 10 ^ j) / den else num / (den * 10 ^ (- j)).

(** Compare [num/den] with [s * 10^(-j)]. *)
Definition cmp_scaled (num den s j : Z) : comparison :=
  if 0 <=? j then (num * 10 ^ j ?= s * den) else (num ?= s * den * 10 ^ (- j)).

(** The shortest digit string [s] (with [k] digits) and exponent [n] such
    that [s * 10^(n-k)] reads back as [x]; among the candidates of
    minimal length the one closest to [x] is taken. *)
Fixpoint shortest (x : number) (num den nv : Z) (fuel : nat) (k : Z) : Z * Z * Z :=
  let j := k - nv in
  let lo := scale10 num den j in
  let hi := lo + 1 in
  let ok_lo := (10 ^ (k - 1) <=? lo) && PrimFloat.eqb (dec2F false lo (- j)) x in
  let ok_hi := PrimFloat.eqb (dec2F false hi (- j)) x in
  let norm s := if s =? 10 ^ k then (10 ^ (k - 1), k, nv + 1) else (s, k, nv) in
  let pick_lo :=
    (* is [lo] at least as close to the value as [hi]? (ties: even) *)
    match cmp_scaled (2 * num) den (lo + hi) j with
    | Lt => true | Gt => false | Eq => Z.even lo
    end in
  match ok_lo, ok_hi with
  | true, true => if pick_lo then norm lo else norm hi
  | true, false => norm lo
  | false, true => norm hi
  | false, false =>
      match fuel with
      | O => norm lo
      | S fuel' => shortest x num den nv fuel' (k + 1)
      end
  end.

(** Digits of [s] left-padded with zeros to [k] characters. *)
Definition digits_of (s k : Z) : string :=
  padStart (Z.to_nat k) "0"%char (Z_to_string s).

Definition zeros (n : Z) : string :=
  string_of_list_ascii (repeat "0"%char (Z.to_nat n)).

Definition substring_from (n : Z) (s : string) : string :=
  String.substring (Z.to_nat n) (String.length s - Z.to_nat n) s.

(** Number::toString with radix 10. *)
Definition Number_toString (x : number) : string :=
  if PrimFloat.is_nan x then "NaN"
  else match exact x with
  | None => if PrimFloat.ltb x 0%float then "-Infinity" else "Infinity"
  | Some (sg, num, den) =>
      if num =? 0 then "0"
      else
        let '(s, k, n) := shortest (PrimFloat.abs x) num den (dec_exponent num den) 17 1 in
        let ds := digits_of s k in
        let body :=
          if (k <=? n) && (n <=? 21) then ds ++ zeros (n - k)
          else if (0 <? n) && (n <=? 21) then
            String.substring 0 (Z.to_nat n) ds ++ "." ++ substring_from n ds
          else if (-6 <? n) && (n <=? 0) then "0." ++ zeros (- n) ++ ds
          else
            let e := n - 1 in
            let es := (if e <? 0 then "-" else "+") ++ Z_to_string (Z.abs e) in
            if k =? 1 then ds ++ "e" ++ es
            else String.substring 0 1 ds ++ "." ++ substring_from 1 ds ++ "e" ++ es in
        if sg then "-" ++ body else body
  end.

(** [Number.prototype.toFixed(f)], for [0 <= f <= 100]. *)
Definition toFixed (x : number) (f : Z) : string :=
  if PrimFloat.is_nan x then "NaN"
  else match exact x with
  | None => Number_toString x
  | Some (_, num, den) =>
      if 10 ^ 21 * den <=? num then Number_toString x
      else
        (* the integer [n] with [n / 10^f] closest to [|x|], larger on a tie *)
        let n := (2 * num * 10 ^ f + den) / (2 * den) in
        let m := if n =? 0 then "0" else Z_to_string n in
        let body :=
          if f =? 0 then m
          else
            let m' := padStart (Z.to_nat (f + 1)) "0"%char m in
            let k := Z.of_nat (String.length m') in
            String.substring 0 (Z.to_nat (k - f)) m' ++ "." ++ substring_from (k - f) m' in
        if PrimFloat.ltb x 0%float then "-" ++ body else body
  end.

(** Longest prefix of digits in the given radix: value accumulated onto
    [acc], number of digits read, and the rest of the string. *)
Fixpoint scan_digits (radix : Z) (s : string) (acc len : Z) : Z * Z * string :=
  match s with
  | String c r =>
      match hex_val c with
      | Some v =>
          if v <? radix then scan_digits radix r (radix * acc + v) (len + 1)
          else (acc, len, s)
      | None => (acc, len, s)
      end
  | EmptyString => (acc, len, s)
  end.

Definition scan_sign (s : string) : bool * string :=
  match s with
  | String "-" r => (true, r)
  | String "+" r => (false, r)
  | _ => (false, s)
  end.

Fixpoint strip_prefix (p s : string) : option string :=
  match p, s with
  | EmptyString, _ => Some s
  | String a p', String b s' => if Ascii.eqb a b then strip_prefix p' s' else None
  | _, EmptyString => None
  end.

(** Optional ExponentPart: its value and the rest; a malformed exponent
    is not consumed. *)
Definition scan_exponent (s : string) : Z * string :=
  match s with
  | String c r =>
      if Ascii.eqb c "e" || Ascii.eqb c "E" then
        let '(eneg, r1) := scan_sign r in
        let '(ev, el, r2) := scan_digits 10 r1 0 0 in
        if 0 <? el then (if eneg then - ev else ev, r2) else (0, s)
      else (0, s)
  | EmptyString => (0, s)
  end.

(** The longest prefix of [s] that is a StrDecimalLiteral, as a Number,
    with the unread rest. *)
Definition scan_decimal (s : string) : option (number * string) :=
  let '(neg, s1) := scan_sign s in
  match strip_prefix "Infinity" s1 with
  | Some r => Some (if neg then PrimFloat.neg_infinity else PrimFloat.infinity, r)
  | None =>
      let '(ip, il, s2) := scan_digits 10 s1 0 0 in
      let '(m, fl, s3) :=
        match s2 with
        | String "." r =>
            let '(m, fl, r') := scan_digits 10 r ip 0 in
            if (0 <? il) || (0 <? fl) then (m, fl, r') else (ip, 0, s2)
        | _ => (ip, 0, s2)
        end in
      if (il =? 0) && (fl =? 0) then None
      else
        let '(e, s4) := scan_exponent s3 in
        Some (dec2F neg m (e - fl), s4)
  end.

(** The global [parseFloat] applied to a string. *)
Definition parseFloat (s : string) : number :=
  match scan_decimal (trimStart s) with
  | Some (x, _) => x
  | None => PrimFloat.nan
  end.

(** The global [parseInt] applied to a string, radix left undefined. *)
Definition parseInt (s : string) : number :=
  let '(neg, s1) := scan_sign (trimStart s) in
  let '(radix, s2) :=
    match strip_prefix "0x" s1, strip_prefix "0X" s1 with
    | Some r, _ | None, Some r => (16, r)
    | None, None => (10, s1)
    end in
  let '(v, len, _) := scan_digits radix s2 0 0 in
  if len =? 0 then PrimFloat.nan
  else if v =? 0 then (if neg then PrimFloat.neg_zero else PrimFloat.zero)
  else Z2F (if neg then - v else v).

(** A whole string in the given radix (the body of [0x..], [0o..], [0b..]). *)
Definition radix_literal (radix : Z) (s : string) : number :=
  match scan_digits radix s 0 0 with
  | (v, len, EmptyString) => if 0 <? len then Z2F v else PrimFloat.nan
  | _ => PrimFloat.nan
  end.

(** ToNumber on a string (the [Number] function). *)
Definition Number_of_string (s : string) : number :=
  let t := trim s in
  match t with
  | EmptyString => PrimFloat.zero
  | _ =>
      match strip_prefix "0x" t, strip_prefix "0X" t with
      | Some r, _ | None, Some r => radix_literal 16 r
      | None, None =>
      match strip_prefix "0o" t, strip_prefix "0O" t with
      | Some r, _ | None, Some r => radix_literal 8 r
      | None, None =>
      match strip_prefix "0b" t, strip_prefix "0B" t with
      | Some r, _ | None, Some r => radix_literal 2 r
      | None, None =>
          match scan_decimal t with
          | Some (x, EmptyString) => x
          | _ => PrimFloat.nan
          end
      end end end
  end.

(** *** Dates

    A Date object is its time value: milliseconds since the epoch, or
    [None] for an invalid date. *)

Definition msPerDay : Z := 86400000.

(** Day number (since 1970-01-01) of a proleptic Gregorian date. *)
Definition days_from_civil (y m d : Z) : Z :=
  let y' := if m <=? 2 then y - 1 else y in
  let era := y' / 400 in
  let yoe := y' mod 400 in
  let mp := if 2 <? m then m - 3 else m + 9 in
  let doy := (153 * mp + 2) / 5 + d - 1 in
  let doe := yoe * 365 + yoe / 4 - yoe / 100 + doy in
  era * 146097 + doe - 719468.

(** Year, month (1..12) and day of month of a day number. *)
Definition civil_from_days (z : Z) : Z * Z * Z :=
  let z' := z + 719468 in
  let era := z' / 146097 in
  let doe := z' mod 146097 in
  let yoe := (doe - doe / 1460 + doe / 36524 - doe / 146096) / 365 in
  let doy := doe - (365 * yoe + yoe / 4 - yoe / 100) in
  let mp := (5 * doy + 2) / 153 in
  let d := doy - (153 * mp + 2) / 5 + 1 in
  let m := if mp <? 10 then mp + 3 else mp - 9 in
  ((yoe + era * 400) + (if m <=? 2 then 1 else 0), m, d).

Definition Day (t : Z) : Z := t / msPerDay.

Definition WeekDay (t : Z) : Z := (Day t + 4) mod 7.

(** MakeDay: months outside 0..11 and days outside the month roll over. *)
Definition MakeDay (year month date : Z) : Z :=
  days_from_civil (year + month / 12) (month mod 12 + 1) 1 + date - 1.

Definition TimeClip (t : Z) : option Z :=
  if Z.abs t <=? 8640000000000000 then Some t else None.

(** [new Date(value)] for a number. *)
Definition Date_of_number (x : number) : option Z :=
  match trunc x with
  | Some t => TimeClip t
  | None => None
  end.

Definition leap_year (y : Z) : bool :=
  ((y mod 4 =? 0) && negb (y mod 100 =? 0)) || (y mod 400 =? 0).

Definition days_in_month (y m : Z) : Z :=
  if m =? 2 then (if leap_year y then 29 else 28)
  else if (m =? 4) || (m =? 6) || (m =? 9) || (m =? 11) then 30 else 31.

Definition pad2 (z : Z) : string := padStart 2 "0"%char (Z_to_string z).

Definition all_digits (s : string) : bool :=
  forallb is_digit (list_ascii_of_string s).

(** The date-only form [YYYY-MM-DD] of the ISO format, naming an actual
    calendar day; it denotes UTC midnight. *)
Definition parse_iso_date (s : string) : option Z :=
  match split_on "-"%char s with
  | [ys; ms; ds] =>
      if (String.length ys =? 4)%nat && (String.length ms =? 2)%nat
         && (String.length ds =? 2)%nat
         && all_digits ys && all_digits ms && all_digits ds then
        let '(y, _, _) := scan_digits 10 ys 0 0 in
        let '(m, _, _) := scan_digits 10 ms 0 0 in
        let '(d, _, _) := scan_digits 10 ds 0 0 in
        if (1 <=? m) && (m <=? 12) && (1 <=? d) && (d <=? days_in_month y m)
        then Some (days_from_civil y m d * msPerDay) else None
      else None
  | _ => None
  end.

(** [Date.prototype.toISOString] on a valid time value. *)
Definition toISOString (t : Z) : string :=
  let '(y, m, d) := civil_from_days (Day t) in
  let ms := t mod msPerDay in
  let ys :=
    if (0 <=? y) && (y <=? 9999) then padStart 4 "0"%char (Z_to_string y)
    else (if y <? 0 then "-" else "+") ++ padStart 6 "0"%char (Z_to_string (Z.abs y)) in
  ys ++ "-" ++ pad2 m ++ "-" ++ pad2 d ++ "T"
     ++ pad2 (ms / 3600000) ++ ":" ++ pad2 (ms / 60000 mod 60) ++ ":"
     ++ pad2 (ms / 1000 mod 60) ++ "."
     ++ padStart 3 "0"%char (Z_to_string (ms mod 1000)) ++ "Z".

End JS.

Import JS.

(** ** Cells, rows and the environment of a run *)

(** A spreadsheet cell as delivered by the reader ([cellDates: true],
    [defval: ""]); [CUndef] is the value of a key the row does not have. *)
Inductive cell :=
| CUndef
| CStr (s : string)
| CNum (x : number)
| CBool (b : bool)
| CDate (t : option Z).

(** A row object: column name to cell. *)
Abbreviation Row := (gmap string cell).

Module Mapping.
(** The mapping schema: target field to source column name.  A field the
    object lacks is [None]. *)
Record t := mk {
  date : option string;
  product : option string;
  category : option string;
  amount : option string;
  quantity : option string }.
End Mapping.

Inductive XlsxResult :=
| XlsxRows (json : list Row)
| XlsxThrows (message : string).

(** Everything the program observes but does not compute: the clock
    (one reading, in milliseconds since the epoch, for a whole run), the
    local time zone (a fixed offset, in milliseconds, of local time from
    UTC), the host's parser for date strings outside the ISO date-only
    form, its rendering of a Date as a string, the spreadsheet reader and
    the answer of the column-mapping assistant ([None] when the request
    fails or returns nothing). *)
Record Env := {
  now : Z;
  tz : Z;
  hostDateParse : string -> option Z;
  hostDateToString : option Z -> string;
  xlsxRead : string -> XlsxResult;
  aiMapping : Row -> option Mapping.t }.

Definition LocalTime (env : Env) (t : Z) : Z := t + tz env.
Definition UTC (env : Env) (t : Z) : Z := t - tz env.

(** [new Date(s)] for a string. *)
Definition Date_parse (env : Env) (s : string) : option Z :=
  match parse_iso_date s with
  | Some t => TimeClip t
  | None => hostDateParse env s
  end.

(** [new Date(year, monthIndex, day)]: local midnight of the given day;
    years 0..99 denote 1900..1999. *)
Definition Date_ymd (env : Env) (y m d : number) : option Z :=
  match trunc y, trunc m, trunc d with
  | Some yi, Some mi, Some di =>
      let yr := if (0 <=? yi) && (yi <=? 99) then 1900 + yi else yi in
      TimeClip (UTC env (MakeDay yr mi di * msPerDay))
  | _, _, _ => None
  end.

(** [getDay()], [getFullYear()], [getMonth()], [getDate()] on a valid
    time value: all read the local time. *)
Definition getDay (env : Env) (t : Z) : Z := WeekDay (LocalTime env t).
Definition getFullYear (env : Env) (t : Z) : Z :=
  let '(y, _, _) := civil_from_days (Day (LocalTime env t)) in y.
Definition getMonth (env : Env) (t : Z) : Z :=
  let '(_, m, _) := civil_from_days (Day (LocalTime env t)) in m - 1.
Definition getDate (env : Env) (t : Z) : Z :=
  let '(_, _, d) := civil_from_days (Day (LocalTime env t)) in d.

(** [toLocaleDateString("en-CA")]: the local calendar day in the pattern
    [y-MM-dd] (the year is not padded; years before 1 print their era
    year). *)
Definition toLocaleDateString (env : Env) (t : Z) : string :=
  let '(y, m, d) := civil_from_days (Day (LocalTime env t)) in
  Z_to_string (if 1 <=? y then y else 1 - y) ++ "-" ++ pad2 m ++ "-" ++ pad2 d.

(** [new Date().toLocaleDateString("en-CA")]. *)
Definition today (env : Env) : string := toLocaleDateString env (now env).

(** ToBoolean and ToString on a cell. *)
Definition truthy (c : cell) : bool :=
  match c with
  | CUndef => false
  | CStr s => truthy_str s
  | CNum x => truthy_num x
  | CBool b => b
  | CDate _ => true
  end.

Definition ToString (env : Env) (c : cell) : string :=
  match c with
  | CUndef => "undefined"
  | CStr s => s
  | CNum x => Number_toString x
  | CBool b => if b then "true" else "false"
  | CDate t => hostDateToString env t
  end.

(** [new Date(val)] for a cell. *)
Definition Date_of_cell (env : Env) (c : cell) : option Z :=
  match c with
  | CUndef => None
  | CStr s => Date_parse env s
  | CNum x => Date_of_number x
  | CBool b => Some (if b then 1 else 0)
  | CDate t => t
  end.

(** Property access [item[key]]; an absent mapping field reads the
    property named ["undefined"].  (Names inherited from
    [Object.prototype] are not columns and are not modelled.) *)
Definition prop (item : Row) (key : option string) : cell :=
  default CUndef (item !! default "undefined" key).

Definition truthy_field (f : option string) : bool :=
  match f with Some s => truthy_str s | None => false end.

(** ** Data model ([types.ts]) *)

Module Sale.
Record t := mk {
  id : string;
  date : string;
  product : string;
  category : string;
  amount : number;
  quantity : number;
  customerZip : option string }.

End Sale.

Module Master.
Record t := mk {
  id : string;
  name : string;
  lastUpdated : string;
  totalSales : number;
  totalRevenue : number;
  data : list Sale.t;
  syncedFiles : option (list string);
  googleFileUrl : option string;
  lastStrategicInsight : option string;
  analysisTimestamp : option string;
  mappingSchema : option Mapping.t }.
End Master.

(** [xs.includes(x)] on an array of strings. *)
Definition includes (x : string) (xs : list string) : bool :=
  existsb (String.eqb x) xs.

(** [xs.reduce((acc, s) => acc + f(s), 0)]. *)
Definition sum_by {A} (f : A -> number) (xs : list A) : number :=
  fold_left (fun acc s => (acc + f s)%float) xs 0%float.

(** ** The application state

    [App] owns the ledger ([master], absent before setup) and mirrors it to
    local storage ([stored]; writes to it are taken to succeed);
    [SyncView] owns the import screen's state.  The calls made to external
    collaborators are recorded in [calls]. *)

Record SyncStatus := { success : bool; count : number }.

Record ViewState := {
  isProcessing : bool;
  processingStep : string;
  syncStatus : option SyncStatus;
  error : option string;
  pendingData : option (list Row * string);
  manualMapping : option Mapping.t }.

Inductive Call :=
| XlsxReadCall (data : string)
| AiMappingCall (firstRow : Row)
| LocalStorageSet (value : Master.t).

Record World := {
  master : option Master.t;
  stored : option Master.t;
  ui : ViewState;
  calls : list Call }.

Definition set_ui (w : World) (v : ViewState) : World :=
  {| master := master w; stored := stored w; ui := v; calls := calls w |}.

Definition call (w : World) (c : Call) : World :=
  {| master := master w; stored := stored w; ui := ui w; calls := (calls w ++ [c])%list |}.

Definition setIsProcessing (b : bool) (w : World) : World :=
  set_ui w {| isProcessing := b; processingStep := processingStep (ui w);
              syncStatus := syncStatus (ui w); error := error (ui w);
              pendingData := pendingData (ui w); manualMapping := manualMapping (ui w) |}.

Definition setProcessingStep (s : string) (w : World) : World :=
  set_ui w {| isProcessing := isProcessing (ui w); processingStep := s;
              syncStatus := syncStatus (ui w); error := error (ui w);
              pendingData := pendingData (ui w); manualMapping := manualMapping (ui w) |}.

Definition setSyncStatus (s : option SyncStatus) (w : World) : World :=
  set_ui w {| isProcessing := isProcessing (ui w); processingStep := processingStep (ui w);
              syncStatus := s; error := error (ui w);
              pendingData := pendingData (ui w); manualMapping := manualMapping (ui w) |}.

Definition setError (e : option string) (w : World) : World :=
  set_ui w {| isProcessing := isProcessing (ui w); processingStep := processingStep (ui w);
              syncStatus := syncStatus (ui w); error := e;
              pendingData := pendingData (ui w); manualMapping := manualMapping (ui w) |}.

Definition setPendingData (p : option (list Row * string)) (w : World) : World :=
  set_ui w {| isProcessing := isProcessing (ui w); processingStep := processingStep (ui w);
              syncStatus := syncStatus (ui w); error := error (ui w);
              pendingData := p; manualMapping := manualMapping (ui w) |}.

Definition setManualMapping (m : option Mapping.t) (w : World) : World :=
  set_ui w {| isProcessing := isProcessing (ui w); processingStep := processingStep (ui w);
              syncStatus := syncStatus (ui w); error := error (ui w);
              pendingData := pendingData (ui w); manualMapping := m |}.

(** [err.message || fallback] *)
Definition message_or (message fallback : string) : string :=
  if truthy_str message then message else fallback.

(** ** [App.tsx] *)

Module App.

(** [updateMaster]: append the batch, recompute the counters over the
    concatenated data, remember the file and the schema, persist.  Returns
    the new state and the number of records added. *)
Definition updateMaster (env : Env) (w : World) (newSales : list Sale.t)
    (schema : option Mapping.t) (fileName : option string) : World * number :=
  match master w with
  | None => (w, 0%float)
  | Some m =>
      let updatedData := (Master.data m ++ newSales)%list in
      let synced := default [] (Master.syncedFiles m) in
      let updatedSyncedFiles :=
        match fileName with
        | Some f => if truthy_str f && negb (includes f synced) then (synced ++ [f])%list else synced
        | None => synced
        end in
      let updatedMaster :=
        {| Master.id := Master.id m;
           Master.name := Master.name m;
           Master.lastUpdated := toISOString (now env);
           Master.totalSales := Z2F (Z.of_nat (length updatedData));
           Master.totalRevenue := sum_by Sale.amount updatedData;
           Master.data := updatedData;
           Master.syncedFiles := Some updatedSyncedFiles;
           Master.googleFileUrl := Master.googleFileUrl m;
           Master.lastStrategicInsight := Master.lastStrategicInsight m;
           Master.analysisTimestamp := Master.analysisTimestamp m;
           Master.mappingSchema :=
             match schema with Some s => Some s | None => Master.mappingSchema m end |} in
      (call {| master := Some updatedMaster; stored := Some updatedMaster;
               ui := ui w; calls := calls w |} (LocalStorageSet updatedMaster),
       Z2F (Z.of_nat (length newSales)))
  end.

End App.

(** ** [components/SyncView.tsx] *)

Module SyncView.

Definition quote : string := String (ascii_of_nat 34) EmptyString.

(** The date of a row: a Date cell as it is, a number above the serial of
    the epoch as a spreadsheet serial date, any other value through the
    Date constructor; the local day of the result, or today's when there
    is none. *)
Definition parseDate (env : Env) (val : cell) : string :=
  let finish (dateObj : option Z) :=
    match dateObj with
    | Some t => toLocaleDateString env t
    | None => today env
    end in
  if negb (truthy val) then today env
  else match val with
  | CDate t => finish t
  | CNum x =>
      if (25569 <? x)%float
      then finish (Date_of_number (Math_round ((x - 25569) * 86400 * 1000)%float))
      else today env
  | _ => finish (Date_of_cell env val)
  end.

(** [rawAmount.replace(/[^0-9.-]+/g, "")] *)
Definition strip_amount (s : string) : string :=
  filter_chars (fun c => is_digit c || Ascii.eqb c "." || Ascii.eqb c "-") s.

Definition cleanAmount (env : Env) (rawAmount : cell) : number :=
  match rawAmount with
  | CStr s => parseFloat (strip_amount s)
  | _ => parseFloat (if truthy rawAmount then ToString env rawAmount else "0")
  end.

(** [String(v || fallback)] *)
Definition string_or (env : Env) (v : cell) (fallback : string) : string :=
  if truthy v then ToString env v else fallback.

(** The callback of [json.map]. *)
Definition normalizeRow (env : Env) (mapping : Mapping.t) (fileName : string)
    (idx : nat) (item : Row) : Sale.t :=
  let clean := cleanAmount env (prop item (Mapping.amount mapping)) in
  let qty := parseInt (ToString env (prop item (Mapping.quantity mapping))) in
  {| Sale.id := fileName ++ "-" ++ Z_to_string (Z.of_nat idx) ++ "-" ++ Z_to_string (now env);
     Sale.date := parseDate env (prop item (Mapping.date mapping));
     Sale.product := string_or env (prop item (Mapping.product mapping)) "Unknown";
     Sale.category := string_or env (prop item (Mapping.category mapping)) "General";
     Sale.amount := if isNaN clean then 0%float else clean;
     Sale.quantity := if truthy_num qty then qty else 1%float;
     Sale.customerZip := None |}.

(** The predicate of [.filter]. *)
Definition retained (s : Sale.t) : bool :=
  (0 <? Sale.amount s)%float
  || (negb (String.eqb (Sale.product s) "Unknown") && negb (String.eqb (Sale.product s) "")).

Definition newSales (env : Env) (mapping : Mapping.t) (fileName : string)
    (json : list Row) : list Sale.t :=
  List.filter retained (imap (normalizeRow env mapping fileName) json).

Definition finalizeProcess (env : Env) (w : World) (json : list Row)
    (mapping : Mapping.t) (fileName : string) : World :=
  let w1 := setProcessingStep "Building master records..." w in
  let sales := newSales env mapping fileName json in
  let w2 :=
    match sales with
    | [] => setError (Some (message_or "No data found." "Sync failed.")) w1
    | _ =>
        let '(w', addedCount) := App.updateMaster env w1 sales (Some mapping) (Some fileName) in
        let n := if truthy_num addedCount then addedCount else Z2F (Z.of_nat (length sales)) in
        setPendingData None (setSyncStatus (Some {| success := true; count := n |}) w')
    end in
  setIsProcessing false w2.

Definition emptyMapping : Mapping.t :=
  Mapping.mk (Some "") (Some "") (Some "") (Some "") (Some "").

(** [processData], run to completion. *)
Definition processData (env : Env) (w : World) (data fileName : string) : World :=
  match master w with
  | None => w
  | Some m =>
  let w0 :=
    setProcessingStep "Reading report content..." (setError None (setIsProcessing true w)) in
  let fail (message : string) (w' : World) :=
    setIsProcessing false (setError (Some (message_or message "Mapping failed.")) w') in
  if match Master.syncedFiles m with Some fs => includes fileName fs | None => false end
  then fail ("File " ++ quote ++ fileName ++ quote ++ " has already been synced.") w0
  else
    let w1 := call w0 (XlsxReadCall data) in
    match xlsxRead env data with
    | XlsxThrows message => fail message w1
    | XlsxRows [] => fail "The selected file appears to be empty." w1
    | XlsxRows ((first :: _) as json) =>
        let '(mapping, w2) :=
          match Master.mappingSchema m with
          | Some mp => (Some mp, w1)
          | None =>
              (aiMapping env first,
               call (setProcessingStep "AI is mapping your columns..." w1) (AiMappingCall first))
          end in
        match mapping with
        | Some mp =>
            if truthy_field (Mapping.date mp) && truthy_field (Mapping.product mp)
            then finalizeProcess env w2 json mp fileName
            else setIsProcessing false
                   (setManualMapping (Some emptyMapping)
                      (setPendingData (Some (json, fileName)) w2))
        | None =>
            setIsProcessing false
              (setManualMapping (Some emptyMapping)
                 (setPendingData (Some (json, fileName)) w2))
        end
    end
  end.

(** The five selects of the mapping modal. *)
Inductive Field := FDate | FProduct | FAmount | FCategory | FQuantity.

Definition setField (f : Field) (v : string) (m : Mapping.t) : Mapping.t :=
  let '(Mapping.mk date product category amount quantity) := m in
  match f with
  | FDate => Mapping.mk (Some v) product category amount quantity
  | FProduct => Mapping.mk date (Some v) category amount quantity
  | FCategory => Mapping.mk date product (Some v) amount quantity
  | FAmount => Mapping.mk date product category (Some v) quantity
  | FQuantity => Mapping.mk date product category amount (Some v)
  end.

(** The actions offered by the mapping modal, which is shown while both
    [pendingData] and [manualMapping] are set. *)
Inductive ModalAction :=
| Choose (f : Field) (column : string)
| Cancel
| SyncNow.

Definition modal (env : Env) (w : World) (a : ModalAction) : World :=
  match pendingData (ui w), manualMapping (ui w) with
  | Some (json, fileName), Some mm =>
      match a with
      | Choose f column => setManualMapping (Some (setField f column mm)) w
      | Cancel => setPendingData None w
      | SyncNow => finalizeProcess env w json mm fileName
      end
  | _, _ => w
  end.

End SyncView.

(** ** [components/DashboardView.tsx] *)

Module DashboardView.

(** ['all' | '7d' | '30d' | 'custom'] *)
Inductive TimeRange := all | d7 | d30 | custom.

(** [d.setHours(23, 59, 59, 999)] *)
Definition endOfDay (env : Env) (t : Z) : option Z :=
  TimeClip (UTC env (Day (LocalTime env t) * msPerDay + 86399999)).

(** [d.setDate(dt)] *)
Definition setDate (env : Env) (t dt : Z) : option Z :=
  let tl := LocalTime env t in
  let '(y, m, _) := civil_from_days (Day tl) in
  TimeClip (UTC env (MakeDay y (m - 1) dt * msPerDay + tl mod msPerDay)).

(** The cutoff of the trailing windows: the end of today moved back by
    the given number of days. *)
Definition cutoffDate (env : Env) (days : Z) : option Z :=
  match endOfDay env (now env) with
  | Some t => setDate env t (getDate env t - days)
  | None => None
  end.

Definition filteredData (env : Env) (data : list Sale.t) (timeRange : TimeRange)
    (customStart customEnd : string) : list Sale.t :=
  let since (cutoff : option Z) :=
    List.filter (fun s =>
      if negb (truthy_str (Sale.date s)) then false
      else match Date_parse env (Sale.date s), cutoff with
           | Some recordDate, Some c => c <=? recordDate
           | _, _ => false
           end) data in
  match timeRange with
  | all => data
  | d7 => since (cutoffDate env 7)
  | d30 => since (cutoffDate env 30)
  | custom =>
      if negb (truthy_str customStart) || negb (truthy_str customEnd) then data
      else
        List.filter (fun s =>
          if negb (truthy_str (Sale.date s)) then false
          else str_ge (Sale.date s) customStart && str_le (Sale.date s) customEnd) data
  end.

(** An object used as a dictionary: its own string keys in insertion
    order.  (Keys inherited from [Object.prototype] are not modelled.) *)
Definition Dict (V : Type) : Type := list (string * V).

Fixpoint dict_get {V} (d : Dict V) (k : string) : option V :=
  match d with
  | [] => None
  | (k', v) :: r => if String.eqb k' k then Some v else dict_get r k
  end.

Fixpoint dict_set {V} (d : Dict V) (k : string) (v : V) : Dict V :=
  match d with
  | [] => [(k, v)]
  | (k', v') :: r => if String.eqb k' k then (k', v) :: r else (k', v') :: dict_set r k v
  end.

(** Array indices: canonical numeric strings below [2^32 - 1]. *)
Definition array_index (k : string) : option Z :=
  if all_digits k && truthy_str k then
    let '(n, _, _) := scan_digits 10 k 0 0 in
    if String.eqb (Z_to_string n) k && (n <? 4294967295) then Some n else None
  else None.

Fixpoint insert_index {V} (n : Z) (e : string * V) (l : list (Z * (string * V)))
    : list (Z * (string * V)) :=
  match l with
  | [] => [(n, e)]
  | (n', e') :: r => if n <? n' then (n, e) :: l else (n', e') :: insert_index n e r
  end.

(** [Object.entries]: array indices in ascending order, then the other
    keys in insertion order. *)
Definition Object_entries {V} (d : Dict V) : list (string * V) :=
  let indexed :=
    fold_left (fun acc e =>
      match array_index (fst e) with Some n => insert_index n e acc | None => acc end) d [] in
  let named :=
    List.filter (fun e => match array_index (fst e) with Some _ => false | None => true end) d in
  (map snd indexed ++ named)%list.

(** [Array.prototype.sort] with a comparator: stable; an element moves
    behind another only when the comparator is positive. *)
Fixpoint sort_insert {A} (cmp : A -> A -> number) (x : A) (l : list A) : list A :=
  match l with
  | [] => [x]
  | y :: r => if (0 <? cmp x y)%float then y :: sort_insert cmp x r else x :: l
  end.

Definition sort {A} (cmp : A -> A -> number) (l : list A) : list A :=
  fold_right (sort_insert cmp) [] l.

Record ProductStat := { pname : string; pcount : number; prevenue : number }.

Record Stats := {
  totalRevenue : number;
  totalItems : number;
  topProduct : option ProductStat;
  sortedProducts : list ProductStat;
  categoryData : list (string * number) }.

Definition stats (filtered : list Sale.t) : Stats :=
  let productMap :=
    fold_left (fun (pm : Dict (number * number)) s =>
      let prodName := if truthy_str (Sale.product s) then Sale.product s else "Unknown" in
      let '(c, r) := default (0%float, 0%float) (dict_get pm prodName) in
      dict_set pm prodName ((c + Sale.quantity s)%float, (r + Sale.amount s)%float))
      filtered [] in
  let categoryMap :=
    fold_left (fun (cm : Dict number) s =>
      let catName := if truthy_str (Sale.category s) then Sale.category s else "General" in
      let old := default PrimFloat.nan (dict_get cm catName) in
      dict_set cm catName ((if truthy_num old then old else 0) + Sale.amount s)%float)
      filtered [] in
  let sorted :=
    sort (fun a b => (pcount b - pcount a)%float)
      (map (fun e => {| pname := fst e; pcount := fst (snd e); prevenue := snd (snd e) |})
         (Object_entries productMap)) in
  {| totalRevenue := sum_by Sale.amount filtered;
     totalItems := sum_by Sale.quantity filtered;
     topProduct := head sorted;
     sortedProducts := sorted;
     categoryData :=
       sort (fun a b => (snd b - snd a)%float) (Object_entries categoryMap) |}.

(** The sentence under the Top Seller figure. *)
Definition topSellerPerformance (st : Stats) : string :=
  match topProduct st with
  | Some p =>
      "Generating " ++ toFixed (prevenue p / totalRevenue st * 100)%float 1 ++ "% of revenue."
  | None => "No data yet."
  end.

Record DayStat := { revenue : number; quantity : number }.

Definition add_sale (s : Sale.t) (d : DayStat) : DayStat :=
  {| revenue := (revenue d + Sale.amount s)%float;
     quantity := (quantity d + Sale.quantity s)%float |}.

(** The weekday slot a record falls into, if any. *)
Definition dayIndex (env : Env) (s : Sale.t) : option Z :=
  if negb (truthy_str (Sale.date s)) || negb (includes_char "-" (Sale.date s)) then None
  else match map Number_of_string (split_on "-" (Sale.date s)) with
  | [y; m; d] =>
      match Date_ymd env y (m - 1)%float d with
      | Some localDate =>
          let i := getDay env localDate in
          if (0 <=? i) && (i <? 7) then Some i else None
      | None => None
      end
  | _ => None
  end.

(** One iteration of the [forEach] of [busiestDays]. *)
Definition busiestDays_step (env : Env) (dayStats : list DayStat) (s : Sale.t)
    : list DayStat :=
  match dayIndex env s with
  | Some i => alter (add_sale s) (Z.to_nat i) dayStats
  | None => dayStats
  end.

Definition dayNames : list string := ["Sun"; "Mon"; "Tue"; "Wed"; "Thu"; "Fri"; "Sat"].

Definition busiestDays (env : Env) (filtered : list Sale.t) : list (string * DayStat) :=
  let dayStats :=
    fold_left (busiestDays_step env) filtered
      (repeat {| revenue := 0; quantity := 0 |} 7) in
  imap (fun i name => (name, default {| revenue := 0; quantity := 0 |} (dayStats !! i))) dayNames.

End DashboardView.

(** ** The second copy of the dashboard component

    The repository holds a second copy of [DashboardView]; its weekday
    distribution reparses the date string with the Date constructor (the
    date-only form denotes UTC midnight) and counts quantities only. *)

Module DashboardViewCopy.

(** One iteration of the [forEach] of [busiestDays]; for a string that
    is no date [getDay()] is [NaN] and no slot changes. *)
Definition busiestDays_step (env : Env) (counts : list number) (s : Sale.t) : list number :=
  match Date_parse env (Sale.date s) with
  | Some t => alter (fun c => (c + Sale.quantity s)%float) (Z.to_nat (getDay env t)) counts
  | None => counts
  end.

Definition busiestDays (env : Env) (filtered : list Sale.t) : list (string * number) :=
  let counts := fold_left (busiestDays_step env) filtered (repeat 0%float 7) in
  imap (fun i name => (name, default PrimFloat.nan (counts !! i))) DashboardView.dayNames.

End DashboardViewCopy.

(** ** The enrichment block of [finalizeProcess] (the variant of
    [SyncView] that categorizes products) *)

Module Enrichment.

(** [{ category: string, cleanName: string }] *)
Record Entry := { category : string; cleanName : string }.

(** The answer of the categorizer for one batch of product names: the
    entries of the decoded object in order, or [None] when the request or
    its decoding throws.  A decoded answer is taken to have its declared
    type, [Record<string, { category: string, cleanName: string }>]. *)
Definition Categorizer : Type := list string -> option (list (string * Entry)).

(** [[...new Set(xs)]]: first occurrences, in order. *)
Fixpoint unique_from (seen : gset string) (xs : list string) : list string :=
  match xs with
  | [] => []
  | x :: r =>
      if decide (x ∈ seen) then unique_from seen r
      else x :: unique_from ({[x]} ∪ seen) r
  end.

Definition unique (xs : list string) : list string := unique_from ∅ xs.

(** Consecutive slices of [size] elements. *)
Fixpoint slices {A} (size fuel : nat) (xs : list A) : list (list A) :=
  match fuel, xs with
  | S fuel', _ :: _ => take size xs :: slices size fuel' (drop size xs)
  | _, _ => []
  end.

Definition batchSize : nat := 50.

Definition batches (uniqueProducts : list string) : list (list string) :=
  slices batchSize (length uniqueProducts) uniqueProducts.

(** [Object.assign(enrichmentMap, batchResult)] *)
Definition assign (enrichmentMap : gmap string Entry) (batchResult : list (string * Entry))
    : gmap string Entry :=
  fold_left (fun m kv => <[fst kv := snd kv]> m) batchResult enrichmentMap.

(** The lookup merged from the batches that succeed. *)
Definition enrichmentMap (ai : Categorizer) (parsedSales : list Sale.t) : gmap string Entry :=
  fold_left (fun m batch =>
    match ai batch with
    | Some batchResult => assign m batchResult
    | None => m
    end) (batches (unique (map Sale.product parsedSales))) ∅.




End Enrichment.

(** ** The import screen ([components/SyncView.tsx], continued) *)

Module SyncScreen.

(** The state of a freshly mounted component. *)
Definition initial : ViewState :=
  {| isProcessing := false; processingStep := ""; syncStatus := None; error := None;
     pendingData := None; manualMapping := None |}.

(** The upload area draws one of four panels. *)
Inductive Panel :=
| Processing (step : string)
| Success (count : number)
| Error (message : string)
| ImportFile.

Definition panel (v : ViewState) : Panel :=
  if isProcessing v then Processing (processingStep v)
  else match syncStatus v with
       | Some st => Success (count st)
       | None =>
           match error v with
           | Some e => if truthy_str e then Error e else ImportFile
           | None => ImportFile
           end
       end.

(** The mapping modal is drawn while both [pendingData] and
    [manualMapping] are set. *)
Definition modalShown (v : ViewState) : bool :=
  match pendingData v, manualMapping v with
  | Some _, Some _ => true
  | _, _ => false
  end.

Inductive PickerResult :=
| Picked (name : string)
| Dismissed
| PickerThrows (message : option string).

(** One run of the Drive service as [handleDrivePick] observes it: whether
    a service object was passed, the token it holds, how [authenticate]
    settles, what the picker does, and how the download and the reading
    of the picked file settle.  A rejection carries the [message] of the
    thrown value, if it has one. *)
Record DriveRun := {
  service : bool;
  getStoredToken : option string;
  authenticate : string + option string;
  openPicker : PickerResult;
  downloadFile : string + option string }.

(** [`Import failed: ${err.message}`] *)
Definition importFailed (message : option string) : string :=
  "Import failed: " ++ default "undefined" message.

(** The outer [catch] of [handleDrivePick]. *)
Definition driveError (message : option string) (w : World) : World :=
  setIsProcessing false
    (setError (Some (message_or (default "" message) "Drive error.")) w).

(** [openPicker] and, for a picked file, its callback. *)
Definition pick (env : Env) (w : World) (run : DriveRun) : World :=
  match openPicker run with
  | Dismissed => w
  | PickerThrows message => driveError message w
  | Picked name =>
      let w1 := setProcessingStep ("Importing " ++ name ++ "...") (setIsProcessing true w) in
      match downloadFile run with
      | inl data => SyncView.processData env w1 data name
      | inr message => setIsProcessing false (setError (Some (importFailed message)) w1)
      end
  end.

Definition handleDrivePick (env : Env) (w : World) (run : DriveRun) : World :=
  if negb (service run) then w
  else
    let w0 := setError None w in
    if truthy_field (getStoredToken run) then pick env w0 run
    else
      let w1 := setProcessingStep "Connecting..." (setIsProcessing true w0) in
      match authenticate run with
      | inl token =>
          if truthy_str token then pick env (setIsProcessing false w1) run
          else driveError (Some "Connection failed.") (setIsProcessing false w1)
      | inr message => driveError message w1
      end.

(** What the user can do on the screen. *)
Inductive Event :=
| ChooseFile (data fileName : string)
| OpenDrive (run : DriveRun)
| Modal (a : SyncView.ModalAction)
| Done
| Retry.

Definition handle (env : Env) (w : World) (e : Event) : World :=
  match e with
  | ChooseFile data fileName => SyncView.processData env w data fileName
  | OpenDrive run => handleDrivePick env w run
  | Modal a => SyncView.modal env w a
  | Done => setSyncStatus None w
  | Retry => setError None w
  end.

End SyncScreen.

(** ** [App.tsx], continued: setup, analysis and navigation *)

Module AppShell.

(** [ViewState] of [types.ts]. *)
Inductive ViewState := setup | sync | analyze.

(** The state of [App]: the ledger with its stored copy and the state of
    the import screen, and the screen in view.  The import screen keeps
    its state only while it is mounted. *)
Record State := { world : World; view : ViewState }.

(** The argument of [handleSetupComplete]: a name for a new ledger, or an
    existing ledger. *)
Inductive SetupData :=
| NewName (name : string)
| Existing (record : Master.t).

Definition setMaster (m : Master.t) (w : World) : World :=
  call {| master := Some m; stored := Some m; ui := ui w; calls := calls w |}
    (LocalStorageSet m).

Definition mount (w : World) : World := set_ui w SyncScreen.initial.

(** [handleSetupComplete]; [id] is the identifier drawn for a new
    ledger. *)
Definition handleSetupComplete (env : Env) (id : string) (st : State) (data : SetupData)
    : State :=
  let m :=
    match data with
    | NewName name =>
        {| Master.id := id;
           Master.name := name;
           Master.lastUpdated := toISOString (now env);
           Master.totalSales := 0;
           Master.totalRevenue := 0;
           Master.data := [];
           Master.syncedFiles := Some [];
           Master.googleFileUrl := None;
           Master.lastStrategicInsight := None;
           Master.analysisTimestamp := None;
           Master.mappingSchema := None |}
    | Existing record => record
    end in
  {| world := mount (setMaster m (world st)); view := sync |}.

Definition saveAnalysis (env : Env) (st : State) (insight : string) : State :=
  match master (world st) with
  | None => st
  | Some m =>
      let updatedMaster :=
        {| Master.id := Master.id m;
           Master.name := Master.name m;
           Master.lastUpdated := Master.lastUpdated m;
           Master.totalSales := Master.totalSales m;
           Master.totalRevenue := Master.totalRevenue m;
           Master.data := Master.data m;
           Master.syncedFiles := Master.syncedFiles m;
           Master.googleFileUrl := Master.googleFileUrl m;
           Master.lastStrategicInsight := Some insight;
           Master.analysisTimestamp := Some (toISOString (now env));
           Master.mappingSchema := Master.mappingSchema m |} in
      {| world := setMaster updatedMaster (world st); view := view st |}
  end.

(** The cloud effect, once [saveJsonToCloud] has answered with the
    metadata of the saved file: a link that is not the ledger's is
    recorded in the ledger. *)
Definition syncToCloud (st : State) (webViewLink : option string) : State :=
  match master (world st), webViewLink with
  | Some m, Some link =>
      if truthy_str link && negb (bool_decide (Master.googleFileUrl m = Some link))
      then
        let updated :=
          {| Master.id := Master.id m;
             Master.name := Master.name m;
             Master.lastUpdated := Master.lastUpdated m;
             Master.totalSales := Master.totalSales m;
             Master.totalRevenue := Master.totalRevenue m;
             Master.data := Master.data m;
             Master.syncedFiles := Master.syncedFiles m;
             Master.googleFileUrl := Some link;
             Master.lastStrategicInsight := Master.lastStrategicInsight m;
             Master.analysisTimestamp := Master.analysisTimestamp m;
             Master.mappingSchema := Master.mappingSchema m |} in
        {| world := setMaster updated (world st); view := view st |}
      else st
  | _, _ => st
  end.

(** [handleSwitchFile], and the state after [handleSignOut] or a
    confirmed [clearData] has reloaded the page. *)
Definition handleSwitchFile (st : State) : State :=
  {| world := mount {| master := None; stored := None;
                       ui := ui (world st); calls := calls (world st) |};
     view := setup |}.

(** The navigation buttons of [Layout] are disabled while the ledger has
    no name. *)
Definition navigate (st : State) (v : ViewState) : State :=
  match master (world st) with
  | Some m =>
      if truthy_str (Master.name m)
      then {| world := match v, view st with
                       | sync, sync => world st
                       | _, _ => mount (world st)
                       end;
              view := v |}
      else st
  | None => st
  end.

Inductive Event :=
| CompleteSetup (id : string) (data : SetupData)
| Navigate (v : ViewState)
| OnSyncScreen (e : SyncScreen.Event)
| AnalysisReady (insight : string)
| SignOut
| CloudSaved (webViewLink : option string).

(** Each event is handled on the state the previous one left; an event
    of a screen that is not drawn does nothing. *)
Definition handle (env : Env) (st : State) (e : Event) : State :=
  match e, view st, master (world st) with
  | CompleteSetup id data, setup, _ => handleSetupComplete env id st data
  | Navigate v, _, _ => navigate st v
  | OnSyncScreen e', sync, Some _ =>
      {| world := SyncScreen.handle env (world st) e'; view := sync |}
  | AnalysisReady insight, analyze, Some _ => saveAnalysis env st insight
  | SignOut, _, _ => handleSwitchFile st
  | CloudSaved webViewLink, _, _ => syncToCloud st webViewLink
  | _, _, _ => st
  end.

(** A session: events in the order they are handled, each with the
    environment it is handled in. *)
Definition run (st : State) (events : list (Env * Event)) : State :=
  fold_left (fun st ee => handle (fst ee) st (snd ee)) events st.

End AppShell.

(** ** [components/DashboardView.tsx], continued: the revenue trend *)

Module DashboardTrend.

(** The property names every object inherits from [Object.prototype];
    a dictionary object answers a lookup of one of them although it has
    no such key of its own. *)
Definition inherited : list string :=
  ["constructor"; "hasOwnProperty"; "isPrototypeOf"; "propertyIsEnumerable";
   "toLocaleString"; "toString"; "valueOf"; "__proto__";
   "__defineGetter__"; "__defineSetter__"; "__lookupGetter__"; "__lookupSetter__"].

(** [revenueTrend]: the revenue of each day, ordered by the host's
    [localeCompare] on the date strings. *)
Definition revenueTrend (localeCompare : string -> string -> number)
    (filtered : list Sale.t) : list (string * number) :=
  let daily :=
    fold_left (fun (acc : DashboardView.Dict number) s =>
      if negb (truthy_str (Sale.date s)) then acc
      else
        let revenue := default 0%float (DashboardView.dict_get acc (Sale.date s)) in
        DashboardView.dict_set acc (Sale.date s) (revenue + Sale.amount s)%float)
      filtered [] in
  DashboardView.sort (fun a b => localeCompare (fst a) (fst b))
    (DashboardView.Object_entries daily).

End DashboardTrend.

(** ** Vocabulary of the specification *)

(** Lexicographic order on strings, character code by character code. *)
Inductive lex_le : string -> string -> Prop :=
| lex_le_nil (s : string) : lex_le EmptyString s
| lex_le_lt (c1 c2 : ascii) (s1 s2 : string) :
    code c1 < code c2 -> lex_le (String c1 s1) (String c2 s2)
| lex_le_eq (c : ascii) (s1 s2 : string) :
    lex_le s1 s2 -> lex_le (String c s1) (String c s2).

(** The canonical form [YYYY-MM-DD] of a calendar date, digit by digit. *)
Definition digit_char (n : Z) : ascii := ascii_of_N (Z.to_N (48 + n mod 10)).

Definition digits2 (n : Z) : string :=
  String (digit_char (n / 10)) (String (digit_char n) EmptyString).

Definition digits4 (n : Z) : string :=
  String (digit_char (n / 1000)) (String (digit_char (n / 100)) (digits2 n)).

Definition iso_date (y m d : Z) : string :=
  digits4 y ++ "-" ++ digits2 m ++ "-" ++ digits2 d.

(** Day of the week of a Gregorian calendar date, [0] for Sunday, by the
    closed formula over year, month and day. *)
Definition weekday_of_date (y m d : Z) : Z :=
  let t := nth (Z.to_nat (m - 1)) [0; 3; 2; 5; 0; 3; 5; 1; 4; 6; 2; 4] 0 in
  let y' := if m <? 3 then y - 1 else y in
  (y' + y' / 4 - y' / 100 + y' / 400 + t + d) mod 7.

(** The counters of a ledger agree with its records. *)
Definition counters_consistent (m : Master.t) : Prop :=
  Master.totalSales m = Z2F (Z.of_nat (length (Master.data m)))
  /\ Master.totalRevenue m = sum_by Sale.amount (Master.data m).

(** ** Sample inputs *)

Definition sampleEnvWith (offset : Z) (rows : list Row) (ai : option Mapping.t) : Env :=
  {| now := 1700000000000;
     tz := offset;
     hostDateParse := fun _ => None;
     hostDateToString := fun _ => "Invalid Date";
     xlsxRead := fun _ => XlsxRows rows;
     aiMapping := fun _ => ai |}.

Definition sampleEnv (offset : Z) : Env := sampleEnvWith offset [] None.

Definition sampleMapping : Mapping.t :=
  Mapping.mk (Some "Date") (Some "Item") (Some "Type") (Some "Total") (Some "Qty").

Definition sampleRow (date item total qty : cell) : Row :=
  <["Date" := date]> (<["Item" := item]> (<["Total" := total]> (<["Qty" := qty]>
    (<["Type" := CStr ""]> ∅)))).

Definition sampleSale (date product : string) (amount quantity : number) : Sale.t :=
  Sale.mk "id" date product "General" amount quantity None.

Definition sampleMaster (files : list string) : Master.t :=
  Master.mk "m1" "Studio" "2023-01-01T00:00:00.000Z" 0 0 [] (Some files) None None None None.

Definition idleView : ViewState :=
  {| isProcessing := false; processingStep := ""; syncStatus := None; error := None;
     pendingData := None; manualMapping := None |}.

Definition sampleWorld (files : list string) : World :=
  {| master := Some (sampleMaster files); stored := Some (sampleMaster files);
     ui := idleView; calls := [] |}.

(** *** Vocabulary of the calendar and of the numbers *)

(** A date of the Gregorian calendar. *)
Definition valid_date (y m d : Z) : Prop :=
  1 <= m <= 12 /\ 1 <= d <= days_in_month y m.

(** The calendar date before a date. *)
Definition previous_day (y m d : Z) : Z * Z * Z :=
  if 2 <=? d then (y, m, d - 1)
  else if 2 <=? m then (y, m - 1, days_in_month y (m - 1))
  else (y - 1, 12, 31).

(** [f] holds for the [n] integers from [z] on. *)
Fixpoint all_from (f : Z -> bool) (n : nat) (z : Z) : bool :=
  match n with
  | O => true
  | S n' => f z && all_from f n' (z + 1)
  end.

(** The binary64 representation of a positive integer below [2^52]: the
    integer shifted to a 53-bit mantissa. *)
Definition normal_shift (k : positive) : positive := Z.to_pos (53 - Z.pos (digits2_pos k)).

Definition normal (s : bool) (k : positive) : spec_float :=
  S754_finite s (Pos.iter xO k (normal_shift k)) (Z.neg (normal_shift k)).

(** *** Vocabulary of imports and sessions *)

(** The file has not been imported into the ledger. *)
Definition not_synced (m : Master.t) (fileName : string) : Prop :=
  match Master.syncedFiles m with
  | Some files => ~ In fileName files
  | None => True
  end.

(** [m'] is the ledger [m] grown: the same identity, the records of [m]
    followed by further ones, and no synced file forgotten. *)
Definition grows (m m' : Master.t) : Prop :=
  Master.id m' = Master.id m
  /\ Master.name m' = Master.name m
  /\ Master.data m `prefix_of` Master.data m'
  /\ (forall f, In f (default [] (Master.syncedFiles m))
               -> In f (default [] (Master.syncedFiles m'))).

(** [m'] continues [m]: it is [m] grown, with counters that agree with
    its records. *)
Definition continues (m m' : Master.t) : Prop :=
  grows m m' /\ counters_consistent m'.

(** The ledger after a batch has been appended. *)
Definition appended (env : Env) (m : Master.t) (sales : list Sale.t) (mp : Mapping.t)
    (fileName : string) : Master.t :=
  {| Master.id := Master.id m;
     Master.name := Master.name m;
     Master.lastUpdated := toISOString (now env);
     Master.totalSales := Z2F (Z.of_nat (length (Master.data m ++ sales)));
     Master.totalRevenue := sum_by Sale.amount (Master.data m ++ sales);
     Master.data := (Master.data m ++ sales)%list;
     Master.syncedFiles :=
       Some (default [] (Master.syncedFiles m)
               ++ (if truthy_str fileName then [fileName] else []))%list;
     Master.googleFileUrl := Master.googleFileUrl m;
     Master.lastStrategicInsight := Master.lastStrategicInsight m;
     Master.analysisTimestamp := Master.analysisTimestamp m;
     Master.mappingSchema := Some mp |}.

(** The mapping an import works with: the ledger's schema, or else the
    answer of the assistant for the first row. *)
Definition mapping_in_use (env : Env) (m : Master.t) (first : Row) : option Mapping.t :=
  match Master.mappingSchema m with
  | Some mp => Some mp
  | None => aiMapping env first
  end.

Definition complete (mp : Mapping.t) : bool :=
  truthy_field (Mapping.date mp) && truthy_field (Mapping.product mp).

(** The calls an import makes before it normalizes anything. *)
Definition reading_calls (m : Master.t) (data : string) (first : Row) : list Call :=
  XlsxReadCall data
  :: match Master.mappingSchema m with Some _ => [] | None => [AiMappingCall first] end.

(** The environment with another assistant. *)
Definition with_assistant (env : Env) (ai : Row -> option Mapping.t) : Env :=
  {| now := now env; tz := tz env; hostDateParse := hostDateParse env;
     hostDateToString := hostDateToString env; xlsxRead := xlsxRead env;
     aiMapping := ai |}.

(** The stored copy is the ledger. *)
Definition mirrored (w : World) : Prop := stored w = master w.

(** The counters of the ledger, if there is one, agree with its
    records. *)
Definition ledger_consistent (w : World) : Prop :=
  forall m, master w = Some m -> counters_consistent m.


(** A setup from an existing ledger takes one whose counters agree with
    its records. *)
Definition setup_consistent (e : AppShell.Event) : Prop :=
  match e with
  | AppShell.CompleteSetup _ (AppShell.Existing record) => counters_consistent record
  | _ => True
  end.

(** The ledger after a step of the import screen: untouched, or
    continued and stored. *)
Definition ledger_step (w w' : World) : Prop :=
  (master w' = master w /\ stored w' = stored w)
  \/ exists m m', master w = Some m /\ master w' = Some m' /\ stored w' = Some m'
                  /\ continues m m'.

(** The token a Drive run works with, if it gets one: the one the
    service holds, or else the one [authenticate] resolves with. *)
Definition drive_token (run : SyncScreen.DriveRun) : option string :=
  if truthy_field (SyncScreen.getStoredToken run) then SyncScreen.getStoredToken run
  else match SyncScreen.authenticate run with
       | inl token => if truthy_str token then Some token else None
       | inr _ => None
       end.

(** Everything but the progress and error indications is as before. *)
Definition untouched (w w' : World) : Prop :=
  master w' = master w /\ stored w' = stored w /\ calls w' = calls w
  /\ syncStatus (ui w') = syncStatus (ui w)
  /\ pendingData (ui w') = pendingData (ui w)
  /\ manualMapping (ui w') = manualMapping (ui w).

(** A Drive run that failed: an error is reported, the screen is not
    processing, and nothing else has changed. *)
Definition drive_failed (w w' : World) : Prop :=
  untouched w w' /\ isProcessing (ui w') = false
  /\ exists message, error (ui w') = Some message /\ message <> "".

(** *** Vocabulary of the dashboard figures *)

(** The name a record is grouped under: [s.product || 'Unknown'] and
    [s.category || 'General']. *)
Definition product_group (s : Sale.t) : string :=
  if truthy_str (Sale.product s) then Sale.product s else "Unknown".

Definition category_group (s : Sale.t) : string :=
  if truthy_str (Sale.category s) then Sale.category s else "General".

Definition sold_as (P : string) (l : list Sale.t) : list Sale.t :=
  List.filter (fun s => String.eqb (product_group s) P) l.

Definition filed_under (C : string) (l : list Sale.t) : list Sale.t :=
  List.filter (fun s => String.eqb (category_group s) C) l.

Definition dated (d : string) (l : list Sale.t) : list Sale.t :=
  List.filter (fun s => String.eqb (Sale.date s) d) l.

Definition falling_on (env : Env) (i : Z) (l : list Sale.t) : list Sale.t :=
  List.filter (fun s =>
    match DashboardView.dayIndex env s with Some j => j =? i | None => false end) l.

(** Grouping into a dictionary: the rows that have a key update the
    entry of that key, which starts from [init]. *)
Definition group_step {A V : Type} (key : A -> option string) (init : V) (upd : V -> A -> V)
    (d : DashboardView.Dict V) (a : A) : DashboardView.Dict V :=
  match key a with
  | Some k => DashboardView.dict_set d k (upd (default init (DashboardView.dict_get d k)) a)
  | None => d
  end.

Definition keyed {A : Type} (key : A -> option string) (k : string) (l : list A) : list A :=
  List.filter (fun a => bool_decide (key a = Some k)) l.

(** The totals reached while the amounts of a list are added one after
    the other. *)
Fixpoint running_totals (acc : number) (l : list Sale.t) : list number :=
  match l with
  | [] => []
  | s :: r => (acc + Sale.amount s)%float :: running_totals (acc + Sale.amount s)%float r
  end.

(** Three sales of two products on three days. *)
Definition sampleSales : list Sale.t :=
  [sampleSale "2024-01-05" "Facial" 80 1; sampleSale "2024-01-06" "Serum" 30 2;
   sampleSale "2024-01-07" "Facial" 90 1].

(** * Verification *)

(** ** Facts about numbers *)

Lemma above_serial_truthy (x : number) :
  (25569 <? x)%float = true -> truthy_num x = true.
Proof.
  intros H. unfold truthy_num, PrimFloat.is_nan.
  rewrite FloatAxioms.ltb_spec in H. rewrite !FloatAxioms.eqb_spec.
  destruct (Prim2SF x) as [s|s| |s m e]; vm_compute in H; try discriminate.
  - destruct s; [discriminate | reflexivity].
  - destruct s; [discriminate |].
    unfold SFeqb, SFcompare. cbn.
    rewrite Z.compare_refl, Pos.compare_cont_refl. reflexivity.
Qed.

Lemma zero_not_positive (x : number) :
  (x =? 0)%float = true -> (0 <? x)%float = false.
Proof.
  rewrite FloatAxioms.eqb_spec, FloatAxioms.ltb_spec.
  destruct (Prim2SF x) as [s|s| |s m e]; vm_compute; try reflexivity; try discriminate;
    destruct s; discriminate.
Qed.

Lemma truthy_num_spec (x : number) :
  truthy_num x = true <-> (x =? 0)%float = false /\ isNaN x = false.
Proof.
  unfold truthy_num, isNaN. rewrite negb_true_iff, orb_false_iff. reflexivity.
Qed.

Lemma truthy_str_nonempty (s : string) : truthy_str s = true <-> s <> "".
Proof. destruct s; cbn; split; congruence. Qed.

(** *** Small integers are exact *)

Lemma digits2_size (m : positive) : digits2_pos m = Pos.size m.
Proof. induction m; cbn; congruence. Qed.

Lemma digits2_bound (m : positive) : Z.pos m < 2 ^ 52 -> Z.pos (digits2_pos m) <= 52.
Proof.
  intros H. rewrite digits2_size.
  pose proof (Pos.size_le m) as Hle.
  apply Pos2Z.pos_le_pos in Hle. rewrite Pos2Z.inj_pow in Hle.
  destruct (Z_le_gt_dec (Z.pos (Pos.size m)) 52) as [Hk | Hk]; [exact Hk | exfalso].
  assert (H53 : 2 ^ 53 <= 2 ^ Z.pos (Pos.size m)) by (apply Z.pow_le_mono_r; lia).
  change (2 ^ 53) with (2 * 2 ^ 52) in H53. lia.
Qed.

Lemma iter_xO_value (m d : positive) : Z.pos (Pos.iter xO m d) = Z.pos m * 2 ^ Z.pos d.
Proof.
  induction d as [| d IH] using Pos.peano_ind.
  - cbn. lia.
  - rewrite Pos.iter_succ, Pos2Z.inj_succ, Z.pow_succ_r by lia.
    rewrite Pos2Z.inj_xO, IH. lia.
Qed.

Lemma iter_xO_digits (m d : positive) :
  Z.pos (digits2_pos (Pos.iter xO m d)) = Z.pos (digits2_pos m) + Z.pos d.
Proof.
  induction d as [| d IH] using Pos.peano_ind.
  - cbn. lia.
  - rewrite Pos.iter_succ. cbn [digits2_pos]. lia.
Qed.

(** The binary64 value of a positive integer below [2^52]: the integer
    itself, its mantissa shifted to 53 bits. *)
Lemma binary_round_small (s : bool) (m : positive) :
  Z.pos m < 2 ^ 52 ->
  exists d : positive,
    binary_round prec emax s m 0 = S754_finite s (Pos.iter xO m d) (Z.neg d)
    /\ SpecFloat.valid_binary prec emax (S754_finite s (Pos.iter xO m d) (Z.neg d)) = true.
Proof.
  intros Hm. pose proof (digits2_bound m Hm) as Hk.
  set (k := digits2_pos m) in *.
  exists (Z.to_pos (53 - Z.pos k)).
  set (d := Z.to_pos (53 - Z.pos k)).
  assert (Hd : Z.pos d = 53 - Z.pos k) by (unfold d; lia).
  assert (Hfexp : fexp prec emax (Z.pos (digits2_pos (Pos.iter xO m d)) + Z.neg d) = Z.neg d).
  { rewrite iter_xO_digits. fold k. unfold fexp, SpecFloat.emin, prec, emax. lia. }
  split.
  - unfold binary_round. fold k.
    assert (He : fexp prec emax (Z.pos k + 0) = Z.neg d).
    { unfold fexp, SpecFloat.emin, prec, emax. lia. }
    rewrite He. unfold shl_align. change (Z.neg d - 0) with (Z.neg d). cbv beta iota zeta.
    unfold binary_round_aux, shr_fexp. cbn [Zdigits2 shr_record_of_loc].
    rewrite Hfexp, Z.sub_diag. cbn [shr shr_m loc_of_shr_record round_nearest_even Zdigits2 shr_record_of_loc].
    rewrite Hfexp, Z.sub_diag. cbn [shr shr_m].
    replace (Z.neg d <=? emax - prec) with true; [reflexivity |].
    symmetry. apply Z.leb_le. unfold emax, prec. lia.
  - cbn [SpecFloat.valid_binary]. unfold bounded, canonical_mantissa. rewrite Hfexp, Z.eqb_refl.
    apply Z.leb_le. unfold emax, prec. lia.
Qed.

Lemma trunc_Z2F (z : Z) : 0 <= z < 2 ^ 52 -> trunc (Z2F z) = Some z.
Proof.
  intros Hz. destruct z as [| m | m]; [reflexivity | | lia].
  unfold Z2F. cbn [binary_normalize].
  destruct (binary_round_small false m (proj2 Hz)) as [d [Hr Hv]].
  unfold trunc, exact. rewrite Hr, (FloatAxioms.Prim2SF_SF2Prim _ Hv).
  cbn [Z.leb Z.compare Z.opp]. rewrite iter_xO_value.
  rewrite Z.div_mul by lia. reflexivity.
Qed.

Lemma dec2F_integer (z : Z) : 0 <= z -> dec2F false z 0 = Z2F z.
Proof.
  intros Hz. destruct z as [| m | m]; [reflexivity | | lia].
  unfold dec2F, Z2F.
  replace (400 <? 0) with false by reflexivity.
  replace (0 + Z.of_nat (String.length (Z_to_string (Z.pos m))) <? -400) with false
    by (symmetry; apply Z.ltb_ge; lia).
  replace (0 <=? 0) with true by reflexivity.
  now rewrite Z.pow_0_r, Z.mul_1_r.
Qed.

(** ** C1: row acceptance *)

Lemma retained_spec (s : Sale.t) :
  SyncView.retained s = true <->
  (0 <? Sale.amount s)%float = true \/ (Sale.product s <> "" /\ Sale.product s <> "Unknown").
Proof.
  unfold SyncView.retained.
  rewrite orb_true_iff, andb_true_iff, !negb_true_iff, !String.eqb_neq. tauto.
Qed.

Lemma normalized_in_batch (env : Env) (mapping : Mapping.t) (fileName : string)
    (json : list Row) (idx : nat) (item : Row) :
  json !! idx = Some item ->
  In (SyncView.normalizeRow env mapping fileName idx item)
     (imap (SyncView.normalizeRow env mapping fileName) json).
Proof.
  intros H. apply list_elem_of_In, list_elem_of_lookup. exists idx.
  rewrite list_lookup_imap, H. reflexivity.
Qed.

(** C1.  For every row of a batch, the record it produces is in the
    output exactly when its amount is greater than 0 or its product is
    neither empty nor "Unknown"; with amount 0 a record named "Unknown"
    is dropped and a record named "Widget" is kept. *)
Theorem C1_retention (env : Env) (mapping : Mapping.t) (fileName : string)
    (json : list Row) (idx : nat) (item : Row) :
  json !! idx = Some item ->
  let s := SyncView.normalizeRow env mapping fileName idx item in
  let out := SyncView.newSales env mapping fileName json in
  (In s out <->
     (0 <? Sale.amount s)%float = true \/ (Sale.product s <> "" /\ Sale.product s <> "Unknown"))
  /\ ((Sale.amount s =? 0)%float = true -> Sale.product s = "Unknown" -> ~ In s out)
  /\ ((Sale.amount s =? 0)%float = true -> Sale.product s = "Widget" -> In s out).
Proof.
  intros Hrow s out.
  assert (Hin : In s out <-> SyncView.retained s = true).
  { unfold out, SyncView.newSales. rewrite List.filter_In. split; [tauto |].
    intros Hr. split; [| exact Hr]. now apply normalized_in_batch. }
  split; [| split].
  - rewrite Hin. apply retained_spec.
  - intros Hz Hp. rewrite Hin, retained_spec. intros [Hpos | [_ Hne]].
    + rewrite (zero_not_positive _ Hz) in Hpos. discriminate.
    + contradiction.
  - intros _ Hp. rewrite Hin, retained_spec. right. rewrite Hp. split; discriminate.
Qed.

Lemma C1_retention_witness :
  [sampleRow (CStr "") (CStr "") (CNum 0) (CStr "");
   sampleRow (CStr "") (CStr "Widget") (CNum 0) (CStr "")] !! 1%nat
    = Some (sampleRow (CStr "") (CStr "Widget") (CNum 0) (CStr ""))
  /\ In (SyncView.normalizeRow (sampleEnv 0) sampleMapping "jan.csv" 1
           (sampleRow (CStr "") (CStr "Widget") (CNum 0) (CStr "")))
        (SyncView.newSales (sampleEnv 0) sampleMapping "jan.csv"
           [sampleRow (CStr "") (CStr "") (CNum 0) (CStr "");
            sampleRow (CStr "") (CStr "Widget") (CNum 0) (CStr "")]).
Proof.
  split; [reflexivity |].
  apply (C1_retention (sampleEnv 0) sampleMapping "jan.csv"
           [sampleRow (CStr "") (CStr "") (CNum 0) (CStr "");
            sampleRow (CStr "") (CStr "Widget") (CNum 0) (CStr "")] 1
           (sampleRow (CStr "") (CStr "Widget") (CNum 0) (CStr "")) eq_refl);
    vm_compute; reflexivity.
Defined.

Example C1_batch_of_two :
  map Sale.product
    (SyncView.newSales (sampleEnv 0) sampleMapping "jan.csv"
       [sampleRow (CStr "") (CStr "") (CNum 0) (CStr "");
        sampleRow (CStr "") (CStr "Widget") (CNum 0) (CStr "")]) = ["Widget"].
Proof. vm_compute. reflexivity. Qed.

(** ** C2: an already imported file *)

Lemma includes_In (x : string) (xs : list string) : includes x xs = true <-> In x xs.
Proof.
  unfold includes. rewrite existsb_exists. split.
  - intros [y [Hy He]]. apply String.eqb_eq in He. now subst.
  - intros H. exists x. split; [exact H | apply String.eqb_refl].
Qed.

Lemma processData_duplicate (env : Env) (w : World) (m : Master.t)
    (files : list string) (data fileName : string) :
  master w = Some m ->
  Master.syncedFiles m = Some files ->
  In fileName files ->
  SyncView.processData env w data fileName
  = setIsProcessing false
      (setError
         (Some ("File " ++ SyncView.quote ++ fileName ++ SyncView.quote
                  ++ " has already been synced."))
         (setProcessingStep "Reading report content..."
            (setError None (setIsProcessing true w)))).
Proof.
  intros Hm Hfiles Hin. unfold SyncView.processData.
  rewrite Hm, Hfiles. apply includes_In in Hin. now rewrite Hin.
Qed.

(** C2.  Importing a file whose name is already among the ledger's
    synced files is rejected before the spreadsheet is read: no external
    call is made, nothing is normalized or left pending, no success is
    reported, and the ledger and its stored copy are unchanged; the
    outcome does not depend on the bytes of the file, on the reader or on
    the mapping assistant. *)
Theorem C2_duplicate_import_rejected (env : Env) (w : World) (m : Master.t)
    (files : list string) (data fileName : string) :
  master w = Some m ->
  Master.syncedFiles m = Some files ->
  In fileName files ->
  let w' := SyncView.processData env w data fileName in
  master w' = Some m
  /\ stored w' = stored w
  /\ calls w' = calls w
  /\ pendingData (ui w') = pendingData (ui w)
  /\ manualMapping (ui w') = manualMapping (ui w)
  /\ syncStatus (ui w') = syncStatus (ui w)
  /\ processingStep (ui w') = "Reading report content..."
  /\ isProcessing (ui w') = false
  /\ error (ui w')
     = Some ("File " ++ SyncView.quote ++ fileName ++ SyncView.quote
               ++ " has already been synced.")
  /\ (forall env' data', SyncView.processData env' w data' fileName = w').
Proof.
  intros Hm Hfiles Hin w'. subst w'.
  rewrite (processData_duplicate env w m files data fileName Hm Hfiles Hin).
  cbn. rewrite Hm. repeat split; try reflexivity.
  intros env' data'. now apply processData_duplicate with (m := m) (files := files).
Qed.

Lemma C2_duplicate_import_rejected_witness :
  master (sampleWorld ["jan.csv"]) = Some (sampleMaster ["jan.csv"])
  /\ In "jan.csv" ["jan.csv"]
  /\ master (SyncView.processData (sampleEnv 0) (sampleWorld ["jan.csv"]) "bytes" "jan.csv")
     = Some (sampleMaster ["jan.csv"]).
Proof.
  split; [reflexivity |]. split; [left; reflexivity |].
  apply (C2_duplicate_import_rejected (sampleEnv 0) (sampleWorld ["jan.csv"])
           (sampleMaster ["jan.csv"]) ["jan.csv"] "bytes" "jan.csv"
           eq_refl eq_refl (or_introl eq_refl)).
Defined.

(** *** What an import does to the ledger *)

Lemma finalizeProcess_master (env : Env) (w : World) (json : list Row)
    (mapping : Mapping.t) (fileName : string) :
  let w' := SyncView.finalizeProcess env w json mapping fileName in
  (master w' = master w /\ stored w' = stored w)
  \/ exists m',
       master w' = Some m' /\ stored w' = Some m' /\ counters_consistent m'
       /\ (fileName <> "" ->
           exists files, Master.syncedFiles m' = Some files /\ In fileName files).
Proof.
  intros w'. subst w'. unfold SyncView.finalizeProcess.
  destruct (SyncView.newSales env mapping fileName json) as [| s sales];
    [left; split; reflexivity |].
  unfold App.updateMaster. cbn [master setProcessingStep set_ui].
  destruct (master w) as [m |] eqn:Hm; [right | left; cbn; rewrite Hm; split; reflexivity].
  eexists. split; [reflexivity |]. split; [reflexivity |]. split; [split; reflexivity |].
  intros Hne. apply truthy_str_nonempty in Hne. cbn [Master.syncedFiles]. rewrite Hne.
  cbn [andb]. eexists. split; [reflexivity |].
  destruct (includes fileName (default [] (Master.syncedFiles m))) eqn:Hi; cbn [negb].
  - now apply includes_In.
  - apply in_or_app. right. now left.
Qed.

Lemma processData_master (env : Env) (w : World) (data fileName : string) :
  let w' := SyncView.processData env w data fileName in
  (master w' = master w /\ stored w' = stored w)
  \/ exists m',
       master w' = Some m' /\ stored w' = Some m' /\ counters_consistent m'
       /\ (fileName <> "" ->
           exists files, Master.syncedFiles m' = Some files /\ In fileName files).
Proof.
  intros w'. subst w'. unfold SyncView.processData.
  destruct (master w) as [m |] eqn:Hm; [| left; rewrite Hm; split; reflexivity].
  destruct (match Master.syncedFiles m with
            | Some fs => includes fileName fs
            | None => false
            end); [left; cbn; rewrite Hm; split; reflexivity |].
  destruct (xlsxRead env data) as [[| first rest] | message];
    try (left; cbn; rewrite Hm; split; reflexivity).
  destruct (Master.mappingSchema m) as [mp |].
  - destruct (truthy_field (Mapping.date mp) && truthy_field (Mapping.product mp)).
    + destruct (finalizeProcess_master env
                  (call (setProcessingStep "Reading report content..."
                           (setError None (setIsProcessing true w))) (XlsxReadCall data))
                  (first :: rest) mp fileName) as [[H1 H2] | H]; [left | right; exact H].
      rewrite H1, H2. cbn. rewrite Hm. split; reflexivity.
    + left. cbn. rewrite Hm. split; reflexivity.
  - destruct (aiMapping env first) as [mp |];
      [| left; cbn; rewrite Hm; split; reflexivity].
    destruct (truthy_field (Mapping.date mp) && truthy_field (Mapping.product mp)).
    + destruct (finalizeProcess_master env
                  (call (setProcessingStep "AI is mapping your columns..."
                           (call (setProcessingStep "Reading report content..."
                                    (setError None (setIsProcessing true w)))
                              (XlsxReadCall data))) (AiMappingCall first))
                  (first :: rest) mp fileName) as [[H1 H2] | H]; [left | right; exact H].
      rewrite H1, H2. cbn. rewrite Hm. split; reflexivity.
    + left. cbn. rewrite Hm. split; reflexivity.
Qed.

Lemma modal_master (env : Env) (w : World) (a : SyncView.ModalAction) :
  let w' := SyncView.modal env w a in
  (master w' = master w /\ stored w' = stored w)
  \/ exists m', master w' = Some m' /\ stored w' = Some m' /\ counters_consistent m'.
Proof.
  intros w'. subst w'. unfold SyncView.modal.
  destruct (pendingData (ui w)) as [[json fileName] |]; [| left; split; reflexivity].
  destruct (manualMapping (ui w)) as [mm |]; [| left; split; reflexivity].
  destruct a; try (left; split; reflexivity).
  destruct (finalizeProcess_master env w json mm fileName) as [H | [m' [H1 [H2 [H3 _]]]]];
    [left; exact H | right; exists m'; repeat split; assumption || apply H3].
Qed.

(** Importing the same file name twice: when a first import of a file
    (with a name that is not empty) has changed the ledger, a second
    import under that name, whatever the file then holds and whatever the
    environment, is rejected before the spreadsheet is read and leaves the
    ledger and its stored copy as the first import left them. *)
Theorem second_import_rejected (env env' : Env) (w : World) (data data' fileName : string) :
  fileName <> "" ->
  let w1 := SyncView.processData env w data fileName in
  master w1 <> master w ->
  let w2 := SyncView.processData env' w1 data' fileName in
  master w2 = master w1
  /\ stored w2 = stored w1
  /\ calls w2 = calls w1
  /\ error (ui w2)
     = Some ("File " ++ SyncView.quote ++ fileName ++ SyncView.quote
               ++ " has already been synced.").
Proof.
  intros Hne w1 Hchanged w2.
  destruct (processData_master env w data fileName) as [[H _] | [m' [Hm [_ [_ Hfiles]]]]];
    [contradiction |].
  destruct (Hfiles Hne) as [files [Hf Hin]].
  fold w1 in Hm. subst w2.
  rewrite (processData_duplicate env' w1 m' files data' fileName Hm Hf Hin).
  repeat split; reflexivity.
Qed.

Lemma second_import_rejected_witness :
  let row := sampleRow (CStr "2024-01-07") (CStr "Widget") (CNum 5) (CNum 1) in
  let env := sampleEnvWith 0 [row] (Some sampleMapping) in
  let w1 := SyncView.processData env (sampleWorld []) "bytes" "jan.csv" in
  "jan.csv" <> ""
  /\ master w1 <> master (sampleWorld [])
  /\ master (SyncView.processData env w1 "bytes" "jan.csv") = master w1.
Proof.
  intros row env w1.
  assert (Hne : "jan.csv" <> "") by discriminate.
  assert (Hch : master w1 <> master (sampleWorld [])) by (vm_compute; discriminate).
  split; [exact Hne |]. split; [exact Hch |].
  exact (proj1 (second_import_rejected env env (sampleWorld []) "bytes" "bytes" "jan.csv"
                  Hne Hch)).
Defined.

(** A batch with no retained row: the import ends with the message "No
    data found." and the ledger, its stored copy and the pending state
    are as before. *)
Theorem empty_batch_leaves_ledger (env : Env) (w : World) (json : list Row)
    (mapping : Mapping.t) (fileName : string) :
  SyncView.newSales env mapping fileName json = [] ->
  let w' := SyncView.finalizeProcess env w json mapping fileName in
  master w' = master w /\ stored w' = stored w /\ calls w' = calls w
  /\ pendingData (ui w') = pendingData (ui w)
  /\ syncStatus (ui w') = syncStatus (ui w)
  /\ error (ui w') = Some "No data found."
  /\ isProcessing (ui w') = false.
Proof.
  intros H w'. subst w'. unfold SyncView.finalizeProcess. rewrite H.
  repeat split; reflexivity.
Qed.

Lemma empty_batch_leaves_ledger_witness :
  let rows := [sampleRow (CStr "") (CStr "") (CNum 0) (CStr "")] in
  SyncView.newSales (sampleEnv 0) sampleMapping "jan.csv" rows = []
  /\ master (SyncView.finalizeProcess (sampleEnv 0) (sampleWorld []) rows sampleMapping "jan.csv")
     = master (sampleWorld []).
Proof.
  intros rows.
  assert (H : SyncView.newSales (sampleEnv 0) sampleMapping "jan.csv" rows = [])
    by (vm_compute; reflexivity).
  split; [exact H |].
  exact (proj1 (empty_batch_leaves_ledger (sampleEnv 0) (sampleWorld []) rows sampleMapping
                  "jan.csv" H)).
Defined.

(** ** C8: the counters of the ledger *)

(** C8.  After an append the ledger holds the old records followed by
    the new ones, [totalSales] is the length of that sequence and
    [totalRevenue] the sum of its amounts, both computed over the whole
    sequence from zero (the previous counters play no part); the stored
    copy is the new ledger.  Hence every import and every action of the
    mapping modal either leaves the ledger as it is or leaves it, and its
    stored copy, with counters that agree with its records. *)
Theorem C8_counters_recomputed (env : Env) (w : World) (m : Master.t)
    (newSales : list Sale.t) (schema : option Mapping.t) (fileName : option string) :
  master w = Some m ->
  (exists m',
    App.updateMaster env w newSales schema fileName
      = (call {| master := Some m'; stored := Some m'; ui := ui w; calls := calls w |}
           (LocalStorageSet m'),
         Z2F (Z.of_nat (length newSales)))
    /\ Master.data m' = (Master.data m ++ newSales)%list
    /\ Master.totalSales m' = Z2F (Z.of_nat (length (Master.data m')))
    /\ Master.totalRevenue m'
       = fold_left (fun acc s => (acc + Sale.amount s)%float) (Master.data m') 0%float)
  /\ (forall data name,
        let w' := SyncView.processData env w data name in
        (master w' = master w /\ stored w' = stored w)
        \/ exists m', master w' = Some m' /\ stored w' = Some m' /\ counters_consistent m')
  /\ (forall action,
        let w' := SyncView.modal env w action in
        (master w' = master w /\ stored w' = stored w)
        \/ exists m', master w' = Some m' /\ stored w' = Some m' /\ counters_consistent m').
Proof.
  intros Hm. split; [| split].
  - unfold App.updateMaster. rewrite Hm.
    eexists. split; [reflexivity |]. cbn. repeat split; reflexivity.
  - intros data name.
    destruct (processData_master env w data name) as [H | [m' [H1 [H2 [H3 _]]]]];
      [left; exact H | right; exists m'; repeat split; assumption || apply H3].
  - intros action. apply modal_master.
Qed.

Lemma C8_counters_recomputed_witness :
  master (sampleWorld []) = Some (sampleMaster [])
  /\ exists m',
       master (fst (App.updateMaster (sampleEnv 0) (sampleWorld [])
                      [sampleSale "2024-01-07" "Widget" 5 1; sampleSale "2024-01-08" "Ring" 7 2]
                      None (Some "jan.csv"))) = Some m'
       /\ Master.totalSales m' = 2%float /\ Master.totalRevenue m' = 12%float.
Proof.
  split; [reflexivity |].
  destruct (proj1 (C8_counters_recomputed (sampleEnv 0) (sampleWorld [])
              (sampleMaster [])
              [sampleSale "2024-01-07" "Widget" 5 1; sampleSale "2024-01-08" "Ring" 7 2]
              None (Some "jan.csv") eq_refl)) as [m' [Hu [Hd [Hs Hr]]]].
  exists m'. rewrite Hu, Hs, Hr, Hd. repeat split; vm_compute; reflexivity.
Defined.

(** ** C9: quantity coercion *)

Lemma parseInt_cases (s : string) :
  isNaN (parseInt s) = true
  \/ (parseInt s =? 0)%float = true
  \/ exists z : Z, z <> 0 /\ parseInt s = Z2F z.
Proof.
  unfold parseInt.
  destruct (scan_sign (trimStart s)) as [neg s1].
  destruct (match strip_prefix "0x" s1, strip_prefix "0X" s1 with
            | Some r, _ | None, Some r => (16, r)
            | None, None => (10, s1)
            end) as [radix s2].
  destruct (scan_digits radix s2 0 0) as [[v len] rest].
  destruct (len =? 0); [left; reflexivity |].
  destruct (v =? 0) eqn:Hv.
  - right; left. destruct neg; reflexivity.
  - right; right. apply Z.eqb_neq in Hv.
    exists (if neg then - v else v). split; [destruct neg; lia | reflexivity].
Qed.

(** C9 as stated fails: a negative quantity cell gives a record, kept
    in the batch, with that negative quantity. *)
Lemma C9_negative_quantity :
  let out :=
    SyncView.newSales (sampleEnv 0) sampleMapping "jan.csv"
      [sampleRow (CStr "") (CStr "Widget") (CNum 5) (CNum (-3))] in
  map Sale.quantity out = [(-3)%float]
  /\ forallb (fun s => (Sale.quantity s <=? 0)%float) out = true.
Proof. vm_compute. split; reflexivity. Qed.

(** C9, amended.  The quantity of a normalized record is [parseInt] of
    the mapped cell when that is a number other than zero, of either sign,
    and 1 otherwise (missing cell, text that does not parse, a value that
    parses to zero).  It is therefore the Number of a non-zero integer:
    never 0 and never NaN, but negative when the cell is. *)
Theorem C9_quantity_nonzero (env : Env) (mapping : Mapping.t) (fileName : string)
    (idx : nat) (item : Row) :
  let c := prop item (Mapping.quantity mapping) in
  let p := parseInt (ToString env c) in
  let q := Sale.quantity (SyncView.normalizeRow env mapping fileName idx item) in
  ((q =? 0)%float = false /\ isNaN q = false)
  /\ (exists z : Z, z <> 0 /\ q = Z2F z)
  /\ (c = CUndef -> q = 1%float)
  /\ (isNaN p = true -> q = 1%float)
  /\ ((p =? 0)%float = true -> q = 1%float)
  /\ ((p =? 0)%float = false -> isNaN p = false -> q = p).
Proof.
  intros c p q.
  assert (Hq : q = if truthy_num p then p else 1%float) by reflexivity.
  destruct (truthy_num p) eqn:Ht.
  - apply truthy_num_spec in Ht as [Hz Hn].
    repeat split; try (rewrite Hq; assumption); try congruence.
    + destruct (parseInt_cases (ToString env c)) as [H | [H | [z [Hz' He]]]];
        fold p in H || fold p in He; try congruence.
      exists z. split; [assumption | congruence].
    + intros Hc. exfalso. subst c. unfold p in Hn. rewrite Hc in Hn. vm_compute in Hn.
      discriminate.
  - repeat split; try assumption; try (rewrite Hq; reflexivity).
    + exists 1. split; [lia | rewrite Hq; reflexivity].
    + intros Hz Hn. exfalso.
      assert (truthy_num p = true) by (apply truthy_num_spec; split; assumption).
      congruence.
Qed.

(** ** C10: enrichment *)







(** ** C3: spreadsheet serial dates *)

Lemma parseDate_number (env : Env) (x : number) :
  SyncView.parseDate env (CNum x)
  = if negb (truthy_num x) then today env
    else if (25569 <? x)%float
         then match Date_of_number (Math_round ((x - 25569) * 86400 * 1000)%float) with
              | Some t => toLocaleDateString env t
              | None => today env
              end
         else today env.
Proof. reflexivity. Qed.

Lemma local_day_after_epoch (env : Env) :
  -86400000 <= tz env < 86400000 ->
  toLocaleDateString env 86400000
  = if tz env <? 0 then "1970-01-01" else "1970-01-02".
Proof.
  intros Htz. unfold toLocaleDateString, LocalTime, Day, msPerDay.
  destruct (tz env <? 0) eqn:Hneg.
  - apply Z.ltb_lt in Hneg.
    replace ((86400000 + tz env) / 86400000) with 0
      by (symmetry; apply Z.div_small; lia).
    reflexivity.
  - apply Z.ltb_ge in Hneg.
    replace ((86400000 + tz env) / 86400000) with 1
      by (apply (Z.div_unique_pos _ _ 1 (tz env)); lia).
    reflexivity.
Qed.

(** C3.  A numeric date cell is read as a spreadsheet serial date exactly
    when it is greater than 25569: then the date is the local day of the
    instant [round((x - 25569) * 86400 * 1000)] milliseconds after the
    epoch (today's when that is no valid instant), and otherwise it is
    today's.  25569 itself gives today's date; 25570 gives 1970-01-01 in
    time zones behind UTC and 1970-01-02 elsewhere. *)
Theorem C3_serial_date_threshold (env : Env) (x : number) :
  -86400000 <= tz env < 86400000 ->
  ((25569 <? x)%float = true ->
     SyncView.parseDate env (CNum x)
     = match Date_of_number (Math_round ((x - 25569) * 86400 * 1000)%float) with
       | Some t => toLocaleDateString env t
       | None => today env
       end)
  /\ ((25569 <? x)%float = false -> SyncView.parseDate env (CNum x) = today env)
  /\ SyncView.parseDate env (CNum 25569) = today env
  /\ SyncView.parseDate env (CNum 25570)
     = (if tz env <? 0 then "1970-01-01" else "1970-01-02")
  /\ (SyncView.parseDate env (CNum 25570) = "1970-01-01"
      \/ SyncView.parseDate env (CNum 25570) = "1970-01-02").
Proof.
  intros Htz.
  assert (H70 : SyncView.parseDate env (CNum 25570)
                = if tz env <? 0 then "1970-01-01" else "1970-01-02").
  { rewrite parseDate_number.
    change (truthy_num 25570) with true.
    change (25569 <? 25570)%float with true.
    change (Date_of_number (Math_round ((25570 - 25569) * 86400 * 1000)%float))
      with (Some 86400000).
    cbn [negb]. now apply local_day_after_epoch. }
  split; [| split; [| split; [| split]]].
  - intros Hgt. rewrite parseDate_number, (above_serial_truthy x Hgt), Hgt. reflexivity.
  - intros Hle. rewrite parseDate_number, Hle. now destruct (negb (truthy_num x)).
  - reflexivity.
  - exact H70.
  - rewrite H70. destruct (tz env <? 0); [left | right]; reflexivity.
Qed.

Lemma C3_serial_date_threshold_witness :
  (-86400000 <= tz (sampleEnv (-18000000)) < 86400000)
  /\ SyncView.parseDate (sampleEnv (-18000000)) (CNum 45000) = "2023-03-14"
  /\ SyncView.parseDate (sampleEnv (-18000000)) (CNum 25569) = "2023-11-14"
  /\ SyncView.parseDate (sampleEnv (-18000000)) (CNum 25570) = "1970-01-01".
Proof.
  assert (Htz : -86400000 <= tz (sampleEnv (-18000000)) < 86400000) by (cbn; lia).
  split; [exact Htz |].
  destruct (C3_serial_date_threshold (sampleEnv (-18000000)) 45000 Htz)
    as [Hgt [_ [H69 [H70 _]]]].
  split; [| split].
  - rewrite Hgt by reflexivity. reflexivity.
  - rewrite H69. reflexivity.
  - rewrite H70. reflexivity.
Defined.

(** ** C4: the custom time range *)

Lemma leb_lex_le (a b : string) : String.leb a b = true <-> lex_le a b.
Proof.
  unfold String.leb. revert b.
  induction a as [| c1 a IH]; intros [| c2 b]; cbn.
  - split; [constructor | reflexivity].
  - split; [constructor | reflexivity].
  - split; [discriminate | inversion 1].
  - unfold Ascii.compare. destruct (N.compare_spec (N_of_ascii c1) (N_of_ascii c2)) as [He | Hl | Hg].
    + apply (f_equal ascii_of_N) in He. rewrite !ascii_N_embedding in He. subst c2.
      rewrite IH. split; [now constructor |].
      inversion 1; subst; [unfold code in *; lia | assumption].
    + split; [| reflexivity]. intros _. apply lex_le_lt. unfold code. lia.
    + split; [discriminate |].
      inversion 1; subst; unfold code in *; lia.
Qed.

Lemma leb_empty_right (a : string) : a <> "" -> String.leb a "" = false.
Proof. destruct a; [congruence | reflexivity]. Qed.

Lemma custom_filter (env : Env) (data : list Sale.t) (customStart customEnd : string) :
  customStart <> "" -> customEnd <> "" ->
  DashboardView.filteredData env data DashboardView.custom customStart customEnd
  = List.filter (fun s => String.leb customStart (Sale.date s)
                          && String.leb (Sale.date s) customEnd) data.
Proof.
  intros Hs He. unfold DashboardView.filteredData.
  apply truthy_str_nonempty in He as He'. apply truthy_str_nonempty in Hs as Hs'.
  rewrite Hs', He'. cbn [negb orb].
  apply List.filter_ext. intros s. unfold str_ge, str_le.
  destruct (Sale.date s) eqn:Hd; cbn [truthy_str negb]; [| reflexivity].
  now rewrite (leb_empty_right _ Hs).
Qed.

(** C4.  With both bounds set, the custom range keeps, in order, exactly
    the records whose date string lies between the start and the end
    string in lexicographic order, both ends included; of ten records
    dated 2024-01-01 to 2024-01-10 the range 2024-01-03..2024-01-05 keeps
    the third, fourth and fifth. *)
Theorem C4_custom_range_inclusive (env : Env) (data : list Sale.t)
    (customStart customEnd : string) :
  customStart <> "" -> customEnd <> "" ->
  let out := DashboardView.filteredData env data DashboardView.custom customStart customEnd in
  out = List.filter (fun s => String.leb customStart (Sale.date s)
                              && String.leb (Sale.date s) customEnd) data
  /\ (forall s, In s out <->
        In s data /\ lex_le customStart (Sale.date s) /\ lex_le (Sale.date s) customEnd)
  /\ (forall records,
        map Sale.date records
        = ["2024-01-01"; "2024-01-02"; "2024-01-03"; "2024-01-04"; "2024-01-05";
           "2024-01-06"; "2024-01-07"; "2024-01-08"; "2024-01-09"; "2024-01-10"] ->
        DashboardView.filteredData env records DashboardView.custom "2024-01-03" "2024-01-05"
        = take 3 (drop 2 records)).
Proof.
  intros Hs He out. subst out. split; [| split].
  - now apply custom_filter.
  - intros s. rewrite custom_filter by assumption.
    rewrite List.filter_In, andb_true_iff, !leb_lex_le. reflexivity.
  - intros records Hd. rewrite custom_filter by discriminate.
    do 10 (destruct records as [| ? records]; [discriminate |]).
    destruct records; [| discriminate].
    cbn in Hd. inversion Hd as [[H1 H2 H3 H4 H5 H6 H7 H8 H9 H10]].
    cbn [List.filter]. rewrite H1, H2, H3, H4, H5, H6, H7, H8, H9, H10.
    reflexivity.
Qed.

Lemma C4_custom_range_inclusive_witness :
  "2024-01-03" <> "" /\ "2024-01-05" <> ""
  /\ DashboardView.filteredData (sampleEnv 0)
       (map (fun d => sampleSale d "Widget" 5 1)
          ["2024-01-01"; "2024-01-02"; "2024-01-03"; "2024-01-04"; "2024-01-05";
           "2024-01-06"; "2024-01-07"; "2024-01-08"; "2024-01-09"; "2024-01-10"])
       DashboardView.custom "2024-01-03" "2024-01-05"
     = map (fun d => sampleSale d "Widget" 5 1) ["2024-01-03"; "2024-01-04"; "2024-01-05"].
Proof.
  split; [discriminate |]. split; [discriminate |].
  destruct (C4_custom_range_inclusive (sampleEnv 0) [] "2024-01-03" "2024-01-05")
    as [_ [_ H]]; [discriminate | discriminate |].
  rewrite H; reflexivity.
Defined.

(** ** C5: weekday buckets *)

Lemma weekday_core (y' c t d : Z) :
  (c - 1 - t - 719464) mod 7 = 0 ->
  (y' / 400 * 146097 + (y' mod 400 * 365 + y' mod 400 / 4 - y' mod 400 / 100 + (c + d - 1))
     - 719468 + 4) mod 7
  = (y' + y' / 4 - y' / 100 + y' / 400 + t + d) mod 7.
Proof.
  intros Hc.
  pose proof (Z.div_mod y' 400 ltac:(lia)) as Hy.
  set (e := y' / 400) in *. set (r := y' mod 400) in *.
  assert (H4 : y' / 4 = 100 * e + r / 4).
  { rewrite Hy. replace (400 * e + r) with (100 * e * 4 + r) by lia.
    apply Z.div_add_l. lia. }
  assert (H100 : y' / 100 = 4 * e + r / 100).
  { rewrite Hy. replace (400 * e + r) with (4 * e * 100 + r) by lia.
    apply Z.div_add_l. lia. }
  rewrite H4, H100.
  apply Z.mod_divide in Hc; [| lia]. destruct Hc as [k Hk].
  replace (e * 146097 + (r * 365 + r / 4 - r / 100 + (c + d - 1)) - 719468 + 4)
    with (y' + (100 * e + r / 4) - (4 * e + r / 100) + e + t + d + (20800 * e + 52 * r + k) * 7)
    by lia.
  apply Z.mod_add. lia.
Qed.

Lemma days_weekday (y m d : Z) :
  1 <= m <= 12 -> (days_from_civil y m d + 4) mod 7 = weekday_of_date y m d.
Proof.
  intros Hm.
  assert (Hc : m = 1 \/ m = 2 \/ m = 3 \/ m = 4 \/ m = 5 \/ m = 6 \/ m = 7 \/ m = 8
               \/ m = 9 \/ m = 10 \/ m = 11 \/ m = 12) by lia.
  unfold days_from_civil, weekday_of_date.
  repeat (destruct Hc as [-> | Hc]); try subst m;
    cbn -[Z.mul Z.add Z.sub Z.div Z.modulo];
    apply weekday_core; vm_compute; reflexivity.
Qed.

Lemma MakeDay_civil (y m d : Z) :
  1 <= m <= 12 -> MakeDay y (m - 1) d = days_from_civil y m d.
Proof.
  intros Hm. unfold MakeDay.
  replace ((m - 1) / 12) with 0 by (symmetry; apply Z.div_small; lia).
  replace ((m - 1) mod 12 + 1) with m by (rewrite Z.mod_small; lia).
  replace (y + 0) with y by lia.
  unfold days_from_civil. cbv zeta. lia.
Qed.

Lemma days_from_civil_bounds (y m d : Z) :
  0 <= y <= 9999 -> 1 <= m <= 12 -> 1 <= d <= 31 ->
  -800000 <= days_from_civil y m d <= 3000000.
Proof.
  intros Hy Hm Hd. unfold days_from_civil. cbv zeta.
  destruct (m <=? 2); destruct (2 <? m); Z.div_mod_to_equations; lia.
Qed.

Lemma split_on_no_sep (sep : ascii) (a : string) :
  includes_char sep a = false -> split_on sep a = [a].
Proof.
  induction a as [| c a IH]; cbn [split_on includes_char]; [reflexivity |].
  intros H. apply orb_false_iff in H as [Hc Ha].
  rewrite Hc, (IH Ha). reflexivity.
Qed.

Lemma split_on_app (sep : ascii) (a r : string) :
  includes_char sep a = false ->
  split_on sep (a ++ String sep r) = a :: split_on sep r.
Proof.
  induction a as [| c a IH].
  - intros _. change (EmptyString ++ String sep r) with (String sep r).
    cbn [split_on]. now rewrite Ascii.eqb_refl.
  - change (String c a ++ String sep r) with (String c (a ++ String sep r)).
    cbn [split_on includes_char].
    intros H. apply orb_false_iff in H as [Hc Ha]. rewrite Hc, (IH Ha). reflexivity.
Qed.

Lemma includes_char_app (c : ascii) (a b : string) :
  includes_char c (a ++ b) = includes_char c a || includes_char c b.
Proof.
  induction a as [| x a IH]; [reflexivity |].
  change (String x a ++ b) with (String x (a ++ b)). cbn [includes_char].
  now rewrite IH, orb_assoc.
Qed.

(** Facts about a decimal digit character. *)
Lemma digit_facts (c : ascii) :
  is_digit c = true ->
  is_space c = false
  /\ hex_val c = Some (digit_val c)
  /\ (digit_val c <? 10) = true
  /\ (0 <=? digit_val c) = true
  /\ Ascii.eqb c "-" = false
  /\ (forall r, scan_sign (String c r) = (false, String c r))
  /\ Ascii.eqb "I" c = false
  /\ Ascii.eqb "x" c = false /\ Ascii.eqb "X" c = false
  /\ Ascii.eqb "o" c = false /\ Ascii.eqb "O" c = false
  /\ Ascii.eqb "b" c = false /\ Ascii.eqb "B" c = false.
Proof.
  destruct c as [[] [] [] [] [] [] [] []]; intros H; try discriminate H;
    repeat split; reflexivity.
Qed.

Lemma digit_char_spec (k : Z) :
  is_digit (digit_char k) = true /\ digit_val (digit_char k) = k mod 10.
Proof.
  pose proof (Z.mod_pos_bound k 10 ltac:(lia)) as Hb.
  unfold is_digit, digit_val, code, digit_char.
  rewrite N_ascii_embedding by lia.
  rewrite Z2N.id by lia. split; [| lia].
  apply andb_true_iff. split; apply Z.leb_le; lia.
Qed.

Lemma all_digits_cons (c : ascii) (r : string) :
  all_digits (String c r) = is_digit c && all_digits r.
Proof. reflexivity. Qed.

Lemma trimStart_digits (s : string) : all_digits s = true -> trimStart s = s.
Proof.
  destruct s as [| c r]; [reflexivity |]. rewrite all_digits_cons.
  intros H. apply andb_true_iff in H as [Hc _].
  cbn [trimStart]. now rewrite (proj1 (digit_facts c Hc)).
Qed.

Lemma all_digits_rev (s acc : string) :
  all_digits (rev_string s acc) = all_digits s && all_digits acc.
Proof.
  revert acc. induction s as [| c r IH]; intros acc; [reflexivity |].
  cbn [rev_string]. rewrite IH, !all_digits_cons.
  destruct (is_digit c), (all_digits r), (all_digits acc); reflexivity.
Qed.

Lemma rev_string_rev (s a b : string) :
  rev_string (rev_string s a) b = rev_string a (s ++ b).
Proof.
  revert a b. induction s as [| c r IH]; intros a b; [reflexivity |].
  cbn [rev_string]. rewrite IH. reflexivity.
Qed.

Lemma trim_digits (s : string) : all_digits s = true -> trim s = s.
Proof.
  intros H. unfold trim, trimEnd. rewrite (trimStart_digits s H).
  rewrite trimStart_digits by (rewrite all_digits_rev, H; reflexivity).
  rewrite rev_string_rev. cbn [rev_string]. 
  induction s; [reflexivity |]. 
  change (String a s ++ "") with (String a (s ++ "")). f_equal.
  clear. induction s as [| c r IH]; [reflexivity |].
  change (String c r ++ "") with (String c (r ++ "")). now rewrite IH.
Qed.

Lemma strip_prefix_letter (z l : ascii) (s : string) :
  all_digits s = true ->
  (forall c, is_digit c = true -> Ascii.eqb l c = false) ->
  strip_prefix (String z (String l EmptyString)) s = None.
Proof.
  intros H Hl. destruct s as [| c1 [| c2 r]]; cbn [strip_prefix]; try reflexivity.
  - now destruct (Ascii.eqb z c1).
  - rewrite !all_digits_cons in H.
    apply andb_true_iff in H as [_ H]. apply andb_true_iff in H as [H2 _].
    rewrite (Hl c2 H2). now destruct (Ascii.eqb z c1).
Qed.

Lemma scan_all_digits (s : string) (acc len : Z) :
  all_digits s = true ->
  scan_digits 10 s acc len
  = (fold_left (fun a c => 10 * a + digit_val c) (list_ascii_of_string s) acc,
     len + Z.of_nat (String.length s), EmptyString).
Proof.
  revert acc len. induction s as [| c r IH]; intros acc len H.
  - cbn [scan_digits list_ascii_of_string fold_left String.length Z.of_nat].
    now rewrite Z.add_0_r.
  - rewrite all_digits_cons in H. apply andb_true_iff in H as [Hc Hr].
    destruct (digit_facts c Hc) as [_ [Hh [Hlt _]]].
    cbn [scan_digits list_ascii_of_string fold_left String.length].
    rewrite Hh, Hlt, (IH _ _ Hr).
    replace (len + Z.of_nat (S (String.length r))) with (len + 1 + Z.of_nat (String.length r))
      by lia.
    reflexivity.
Qed.

Lemma digits_value_nonneg (s : string) (acc : Z) :
  all_digits s = true -> 0 <= acc ->
  0 <= fold_left (fun a c => 10 * a + digit_val c) (list_ascii_of_string s) acc.
Proof.
  revert acc. induction s as [| c r IH]; intros acc H Ha; [exact Ha |].
  rewrite all_digits_cons in H. apply andb_true_iff in H as [Hc Hr].
  destruct (digit_facts c Hc) as [_ [_ [_ [H0 _]]]]. apply Z.leb_le in H0.
  cbn [list_ascii_of_string fold_left]. apply IH; [exact Hr | lia].
Qed.

(** [Number] of a non-empty string of decimal digits is the Number of its
    decimal value. *)
Lemma Number_of_digits (s : string) :
  s <> "" -> all_digits s = true ->
  Number_of_string s
  = Z2F (fold_left (fun a c => 10 * a + digit_val c) (list_ascii_of_string s) 0).
Proof.
  intros Hne H. unfold Number_of_string. rewrite (trim_digits s H).
  destruct s as [| c r] eqn:Hs; [congruence |]. rewrite <- Hs in *.
  assert (Hc : is_digit c = true).
  { rewrite Hs, all_digits_cons in H. now apply andb_true_iff in H as [Hc _]. }
  destruct (digit_facts c Hc) as [_ [_ [_ [_ [_ [Hsign [HI _]]]]]]].
  rewrite !strip_prefix_letter; try assumption;
    try (intros c' Hc'; apply (digit_facts c' Hc')).
  unfold scan_decimal. rewrite Hs at 1. rewrite Hsign.
  replace (strip_prefix "Infinity" (String c r)) with (@None string)
    by (cbn [strip_prefix]; now rewrite HI).
  rewrite <- Hs. rewrite (scan_all_digits s 0 0 H).
  cbv beta iota zeta.
  replace (0 + Z.of_nat (String.length s) =? 0) with false.
  2:{ symmetry. apply Z.eqb_neq. rewrite Hs. cbn [String.length]. lia. }
  cbn [andb scan_exponent]. rewrite Hs. rewrite <- Hs.
  replace (0 - 0) with 0 by lia.
  apply dec2F_integer. now apply digits_value_nonneg.
Qed.

Lemma digits4_reads (y : Z) :
  0 <= y <= 9999 ->
  digits4 y <> "" /\ includes_char "-" (digits4 y) = false
  /\ trunc (Number_of_string (digits4 y)) = Some y.
Proof.
  intros Hy.
  destruct (digit_char_spec (y / 1000)) as [Ha Va], (digit_char_spec (y / 100)) as [Hb Vb],
    (digit_char_spec (y / 10)) as [Hc Vc], (digit_char_spec y) as [Hd Vd].
  split; [discriminate |]. split.
  - unfold digits4, digits2. cbn [includes_char].
    rewrite (proj1 (proj2 (proj2 (proj2 (proj2 (digit_facts _ Ha)))))),
      (proj1 (proj2 (proj2 (proj2 (proj2 (digit_facts _ Hb)))))),
      (proj1 (proj2 (proj2 (proj2 (proj2 (digit_facts _ Hc)))))),
      (proj1 (proj2 (proj2 (proj2 (proj2 (digit_facts _ Hd)))))). reflexivity.
  - rewrite Number_of_digits; [| discriminate |].
    + unfold digits4, digits2. cbn [list_ascii_of_string fold_left].
      rewrite Va, Vb, Vc, Vd.
      replace (10 * (10 * (10 * (10 * 0 + (y / 1000) mod 10) + (y / 100) mod 10)
                     + (y / 10) mod 10) + y mod 10) with y
        by (Z.div_mod_to_equations; lia).
      apply trunc_Z2F. change (2 ^ 52) with 4503599627370496. lia.
    + unfold digits4, digits2. rewrite !all_digits_cons, Ha, Hb, Hc, Hd. reflexivity.
Qed.

Lemma digits2_value (n : Z) :
  0 <= n <= 99 ->
  digits2 n <> "" /\ includes_char "-" (digits2 n) = false
  /\ Number_of_string (digits2 n) = Z2F n.
Proof.
  intros Hn.
  destruct (digit_char_spec (n / 10)) as [Hc Vc], (digit_char_spec n) as [Hd Vd].
  split; [discriminate |]. split.
  - unfold digits2. cbn [includes_char].
    rewrite (proj1 (proj2 (proj2 (proj2 (proj2 (digit_facts _ Hc)))))),
      (proj1 (proj2 (proj2 (proj2 (proj2 (digit_facts _ Hd)))))). reflexivity.
  - rewrite Number_of_digits; [| discriminate |].
    + unfold digits2. cbn [list_ascii_of_string fold_left]. rewrite Vc, Vd.
      f_equal. Z.div_mod_to_equations; lia.
    + unfold digits2. rewrite !all_digits_cons, Hc, Hd. reflexivity.
Qed.

Lemma month_index (m : Z) : 1 <= m <= 12 -> trunc (Z2F m - 1)%float = Some (m - 1).
Proof.
  intros Hm.
  assert (Hc : m = 1 \/ m = 2 \/ m = 3 \/ m = 4 \/ m = 5 \/ m = 6 \/ m = 7 \/ m = 8
               \/ m = 9 \/ m = 10 \/ m = 11 \/ m = 12) by lia.
  repeat (destruct Hc as [-> | Hc]); try subst m; vm_compute; reflexivity.
Qed.

Lemma getDay_local_midnight (env : Env) (days : Z) :
  getDay env (UTC env (days * msPerDay)) = (days + 4) mod 7.
Proof.
  unfold getDay, WeekDay, LocalTime, UTC, Day.
  replace (days * msPerDay - tz env + tz env) with (days * msPerDay) by lia.
  rewrite Z.div_mul; [reflexivity | discriminate].
Qed.

Lemma dayIndex_of_date (env : Env) (s : Sale.t) (y m d : Z) :
  -86400000 <= tz env <= 86400000 ->
  100 <= y <= 9999 -> 1 <= m <= 12 -> 1 <= d <= days_in_month y m ->
  Sale.date s = iso_date y m d ->
  DashboardView.dayIndex env s = Some (weekday_of_date y m d).
Proof.
  intros Htz Hy Hm Hd Hs.
  assert (Hd31 : 1 <= d <= 31).
  { unfold days_in_month in Hd.
    repeat match type of Hd with context [if ?b then _ else _] => destruct b end; lia. }
  destruct (digits4_reads y ltac:(lia)) as [_ [Hy2 Hy3]].
  destruct (digits2_value m ltac:(lia)) as [_ [Hm2 Hm3]].
  destruct (digits2_value d ltac:(lia)) as [_ [Hd2 Hd3]].
  unfold DashboardView.dayIndex. rewrite Hs. unfold iso_date.
  assert (Ht : truthy_str (digits4 y ++ "-" ++ digits2 m ++ "-" ++ digits2 d) = true)
    by reflexivity.
  assert (Hi : includes_char "-" (digits4 y ++ "-" ++ digits2 m ++ "-" ++ digits2 d) = true).
  { rewrite !includes_char_app. change (includes_char "-" "-") with true.
    now rewrite orb_true_r. }
  rewrite Ht, Hi. cbn [negb orb].
  change (digits4 y ++ "-" ++ digits2 m ++ "-" ++ digits2 d)
    with (digits4 y ++ String "-" (digits2 m ++ String "-" (digits2 d))).
  rewrite (split_on_app _ _ _ Hy2), (split_on_app _ _ _ Hm2), (split_on_no_sep _ _ Hd2).
  cbn [map]. unfold Date_ymd.
  rewrite Hy3, Hm3, Hd3, (month_index m Hm), (trunc_Z2F d)
    by (change (2 ^ 52) with 4503599627370496; lia).
  replace ((0 <=? y) && (y <=? 99)) with false
    by (symmetry; apply andb_false_iff; right; apply Z.leb_gt; lia).
  rewrite MakeDay_civil by assumption.
  pose proof (days_from_civil_bounds y m d ltac:(lia) Hm Hd31) as Hb.
  unfold TimeClip.
  replace (Z.abs (UTC env (days_from_civil y m d * msPerDay)) <=? 8640000000000000) with true
    by (symmetry; apply Z.leb_le; unfold UTC, msPerDay; lia).
  rewrite getDay_local_midnight, days_weekday by assumption.
  assert (Hw : 0 <= weekday_of_date y m d < 7) by (apply Z.mod_pos_bound; lia).
  replace ((0 <=? weekday_of_date y m d) && (weekday_of_date y m d <? 7)) with true; [reflexivity |].
  symmetry. apply andb_true_iff. split; [apply Z.leb_le | apply Z.ltb_lt]; lia.
Qed.

(** The weekday distribution of [components/DashboardView.tsx].  For
    every record whose date is a valid [YYYY-MM-DD] date of a year from
    0100 on, whatever the local time zone offset, it adds the record's
    quantity and revenue to the slot of the true weekday of that calendar
    date and leaves the other slots as they are; a record dated
    2024-01-07 goes to slot 0 and not to slot 1. *)
Theorem weekday_bucket_local_parts (env : Env) (s : Sale.t) (y m d : Z)
    (dayStats : list DashboardView.DayStat) :
  -86400000 <= tz env <= 86400000 ->
  100 <= y <= 9999 -> 1 <= m <= 12 -> 1 <= d <= days_in_month y m ->
  Sale.date s = iso_date y m d ->
  let w := Z.to_nat (weekday_of_date y m d) in
  let after := DashboardView.busiestDays_step env dayStats s in
  DashboardView.dayIndex env s = Some (weekday_of_date y m d)
  /\ after !! w = DashboardView.add_sale s <$> dayStats !! w
  /\ (forall i : nat, i <> w -> after !! i = dayStats !! i)
  /\ (forall sunday : Sale.t, Sale.date sunday = "2024-01-07" ->
        DashboardView.busiestDays_step env dayStats sunday !! 0%nat
        = DashboardView.add_sale sunday <$> dayStats !! 0%nat
        /\ DashboardView.busiestDays_step env dayStats sunday !! 1%nat = dayStats !! 1%nat).
Proof.
  intros Htz Hy Hm Hd Hs w after.
  pose proof (dayIndex_of_date env s y m d Htz Hy Hm Hd Hs) as Hi.
  subst after. unfold DashboardView.busiestDays_step. rewrite Hi. fold w.
  split; [reflexivity |]. split; [apply list_lookup_alter_eq |].
  split; [intros i Hne; apply list_lookup_alter_ne; congruence |].
  intros sunday Hsun.
  assert (H7 : 1 <= 7 <= days_in_month 2024 1) by (change (days_in_month 2024 1) with 31; lia).
  rewrite (dayIndex_of_date env sunday 2024 1 7 Htz ltac:(lia) ltac:(lia) H7 Hsun).
  change (Z.to_nat (weekday_of_date 2024 1 7)) with 0%nat.
  split; [apply list_lookup_alter_eq | apply list_lookup_alter_ne; discriminate].
Qed.

Lemma weekday_bucket_local_parts_witness :
  (-86400000 <= tz (sampleEnv (-18000000)) <= 86400000)
  /\ (100 <= 2024 <= 9999) /\ (1 <= 1 <= 12) /\ (1 <= 8 <= days_in_month 2024 1)
  /\ Sale.date (sampleSale "2024-01-08" "Widget" 5 2) = iso_date 2024 1 8
  /\ DashboardView.dayIndex (sampleEnv (-18000000)) (sampleSale "2024-01-08" "Widget" 5 2)
     = Some 1.
Proof.
  assert (Htz : -86400000 <= tz (sampleEnv (-18000000)) <= 86400000) by (cbn; lia).
  assert (Hy : 100 <= 2024 <= 9999) by lia.
  assert (Hm : 1 <= 1 <= 12) by lia.
  assert (Hd : 1 <= 8 <= days_in_month 2024 1) by (change (days_in_month 2024 1) with 31; lia).
  repeat (split; [assumption || reflexivity |]).
  exact (proj1 (weekday_bucket_local_parts (sampleEnv (-18000000))
                  (sampleSale "2024-01-08" "Widget" 5 2) 2024 1 8 [] Htz Hy Hm Hd eq_refl)).
Defined.

(** C5 does not hold of all the code.  The second copy of the component
    reparses the date as UTC midnight and reads the weekday in local
    time: five hours behind UTC a record dated 2024-01-07, a Sunday, is
    counted under Saturday, where [components/DashboardView.tsx] counts it
    under Sunday.  That component in turn reads a year below 100 as 1900
    plus that year: 0050-01-01, a Saturday, is counted under Sunday. *)
Theorem C5_weekday_bucket_divergence :
  let sunday := sampleSale "2024-01-07" "Widget" 5 3 in
  let behind := sampleEnv (-18000000) in
  weekday_of_date 2024 1 7 = 0
  /\ DashboardViewCopy.busiestDays (sampleEnv 0) [sunday]
     = [("Sun", 3); ("Mon", 0); ("Tue", 0); ("Wed", 0); ("Thu", 0); ("Fri", 0); ("Sat", 0)]%float
  /\ DashboardViewCopy.busiestDays behind [sunday]
     = [("Sun", 0); ("Mon", 0); ("Tue", 0); ("Wed", 0); ("Thu", 0); ("Fri", 0); ("Sat", 3)]%float
  /\ map (fun e => (fst e, DashboardView.quantity (snd e)))
       (DashboardView.busiestDays behind [sunday])
     = [("Sun", 3); ("Mon", 0); ("Tue", 0); ("Wed", 0); ("Thu", 0); ("Fri", 0); ("Sat", 0)]%float
  /\ (iso_date 50 1 1 = "0050-01-01"
      /\ weekday_of_date 50 1 1 = 6
      /\ DashboardView.dayIndex (sampleEnv 0) (sampleSale "0050-01-01" "Widget" 5 1) = Some 0).
Proof. vm_compute. repeat split; reflexivity. Qed.

(** ** C6: the share of the top seller *)

(** C6 does not hold of the code: the percentage is computed without a
    guard on the total.  A batch whose only retained row has amount 0
    makes the total 0 and the sentence reads "NaN%"; a sale and a refund
    that cancel make it read "Infinity%". *)
Theorem C6_zero_total_revenue_share :
  let sales :=
    SyncView.newSales (sampleEnv 0) sampleMapping "jan.csv"
      [sampleRow (CStr "2024-01-07") (CStr "Widget") (CNum 0) (CNum 1)] in
  let st :=
    DashboardView.stats
      (DashboardView.filteredData (sampleEnv 0) sales DashboardView.all "" "") in
  let cancelling :=
    DashboardView.stats [sampleSale "2024-01-07" "Widget" 5 2;
                         sampleSale "2024-01-08" "Refund" (-5) 1] in
  map Sale.product sales = ["Widget"]
  /\ DashboardView.totalRevenue st = 0%float
  /\ DashboardView.topSellerPerformance st = "Generating NaN% of revenue."
  /\ DashboardView.topSellerPerformance cancelling = "Generating Infinity% of revenue.".
Proof. vm_compute. repeat split; reflexivity. Qed.

(** ** C7: confirming the manual mapping *)

(** C7 does not hold of the code: "Sync Now" runs [finalizeProcess] on
    whatever the selects hold.  After a failed column inference, choosing
    only the product column and confirming appends the row with amount 0
    and today's date, and stores the incomplete mapping as the schema. *)
Theorem C7_manual_mapping_unvalidated :
  let row : Row :=
    <["Item" := CStr "Widget"]> (<["When" := CStr "2024-01-07"]> (<["Price" := CNum 10]> ∅)) in
  let env := sampleEnvWith 0 [row] None in
  let pending := SyncView.processData env (sampleWorld []) "bytes" "jan.csv" in
  let chosen := SyncView.modal env pending (SyncView.Choose SyncView.FProduct "Item") in
  let confirmed := SyncView.modal env chosen SyncView.SyncNow in
  (pendingData (ui pending) = Some ([row], "jan.csv")
   /\ manualMapping (ui pending) = Some SyncView.emptyMapping
   /\ master pending = master (sampleWorld []))
  /\ manualMapping (ui chosen)
     = Some (Mapping.mk (Some "") (Some "Item") (Some "") (Some "") (Some ""))
  /\ exists m,
       master confirmed = Some m
       /\ map (fun s => (Sale.date s, Sale.product s, Sale.amount s)) (Master.data m)
          = [("2023-11-14", "Widget", 0%float)]
       /\ Master.syncedFiles m = Some ["jan.csv"]
       /\ Master.mappingSchema m
          = Some (Mapping.mk (Some "") (Some "Item") (Some "") (Some "") (Some ""))
       /\ syncStatus (ui confirmed) = Some {| success := true; count := 1 |}.
Proof.
  vm_compute. split; [repeat split; reflexivity |]. split; [reflexivity |].
  eexists. repeat split; reflexivity.
Qed.

(** ** The civil calendar *)

Lemma all_from_spec (f : Z -> bool) (n : nat) (z : Z) :
  all_from f n z = true -> forall k, z <= k < z + Z.of_nat n -> f k = true.
Proof.
  revert z. induction n as [| n IH]; intros z H k Hk; [lia |].
  cbn [all_from] in H. apply andb_true_iff in H as [Hz Hr].
  destruct (Z.eq_dec k z) as [-> | Hne]; [exact Hz |].
  apply (IH (z + 1) Hr). lia.
Qed.

Lemma year_digits (y : Z) : 1000 <= y <= 9999 -> Z_to_string y = digits4 y.
Proof.
  intros H.
  assert (Hall : all_from (fun y => String.eqb (Z_to_string y) (digits4 y))
                   (Z.to_nat 9000) 1000 = true) by (vm_compute; reflexivity).
  apply String.eqb_eq. apply (all_from_spec _ _ _ Hall). lia.
Qed.

Lemma pad2_digits (k : Z) : 0 <= k <= 99 -> pad2 k = digits2 k.
Proof.
  intros H.
  assert (Hall : all_from (fun k => String.eqb (pad2 k) (digits2 k)) (Z.to_nat 100) 0 = true)
    by (vm_compute; reflexivity).
  apply String.eqb_eq. apply (all_from_spec _ _ _ Hall). lia.
Qed.

Lemma leap_year_spec (y : Z) :
  leap_year y = true <-> y mod 4 = 0 /\ (y mod 100 <> 0 \/ y mod 400 = 0).
Proof.
  unfold leap_year.
  rewrite orb_true_iff, andb_true_iff, negb_true_iff, !Z.eqb_eq, Z.eqb_neq.
  split.
  - intros [[H4 H100] | H400]; [tauto |]. split; [| tauto].
    Z.div_mod_to_equations. lia.
  - intros [H4 [H | H]]; tauto.
Qed.

Lemma leap_year_era (y e : Z) : leap_year (y + e * 400) = leap_year y.
Proof.
  unfold leap_year.
  replace ((y + e * 400) mod 4) with (y mod 4)
    by (replace (y + e * 400) with (y + (e * 100) * 4) by lia; now rewrite Z.mod_add).
  replace ((y + e * 400) mod 100) with (y mod 100)
    by (replace (y + e * 400) with (y + (e * 4) * 100) by lia; now rewrite Z.mod_add).
  now rewrite Z.mod_add.
Qed.

Lemma days_in_month_era (y e m : Z) : days_in_month (y + e * 400) m = days_in_month y m.
Proof. unfold days_in_month. now rewrite leap_year_era. Qed.

Lemma days_in_month_cases (y m : Z) :
  1 <= m <= 12 ->
  (m = 2 /\ (days_in_month y m = 29 /\ leap_year y = true
            \/ days_in_month y m = 28 /\ leap_year y = false))
  \/ ((m = 4 \/ m = 6 \/ m = 9 \/ m = 11) /\ days_in_month y m = 30)
  \/ ((m = 1 \/ m = 3 \/ m = 5 \/ m = 7 \/ m = 8 \/ m = 10 \/ m = 12)
      /\ days_in_month y m = 31).
Proof.
  intros Hm. unfold days_in_month.
  destruct (Z.eqb_spec m 2) as [-> | H2].
  - left. split; [reflexivity |]. destruct (leap_year y); [left | right]; split; reflexivity.
  - right.
    destruct (Z.eqb_spec m 4), (Z.eqb_spec m 6), (Z.eqb_spec m 9), (Z.eqb_spec m 11);
      cbn [orb]; first [left; split; [lia | reflexivity] | right; split; [lia | reflexivity]].
Qed.

Lemma yoe_bounds (doe : Z) :
  0 <= doe < 146097 ->
  let yoe := (doe - doe / 1460 + doe / 36524 - doe / 146096) / 365 in
  let doy := doe - (365 * yoe + yoe / 4 - yoe / 100) in
  0 <= yoe < 400 /\ 0 <= doy <= 365
  /\ (doy = 365 -> (yoe + 1) mod 4 = 0 /\ ((yoe + 1) mod 100 <> 0 \/ (yoe + 1) mod 400 = 0)).
Proof.
  intros H. cbv zeta. Z.div_mod_to_equations. lia.
Qed.

Lemma month_day_bounds (doy : Z) :
  0 <= doy <= 365 ->
  let mp := (5 * doy + 2) / 153 in
  let d := doy - (153 * mp + 2) / 5 + 1 in
  0 <= mp <= 11 /\ 1 <= d
  /\ (mp = 11 -> d <= 29 /\ (doy <= 364 -> d <= 28))
  /\ (mp = 1 \/ mp = 3 \/ mp = 6 \/ mp = 8 -> d <= 30)
  /\ d <= 31.
Proof.
  intros H. cbv zeta. Z.div_mod_to_equations. lia.
Qed.

Lemma doe_range (yoe mp d : Z) :
  0 <= yoe < 400 -> 0 <= mp <= 11 -> 1 <= d <= 31 ->
  (mp = 1 \/ mp = 3 \/ mp = 6 \/ mp = 8 -> d <= 30) ->
  (mp = 11 ->
   d <= 29 /\ (d = 29 -> (yoe + 1) mod 4 = 0
                        /\ ((yoe + 1) mod 100 <> 0 \/ (yoe + 1) mod 400 = 0))) ->
  let doy := (153 * mp + 2) / 5 + d - 1 in
  let doe := yoe * 365 + yoe / 4 - yoe / 100 + doy in
  0 <= doe < 146097
  /\ (doe - doe / 1460 + doe / 36524 - doe / 146096) / 365 = yoe
  /\ (5 * doy + 2) / 153 = mp.
Proof.
  intros Hy Hm Hd H30 Hf. cbv zeta. Z.div_mod_to_equations. lia.
Qed.

(** Every day number is the day number of the calendar date it is
    converted to, and that date exists. *)
Lemma civil_from_days_inv (z : Z) :
  let '(y, m, d) := civil_from_days z in
  days_from_civil y m d = z /\ valid_date y m d.
Proof.
  unfold civil_from_days, valid_date.
  set (z' := z + 719468).
  pose proof (Z.div_mod z' 146097 ltac:(lia)) as Hz.
  pose proof (Z.mod_pos_bound z' 146097 ltac:(lia)) as Hb.
  set (era := z' / 146097) in *. set (doe := z' mod 146097) in *.
  destruct (yoe_bounds doe Hb) as [Hyoe [Hdoy Hleap]]. cbv zeta in *.
  set (yoe := (doe - doe / 1460 + doe / 36524 - doe / 146096) / 365) in *.
  set (doy := doe - (365 * yoe + yoe / 4 - yoe / 100)) in *.
  destruct (month_day_bounds doy Hdoy) as [Hmp [Hd1 [Hfeb [H30 H31]]]]. cbv zeta in *.
  set (mp := (5 * doy + 2) / 153) in *.
  set (d := doy - (153 * mp + 2) / 5 + 1) in *.
  set (m := if mp <? 10 then mp + 3 else mp - 9) in *.
  assert (Hm : 1 <= m <= 12) by (subst m; destruct (Z.ltb_spec mp 10); lia).
  assert (Hmp' : (if 2 <? m then m - 3 else m + 9) = mp).
  { subst m. destruct (Z.ltb_spec mp 10).
    - destruct (Z.ltb_spec 2 (mp + 3)); lia.
    - destruct (Z.ltb_spec 2 (mp - 9)); lia. }
  split; [| split; [exact Hm |]].
  - unfold days_from_civil. cbv zeta.
    assert (Hy' : (if m <=? 2 then yoe + era * 400 + (if m <=? 2 then 1 else 0) - 1
                   else yoe + era * 400 + (if m <=? 2 then 1 else 0)) = yoe + era * 400)
      by (destruct (m <=? 2); lia).
    rewrite Hy', Z.div_add, Z.mod_add by lia.
    rewrite (Z.div_small yoe 400), (Z.mod_small yoe 400) by lia.
    rewrite Hmp'. subst d doy. lia.
  - split; [assumption |].
    replace (yoe + era * 400 + (if m <=? 2 then 1 else 0))
      with (yoe + (if m <=? 2 then 1 else 0) + era * 400) by lia.
    rewrite days_in_month_era.
    destruct (days_in_month_cases (yoe + (if m <=? 2 then 1 else 0)) m Hm)
      as [[H2 Hc] | [[Hc ->] | [_ ->]]]; [| | exact H31].
    + assert (Hmp11 : mp = 11) by (subst m; destruct (Z.ltb_spec mp 10); lia).
      destruct (Hfeb Hmp11) as [H29 H28].
      replace (if m <=? 2 then 1 else 0) with 1 in * by (rewrite H2; reflexivity).
      destruct Hc as [[-> _] | [-> Hnl]]; [exact H29 |].
      apply H28. destruct (Z.eq_dec doy 365) as [H365 | ?]; [| lia].
      apply Hleap in H365. apply leap_year_spec in H365. congruence.
    + apply H30. subst m. destruct (Z.ltb_spec mp 10); lia.
Qed.

(** The calendar date of the day number of an existing date is that
    date. *)
Lemma civil_from_days_of (y m d : Z) :
  valid_date y m d -> civil_from_days (days_from_civil y m d) = (y, m, d).
Proof.
  intros [Hm Hd]. unfold days_from_civil, civil_from_days. cbv zeta.
  set (y' := if m <=? 2 then y - 1 else y).
  pose proof (Z.div_mod y' 400 ltac:(lia)) as Hy.
  pose proof (Z.mod_pos_bound y' 400 ltac:(lia)) as Hyb.
  set (era := y' / 400) in *. set (yoe := y' mod 400) in *.
  set (mp := if 2 <? m then m - 3 else m + 9).
  assert (Hmp : 0 <= mp <= 11) by (subst mp; destruct (Z.ltb_spec 2 m); lia).
  assert (Hleap : leap_year y = leap_year (yoe + (if m <=? 2 then 1 else 0))).
  { replace y with (yoe + (if m <=? 2 then 1 else 0) + era * 400)
      by (subst y'; destruct (m <=? 2); lia).
    apply leap_year_era. }
  assert (Hdim : 1 <= d <= 31
                 /\ (mp = 1 \/ mp = 3 \/ mp = 6 \/ mp = 8 -> d <= 30)
                 /\ (mp = 11 ->
                     d <= 29 /\ (d = 29 -> (yoe + 1) mod 4 = 0
                                 /\ ((yoe + 1) mod 100 <> 0 \/ (yoe + 1) mod 400 = 0)))).
  { destruct (days_in_month_cases y m Hm) as [[H2 Hc] | [[Hc H30] | [Hc H31]]].
    - assert (mp = 11) by (subst mp; rewrite H2; reflexivity).
      split; [destruct Hc as [[? _] | [? _]]; lia |]. split; [lia |]. intros _.
      destruct Hc as [[H29 Hl] | [H28 Hl]]; [| lia].
      split; [lia |]. intros _. rewrite Hleap in Hl. rewrite H2 in Hl.
      change (if 2 <=? 2 then 1 else 0) with 1 in Hl. now apply leap_year_spec.
    - split; [lia |]. split; [lia |]. intros H11. exfalso.
      subst mp. destruct (Z.ltb_spec 2 m); lia.
    - split; [lia |]. split; [| intros H11; exfalso; subst mp; destruct (Z.ltb_spec 2 m); lia].
      intros H. exfalso. subst mp. destruct (Z.ltb_spec 2 m); lia. }
  destruct Hdim as [Hd31 [H30 Hfeb]].
  destruct (doe_range yoe mp d Hyb Hmp Hd31 H30 Hfeb) as [Hdoe [Hyoe Hmp']].
  cbv zeta in Hdoe, Hyoe, Hmp'.
  set (doy := (153 * mp + 2) / 5 + d - 1) in *.
  set (doe := yoe * 365 + yoe / 4 - yoe / 100 + doy) in *.
  replace (era * 146097 + doe - 719468 + 719468) with (doe + era * 146097) by lia.
  rewrite Z.div_add, Z.mod_add by lia.
  rewrite (Z.div_small doe 146097), (Z.mod_small doe 146097) by lia.
  rewrite Hyoe.
  replace (doe - (365 * yoe + yoe / 4 - yoe / 100)) with doy by (subst doe; lia).
  rewrite Hmp'.
  assert (Hm' : (if mp <? 10 then mp + 3 else mp - 9) = m).
  { subst mp. destruct (Z.ltb_spec 2 m).
    - destruct (Z.ltb_spec (m - 3) 10); lia.
    - destruct (Z.ltb_spec (m + 9) 10); lia. }
  rewrite Hm'. f_equal; [f_equal |].
  - subst y'. destruct (m <=? 2); lia.
  - subst doy. lia.
Qed.

Lemma days_from_civil_day (y m d k : Z) :
  days_from_civil y m (d + k) = days_from_civil y m d + k.
Proof. unfold days_from_civil. cbv zeta. lia. Qed.

Lemma month_end (y m : Z) :
  1 <= m <= 11 ->
  days_from_civil y m (days_in_month y m) + 1 = days_from_civil y (m + 1) 1.
Proof.
  intros Hm.
  assert (Hc : m = 1 \/ m = 2 \/ m = 3 \/ m = 4 \/ m = 5 \/ m = 6 \/ m = 7 \/ m = 8
               \/ m = 9 \/ m = 10 \/ m = 11) by lia.
  repeat (destruct Hc as [-> | Hc]); try subst m;
    match goal with
    | |- context [Zpos ?p + 1] =>
        let c := eval vm_compute in (Zpos p + 1) in change (Zpos p + 1) with c
    end;
    unfold days_in_month, days_from_civil;
    cbn -[Z.mul Z.add Z.sub Z.div Z.modulo leap_year];
    try (Z.div_mod_to_equations; lia).
  destruct (leap_year y) eqn:Hl.
    + apply leap_year_spec in Hl. Z.div_mod_to_equations. lia.
    + assert (Hn : ~ (y mod 4 = 0 /\ (y mod 100 <> 0 \/ y mod 400 = 0)))
        by (rewrite <- leap_year_spec; congruence).
      Z.div_mod_to_equations. lia.
Qed.

(** The date before an existing date exists and is one day earlier. *)
Lemma previous_day_spec (y m d : Z) :
  valid_date y m d ->
  let '(y', m', d') := previous_day y m d in
  valid_date y' m' d' /\ days_from_civil y' m' d' = days_from_civil y m d - 1.
Proof.
  intros [Hm Hd]. unfold previous_day.
  destruct (Z.leb_spec 2 d) as [H2 | H1].
  - split; [split; lia |]. replace d with (d - 1 + 1) at 2 by lia.
    rewrite days_from_civil_day. lia.
  - assert (d = 1) by lia. subst d.
    destruct (Z.leb_spec 2 m) as [Hm2 | Hm1].
    + assert (Hm' : 1 <= m - 1 <= 12) by lia.
      split.
      * split; [exact Hm' |].
        destruct (days_in_month_cases y (m - 1) Hm')
          as [[_ [[-> _] | [-> _]]] | [[_ ->] | [_ ->]]]; lia.
      * pose proof (month_end y (m - 1) ltac:(lia)) as He.
        replace (m - 1 + 1) with m in He by lia. lia.
    + assert (m = 1) by lia. subst m.
      split; [split; [lia | change (days_in_month (y - 1) 12) with 31; lia] |].
      unfold days_from_civil. cbn -[Z.mul Z.add Z.sub Z.div Z.modulo].
      Z.div_mod_to_equations. lia.
Qed.

(** ** Dates given as text *)

Lemma valid_date_day (y m d : Z) : valid_date y m d -> 1 <= d <= 31.
Proof.
  intros [Hm Hd].
  destruct (days_in_month_cases y m Hm) as [[_ [[H _] | [H _]]] | [[_ H] | [_ H]]]; lia.
Qed.

Lemma digits4_scan (y : Z) :
  0 <= y <= 9999 ->
  all_digits (digits4 y) = true /\ scan_digits 10 (digits4 y) 0 0 = (y, 4, "").
Proof.
  intros Hy.
  destruct (digit_char_spec (y / 1000)) as [Ha Va], (digit_char_spec (y / 100)) as [Hb Vb],
    (digit_char_spec (y / 10)) as [Hc Vc], (digit_char_spec y) as [Hd Vd].
  assert (Hall : all_digits (digits4 y) = true)
    by (unfold digits4, digits2; rewrite !all_digits_cons, Ha, Hb, Hc, Hd; reflexivity).
  split; [exact Hall |]. rewrite (scan_all_digits _ 0 0 Hall).
  unfold digits4, digits2. cbn [list_ascii_of_string fold_left String.length].
  rewrite Va, Vb, Vc, Vd. f_equal. f_equal. Z.div_mod_to_equations. lia.
Qed.

Lemma digits2_scan (n : Z) :
  0 <= n <= 99 ->
  all_digits (digits2 n) = true /\ scan_digits 10 (digits2 n) 0 0 = (n, 2, "").
Proof.
  intros Hn.
  destruct (digit_char_spec (n / 10)) as [Hc Vc], (digit_char_spec n) as [Hd Vd].
  assert (Hall : all_digits (digits2 n) = true)
    by (unfold digits2; rewrite !all_digits_cons, Hc, Hd; reflexivity).
  split; [exact Hall |]. rewrite (scan_all_digits _ 0 0 Hall).
  unfold digits2. cbn [list_ascii_of_string fold_left String.length].
  rewrite Vc, Vd. f_equal. f_equal. Z.div_mod_to_equations. lia.
Qed.

(** The date-only form of an existing date reads as UTC midnight of that
    date. *)
Lemma parse_iso_date_iso (y m d : Z) :
  0 <= y <= 9999 -> valid_date y m d ->
  parse_iso_date (iso_date y m d) = Some (days_from_civil y m d * msPerDay).
Proof.
  intros Hy Hv. pose proof (valid_date_day y m d Hv) as Hd31. destruct Hv as [Hm Hd].
  destruct (digits4_reads y Hy) as [_ [Hy2 _]].
  destruct (digits2_value m ltac:(lia)) as [_ [Hm2 _]].
  destruct (digits2_value d ltac:(lia)) as [_ [Hd2 _]].
  destruct (digits4_scan y Hy) as [Hya Hys].
  destruct (digits2_scan m ltac:(lia)) as [Hma Hms].
  destruct (digits2_scan d ltac:(lia)) as [Hda Hds].
  unfold parse_iso_date, iso_date.
  change (digits4 y ++ "-" ++ digits2 m ++ "-" ++ digits2 d)
    with (digits4 y ++ String "-" (digits2 m ++ String "-" (digits2 d))).
  rewrite (split_on_app _ _ _ Hy2), (split_on_app _ _ _ Hm2), (split_on_no_sep _ _ Hd2).
  rewrite Hya, Hma, Hda, Hys, Hms, Hds.
  change (String.length (digits4 y)) with 4%nat.
  change (String.length (digits2 m)) with 2%nat.
  change (String.length (digits2 d)) with 2%nat.
  cbn [Nat.eqb andb].
  replace ((1 <=? m) && (m <=? 12) && (1 <=? d) && (d <=? days_in_month y m)) with true;
    [reflexivity |].
  symmetry. rewrite !andb_true_iff, !Z.leb_le. lia.
Qed.

Lemma Date_parse_iso (env : Env) (y m d : Z) :
  0 <= y <= 9999 -> valid_date y m d ->
  Date_parse env (iso_date y m d) = Some (days_from_civil y m d * msPerDay).
Proof.
  intros Hy Hv. unfold Date_parse. rewrite (parse_iso_date_iso y m d Hy Hv).
  pose proof (days_from_civil_bounds y m d Hy (proj1 Hv) (valid_date_day y m d Hv)) as Hb.
  unfold TimeClip.
  replace (Z.abs (days_from_civil y m d * msPerDay) <=? 8640000000000000) with true;
    [reflexivity |].
  symmetry. apply Z.leb_le. unfold msPerDay. lia.
Qed.

(** The local calendar day, printed. *)
Lemma toLocaleDateString_iso (env : Env) (t y m d : Z) :
  civil_from_days (Day (LocalTime env t)) = (y, m, d) ->
  1000 <= y <= 9999 ->
  toLocaleDateString env t = iso_date y m d.
Proof.
  intros Hc Hy. unfold toLocaleDateString. rewrite Hc.
  pose proof (civil_from_days_inv (Day (LocalTime env t))) as Hinv. rewrite Hc in Hinv.
  destruct Hinv as [_ Hv]. pose proof (valid_date_day y m d Hv) as Hd. destruct Hv as [Hm _].
  replace (1 <=? y) with true by (symmetry; apply Z.leb_le; lia).
  rewrite (year_digits y Hy), (pad2_digits m), (pad2_digits d) by lia. reflexivity.
Qed.

Lemma Day_local_midnight (env : Env) (n : Z) :
  Day (LocalTime env (n * msPerDay)) = n + tz env / msPerDay.
Proof.
  unfold Day, LocalTime. rewrite Z.add_comm, Z.div_add by discriminate. lia.
Qed.

(** A date given as text in the form [YYYY-MM-DD] is read as UTC midnight
    and stored as the local day of that instant: the date itself at or
    ahead of UTC, the day before behind UTC. *)
Theorem text_date_import (env : Env) (y m d : Z) :
  1000 <= y <= 9999 -> valid_date y m d ->
  (0 <= tz env < msPerDay ->
   SyncView.parseDate env (CStr (iso_date y m d)) = iso_date y m d)
  /\ (- msPerDay <= tz env < 0 -> (y, m, d) <> (1000, 1, 1) ->
      let '(y', m', d') := previous_day y m d in
      SyncView.parseDate env (CStr (iso_date y m d)) = iso_date y' m' d').
Proof.
  intros Hy Hv.
  assert (Hp : SyncView.parseDate env (CStr (iso_date y m d))
               = toLocaleDateString env (days_from_civil y m d * msPerDay)).
  { unfold SyncView.parseDate. change (truthy (CStr (iso_date y m d))) with true.
    cbn [negb Date_of_cell]. now rewrite (Date_parse_iso env y m d ltac:(lia) Hv). }
  rewrite Hp. split.
  - intros Htz. apply toLocaleDateString_iso; [| exact Hy].
    rewrite Day_local_midnight, (Z.div_small (tz env)) by exact Htz.
    rewrite Z.add_0_r. now apply civil_from_days_of.
  - intros Htz Hne.
    pose proof (previous_day_spec y m d Hv) as Hprev.
    destruct (previous_day y m d) as [[y' m'] d'] eqn:Hpd.
    destruct Hprev as [Hv' Hd'].
    apply toLocaleDateString_iso.
    + rewrite Day_local_midnight.
      replace (tz env / msPerDay) with (-1)
        by (apply Z.div_unique with (r := tz env + msPerDay); unfold msPerDay in *; lia).
      replace (days_from_civil y m d + -1) with (days_from_civil y' m' d') by lia.
      now apply civil_from_days_of.
    + unfold previous_day in Hpd.
      destruct (Z.leb_spec 2 d); [injection Hpd as <- <- <-; exact Hy |].
      destruct (Z.leb_spec 2 m); [injection Hpd as <- <- <-; exact Hy |].
      injection Hpd as <- <- <-.
      assert (y <> 1000); [| lia].
      intros ->. apply Hne. destruct Hv as [? ?]. f_equal; [f_equal |]; lia.
Qed.

Lemma text_date_import_witness :
  SyncView.parseDate (sampleEnv 3600000) (CStr "2024-01-07") = "2024-01-07"
  /\ SyncView.parseDate (sampleEnv (-18000000)) (CStr "2024-01-07") = "2024-01-06"
  /\ SyncView.parseDate (sampleEnv (-18000000)) (CStr "2024-03-01") = "2024-02-29".
Proof.
  assert (Hy : 1000 <= 2024 <= 9999) by lia.
  assert (Hv1 : valid_date 2024 1 7) by (unfold valid_date; change (days_in_month 2024 1) with 31; lia).
  assert (Hv3 : valid_date 2024 3 1) by (unfold valid_date; change (days_in_month 2024 3) with 31; lia).
  split; [| split].
  - apply (proj1 (text_date_import (sampleEnv 3600000) 2024 1 7 Hy Hv1)). cbn; unfold msPerDay; lia.
  - apply (proj2 (text_date_import (sampleEnv (-18000000)) 2024 1 7 Hy Hv1)); [cbn; unfold msPerDay; lia |].
    discriminate.
  - apply (proj2 (text_date_import (sampleEnv (-18000000)) 2024 3 1 Hy Hv3)); [cbn; unfold msPerDay; lia |].
    discriminate.
Defined.

(** ** Integers among the numbers *)

Lemma normal_shift_spec (k : positive) :
  Z.pos k < 2 ^ 52 ->
  Z.pos (normal_shift k) = 53 - Z.pos (digits2_pos k) /\ 1 <= Z.pos (normal_shift k).
Proof.
  intros Hk. pose proof (digits2_bound k Hk). unfold normal_shift. lia.
Qed.

Lemma iter_pos_succ {A} (f : A -> A) (p : positive) (x : A) :
  SpecFloat.iter_pos f (Pos.succ p) x = f (SpecFloat.iter_pos f p x).
Proof.
  assert (Hcomm : forall q y, SpecFloat.iter_pos f q (f y) = f (SpecFloat.iter_pos f q y)).
  { induction q as [q IH | q IH |]; intros y; simpl; [| | reflexivity].
    - now rewrite !IH.
    - now rewrite !IH. }
  revert x. induction p as [p IH | p IH |]; intros x; simpl.
  - rewrite !IH, !Hcomm. reflexivity.
  - rewrite !Hcomm. reflexivity.
  - reflexivity.
Qed.

(** Shifting out zero bits is exact. *)
Lemma shr_zero_bits (k n : positive) :
  SpecFloat.iter_pos shr_1 n {| shr_m := Z.pos (Pos.iter xO k n); shr_r := false; shr_s := false |}
  = {| shr_m := Z.pos k; shr_r := false; shr_s := false |}.
Proof.
  revert k. induction n as [| n IH] using Pos.peano_ind; intros k; [reflexivity |].
  rewrite iter_pos_succ. rewrite Pos.iter_succ_r. rewrite IH. reflexivity.
Qed.

Lemma iter_xO_add (k a b : positive) :
  Pos.iter xO (Pos.iter xO k a) b = Pos.iter xO k (a + b).
Proof. rewrite Pos.add_comm. symmetry. apply Pos.iter_add. Qed.

Lemma fexp_small (k : positive) :
  Z.pos k < 2 ^ 52 -> fexp prec emax (Z.pos (digits2_pos k)) = Z.neg (normal_shift k).
Proof.
  intros Hk. destruct (normal_shift_spec k Hk) as [Hd H1].
  pose proof (digits2_bound k Hk). unfold fexp, SpecFloat.emin, prec, emax. lia.
Qed.

(** Rounding an integer below [2^52] that is given with enough trailing
    zero bits returns its representation. *)
Lemma binary_round_aux_exact (s : bool) (k j : positive) :
  Z.pos k < 2 ^ 52 -> Z.pos (normal_shift k) <= Z.pos j ->
  binary_round_aux prec emax s (Z.pos (Pos.iter xO k j)) (Z.neg j) loc_Exact = normal s k.
Proof.
  intros Hk Hj. destruct (normal_shift_spec k Hk) as [Hd H1].
  set (d := normal_shift k) in *.
  assert (Hfj : fexp prec emax (Zdigits2 (Z.pos (Pos.iter xO k j)) + Z.neg j) = Z.neg d).
  { cbn [Zdigits2]. rewrite iter_xO_digits.
    replace (Z.pos (digits2_pos k) + Z.pos j + Z.neg j) with (Z.pos (digits2_pos k)) by lia.
    now apply fexp_small. }
  assert (Hfd : fexp prec emax (Zdigits2 (Z.pos (Pos.iter xO k d)) + Z.neg d) = Z.neg d).
  { cbn [Zdigits2]. rewrite iter_xO_digits.
    replace (Z.pos (digits2_pos k) + Z.pos d + Z.neg d) with (Z.pos (digits2_pos k)) by lia.
    now apply fexp_small. }
  assert (Hfirst : shr_fexp prec emax (Z.pos (Pos.iter xO k j)) (Z.neg j) loc_Exact
                   = ({| shr_m := Z.pos (Pos.iter xO k d); shr_r := false; shr_s := false |},
                      Z.neg d)).
  { unfold shr_fexp. rewrite Hfj. cbn [shr_record_of_loc].
    destruct (Z.eq_dec (Z.pos j) (Z.pos d)) as [He | Hne].
    - injection He as ->. replace (Z.neg d - Z.neg d) with 0 by lia. reflexivity.
    - assert (Hn : Z.neg d - Z.neg j = Z.pos (j - d)) by lia.
      rewrite Hn. cbn [shr].
      replace (Pos.iter xO k j) with (Pos.iter xO (Pos.iter xO k d) (j - d)).
      2:{ rewrite iter_xO_add. f_equal. lia. }
      rewrite shr_zero_bits. f_equal. lia. }
  unfold binary_round_aux. rewrite Hfirst.
  cbn [shr_m loc_of_shr_record round_nearest_even].
  unfold shr_fexp. rewrite Hfd, Z.sub_diag. cbn [shr shr_record_of_loc shr_m].
  replace (Z.neg d <=? emax - prec) with true; [reflexivity |].
  symmetry. apply Z.leb_le. unfold emax, prec. lia.
Qed.

Lemma binary_round_shifted (s : bool) (k j : positive) :
  Z.pos k < 2 ^ 52 ->
  binary_round prec emax s (Pos.iter xO k j) (Z.neg j) = normal s k.
Proof.
  intros Hk. destruct (normal_shift_spec k Hk) as [Hd H1].
  set (d := normal_shift k) in *.
  unfold binary_round. rewrite iter_xO_digits.
  replace (Z.pos (digits2_pos k) + Z.pos j + Z.neg j) with (Z.pos (digits2_pos k)) by lia.
  rewrite (fexp_small k Hk). fold d. unfold shl_align.
  destruct (Z.neg d - Z.neg j) as [| p | p] eqn:Hp.
  - apply binary_round_aux_exact; [exact Hk | fold d; lia].
  - apply binary_round_aux_exact; [exact Hk | fold d; lia].
  - rewrite iter_xO_add. replace (j + p)%positive with d by lia.
    apply binary_round_aux_exact; [exact Hk | fold d; lia].
Qed.

Lemma binary_round_integer (s : bool) (k : positive) :
  Z.pos k < 2 ^ 52 -> binary_round prec emax s k 0 = normal s k.
Proof.
  intros Hk. destruct (normal_shift_spec k Hk) as [Hd H1].
  unfold binary_round. rewrite Z.add_0_r, (fexp_small k Hk). unfold shl_align.
  change (Z.neg (normal_shift k) - 0) with (Z.neg (normal_shift k)). cbv beta iota zeta.
  apply binary_round_aux_exact; [exact Hk | lia].
Qed.

Lemma normal_valid (s : bool) (k : positive) :
  Z.pos k < 2 ^ 52 -> SpecFloat.valid_binary prec emax (normal s k) = true.
Proof.
  intros Hk. destruct (normal_shift_spec k Hk) as [Hd H1].
  unfold normal. cbn [SpecFloat.valid_binary]. unfold bounded, canonical_mantissa.
  rewrite iter_xO_digits.
  replace (Z.pos (digits2_pos k) + Z.pos (normal_shift k) + Z.neg (normal_shift k))
    with (Z.pos (digits2_pos k)) by lia.
  rewrite (fexp_small k Hk), Z.eqb_refl. apply Z.leb_le. unfold emax, prec. lia.
Qed.

Lemma Prim2SF_Z2F (k : positive) :
  Z.pos k < 2 ^ 52 -> Prim2SF (Z2F (Z.pos k)) = normal false k.
Proof.
  intros Hk. unfold Z2F. cbn [binary_normalize].
  rewrite (binary_round_integer false k Hk).
  apply FloatAxioms.Prim2SF_SF2Prim, normal_valid, Hk.
Qed.

Lemma digits2_mono (a b : positive) :
  (a <= b)%positive -> Z.pos (digits2_pos a) <= Z.pos (digits2_pos b).
Proof.
  intros Hab. rewrite !digits2_size.
  pose proof (Pos.size_gt b) as Hb. pose proof (Pos.size_le a) as Ha.
  apply Pos2Z.pos_lt_pos in Hb. apply Pos2Z.pos_le_pos in Ha.
  rewrite Pos2Z.inj_pow in Hb, Ha.
  destruct (Z_le_gt_dec (Z.pos (Pos.size a)) (Z.pos (Pos.size b))) as [H | H]; [exact H |].
  exfalso.
  assert (H2 : 2 ^ (Z.pos (Pos.size b) + 1) <= 2 ^ Z.pos (Pos.size a))
    by (apply Z.pow_le_mono_r; lia).
  rewrite Z.pow_add_r in H2 by lia. lia.
Qed.

(** Subtraction of two integers below [2^52], the larger first, is
    exact. *)
Lemma SFsub_integers (a b : positive) :
  Z.pos a < 2 ^ 52 -> (b < a)%positive ->
  SFsub prec emax (normal false a) (normal false b) = normal false (a - b).
Proof.
  intros Ha Hba.
  assert (Hb : Z.pos b < 2 ^ 52) by lia.
  destruct (normal_shift_spec a Ha) as [Hda _], (normal_shift_spec b Hb) as [Hdb _].
  pose proof (digits2_mono b a ltac:(lia)) as Hmono.
  set (da := normal_shift a) in *. set (db := normal_shift b) in *.
  assert (Hle : Z.pos da <= Z.pos db) by lia.
  unfold normal. fold da db. cbn [SFsub cond_Zopp].
  replace (Z.min (Z.neg da) (Z.neg db)) with (Z.neg db) by lia.
  assert (Hx : fst (shl_align (Pos.iter xO a da) (Z.neg da) (Z.neg db)) = Pos.iter xO a db).
  { unfold shl_align. destruct (Z.neg db - Z.neg da) as [| p | p] eqn:Hp.
    - cbn [fst]. f_equal. lia.
    - lia.
    - cbn [fst]. rewrite iter_xO_add. f_equal. lia. }
  assert (Hy : fst (shl_align (Pos.iter xO b db) (Z.neg db) (Z.neg db)) = Pos.iter xO b db).
  { unfold shl_align. now rewrite Z.sub_diag. }
  rewrite Hx, Hy.
  assert (Hdiff : Z.pos (Pos.iter xO a db) - Z.pos (Pos.iter xO b db)
                  = Z.pos (Pos.iter xO (a - b)%positive db)).
  { rewrite !iter_xO_value. rewrite Pos2Z.inj_sub by exact Hba. lia. }
  rewrite Hdiff. cbn [binary_normalize].
  apply binary_round_shifted. lia.
Qed.

(** Multiplication of two integers whose product is below [2^52] is
    exact. *)
Lemma SFmul_integers (a b : positive) :
  Z.pos (a * b) < 2 ^ 52 ->
  SFmul prec emax (normal false a) (normal false b) = normal false (a * b).
Proof.
  intros Hab.
  assert (Ha : Z.pos a < 2 ^ 52) by nia.
  assert (Hb : Z.pos b < 2 ^ 52) by nia.
  destruct (normal_shift_spec a Ha) as [Hda H1a], (normal_shift_spec b Hb) as [Hdb H1b].
  destruct (normal_shift_spec (a * b)%positive Hab) as [Hdab _].
  pose proof (digits2_mono a (a * b)%positive ltac:(nia)) as Hmono.
  unfold normal at 1 2. cbn [SFmul xorb].
  replace (Pos.iter xO a (normal_shift a) * Pos.iter xO b (normal_shift b))%positive
    with (Pos.iter xO (a * b)%positive (normal_shift a + normal_shift b)%positive).
  2:{ apply Pos2Z.inj. rewrite Pos2Z.inj_mul, !iter_xO_value, Pos2Z.inj_mul, Pos2Z.inj_add.
      rewrite Z.pow_add_r by lia. lia. }
  change (Z.neg (normal_shift a) + Z.neg (normal_shift b))
    with (Z.neg (normal_shift a + normal_shift b)%positive).
  apply binary_round_aux_exact; [exact Hab | lia].
Qed.

Lemma from_normal (x : number) (k : positive) :
  Prim2SF x = normal false k -> Z.pos k < 2 ^ 52 -> x = Z2F (Z.pos k).
Proof.
  intros Hx Hk. apply FloatAxioms.Prim2SF_inj. now rewrite Hx, Prim2SF_Z2F.
Qed.

Lemma Z2F_sub (a b : Z) :
  0 < b < a -> a < 2 ^ 52 -> (Z2F a - Z2F b)%float = Z2F (a - b).
Proof.
  intros Hb Ha. destruct a as [| a | a]; try lia. destruct b as [| b | b]; try lia.
  replace (Z.pos a - Z.pos b) with (Z.pos (a - b)) by (rewrite Pos2Z.inj_sub; lia).
  apply from_normal; [| rewrite Pos2Z.inj_sub; lia].
  rewrite FloatAxioms.sub_spec, !Prim2SF_Z2F by lia.
  apply SFsub_integers; lia.
Qed.

Lemma Z2F_mul (a b : Z) :
  0 < a -> 0 < b -> a * b < 2 ^ 52 -> (Z2F a * Z2F b)%float = Z2F (a * b).
Proof.
  intros Ha Hb Hab. destruct a as [| a | a]; try lia. destruct b as [| b | b]; try lia.
  change (Z.pos a * Z.pos b) with (Z.pos (a * b)) in *.
  apply from_normal; [| exact Hab].
  rewrite FloatAxioms.mul_spec, !Prim2SF_Z2F by nia.
  now apply SFmul_integers.
Qed.

Lemma Math_round_integer (z : Z) : 0 < z < 2 ^ 52 -> Math_round (Z2F z) = Z2F z.
Proof.
  intros Hz. destruct z as [| k | k]; try lia.
  destruct (normal_shift_spec k (proj2 Hz)) as [Hd H1].
  unfold Math_round, exact. rewrite (Prim2SF_Z2F k (proj2 Hz)). unfold normal.
  cbn [Z.leb Z.compare]. change (- Z.neg (normal_shift k)) with (Z.pos (normal_shift k)).
  assert (Hp : 2 <= 2 ^ Z.pos (normal_shift k)).
  { change 2 with (2 ^ 1) at 1. apply Z.pow_le_mono_r; lia. }
  replace (2 ^ Z.pos (normal_shift k) =? 1) with false by (symmetry; apply Z.eqb_neq; lia).
  rewrite iter_xO_value.
  replace ((2 * (Z.pos k * 2 ^ Z.pos (normal_shift k)) + 2 ^ Z.pos (normal_shift k))
           / (2 * 2 ^ Z.pos (normal_shift k))) with (Z.pos k).
  2:{ apply Z.div_unique with (r := 2 ^ Z.pos (normal_shift k)); lia. }
  replace (Z.pos k =? 0) with false by reflexivity. reflexivity.
Qed.

(** ** Dates given as serial numbers *)

Lemma Z2F_ltb (a b : Z) : 0 < a < b -> b < 2 ^ 52 -> (Z2F a <? Z2F b)%float = true.
Proof.
  intros Ha Hb. destruct a as [| a | a]; try lia. destruct b as [| b | b]; try lia.
  rewrite FloatAxioms.ltb_spec, !Prim2SF_Z2F by lia.
  destruct (normal_shift_spec a ltac:(lia)) as [Hda _].
  destruct (normal_shift_spec b Hb) as [Hdb _].
  pose proof (digits2_mono a b ltac:(lia)) as Hmono.
  unfold normal, SFltb, SFcompare.
  destruct (Z.compare_spec (Z.neg (normal_shift a)) (Z.neg (normal_shift b))) as [He | He | He];
    [| reflexivity | lia].
  injection He as He. rewrite He.
  replace (Pos.compare_cont Eq (Pos.iter xO a (normal_shift b)) (Pos.iter xO b (normal_shift b)))
    with Lt; [reflexivity |].
  change (Pos.compare_cont Eq (Pos.iter xO a (normal_shift b)) (Pos.iter xO b (normal_shift b)))
    with (Pos.iter xO a (normal_shift b) ?= Pos.iter xO b (normal_shift b))%positive.
  symmetry.
  change (Pos.iter xO a (normal_shift b) ?= Pos.iter xO b (normal_shift b))%positive
    with (Pos.compare (Pos.iter xO a (normal_shift b)) (Pos.iter xO b (normal_shift b))).
  apply Pos.compare_lt_iff.
  assert (H : Z.pos (Pos.iter xO a (normal_shift b)) < Z.pos (Pos.iter xO b (normal_shift b)))
    by (rewrite !iter_xO_value; apply Z.mul_lt_mono_pos_r; lia).
  exact H.
Qed.

Lemma days_after_epoch (y m d : Z) :
  1970 <= y -> valid_date y m d -> (y, m, d) <> (1970, 1, 1) -> 0 < days_from_civil y m d.
Proof.
  intros Hy [Hm Hd] Hne.
  assert (H : 1970 < y \/ 1 < m \/ 1 < d).
  { destruct (Z.eq_dec y 1970) as [-> |]; [| lia].
    destruct (Z.eq_dec m 1) as [-> |]; [| lia].
    destruct (Z.eq_dec d 1) as [-> |]; [| lia]. now contradiction Hne. }
  unfold days_from_civil. cbv zeta.
  destruct (Z.leb_spec m 2); destruct (Z.ltb_spec 2 m); try lia;
    Z.div_mod_to_equations; lia.
Qed.

(** The conversion of a whole-number serial. *)
Lemma serial_instant (D : Z) :
  0 < D <= 3000000 ->
  (25569 <? Z2F (25569 + D))%float = true
  /\ Date_of_number (Math_round ((Z2F (25569 + D) - 25569) * 86400 * 1000)%float)
     = Some (D * msPerDay).
Proof.
  intros HD.
  assert (H52 : 2 ^ 52 = 4503599627370496) by reflexivity.
  split.
  - change 25569%float with (Z2F 25569). apply Z2F_ltb; lia.
  - change 25569%float with (Z2F 25569). change 86400%float with (Z2F 86400).
    change 1000%float with (Z2F 1000).
    rewrite Z2F_sub by lia. replace (25569 + D - 25569) with D by lia.
    rewrite Z2F_mul by lia. rewrite Z2F_mul by lia.
    rewrite Math_round_integer by lia.
    unfold Date_of_number. rewrite trunc_Z2F by lia.
    unfold TimeClip, msPerDay.
    replace (Z.abs (D * 86400 * 1000) <=? 8640000000000000) with true
      by (symmetry; apply Z.leb_le; lia).
    f_equal. lia.
Qed.

(** A date given as a whole-number spreadsheet serial (the number of
    days since 1899-12-30) is read as UTC midnight of that date and
    stored as the local day of that instant: the date itself at or ahead
    of UTC, the day before behind UTC. *)
Theorem serial_date_import (env : Env) (y m d : Z) :
  1970 <= y <= 9999 -> valid_date y m d -> (y, m, d) <> (1970, 1, 1) ->
  let serial := Z2F (25569 + days_from_civil y m d) in
  (0 <= tz env < msPerDay -> SyncView.parseDate env (CNum serial) = iso_date y m d)
  /\ (- msPerDay <= tz env < 0 ->
      let '(y', m', d') := previous_day y m d in
      SyncView.parseDate env (CNum serial) = iso_date y' m' d').
Proof.
  intros Hy Hv Hne serial.
  pose proof (days_after_epoch y m d (proj1 Hy) Hv Hne) as Hpos.
  pose proof (days_from_civil_bounds y m d ltac:(lia) (proj1 Hv) (valid_date_day y m d Hv)) as Hb.
  destruct (serial_instant (days_from_civil y m d) ltac:(lia)) as [Hlt Hinst].
  assert (Hp : SyncView.parseDate env (CNum serial)
               = toLocaleDateString env (days_from_civil y m d * msPerDay)).
  { unfold SyncView.parseDate. cbn [truthy]. subst serial.
    rewrite (above_serial_truthy _ Hlt), Hlt, Hinst. reflexivity. }
  rewrite Hp. split.
  - intros Htz. apply toLocaleDateString_iso; [| lia].
    rewrite Day_local_midnight, (Z.div_small (tz env)) by exact Htz.
    rewrite Z.add_0_r. now apply civil_from_days_of.
  - intros Htz.
    pose proof (previous_day_spec y m d Hv) as Hprev.
    destruct (previous_day y m d) as [[y' m'] d'] eqn:Hpd.
    destruct Hprev as [Hv' Hd'].
    apply toLocaleDateString_iso.
    + rewrite Day_local_midnight.
      replace (tz env / msPerDay) with (-1)
        by (apply Z.div_unique with (r := tz env + msPerDay); unfold msPerDay in *; lia).
      replace (days_from_civil y m d + -1) with (days_from_civil y' m' d') by lia.
      now apply civil_from_days_of.
    + unfold previous_day in Hpd.
      destruct (Z.leb_spec 2 d); [injection Hpd as <- <- <-; lia |].
      destruct (Z.leb_spec 2 m); [injection Hpd as <- <- <-; lia |].
      injection Hpd as <- <- <-.
      assert (y <> 1970); [| lia].
      intros ->. apply Hne. destruct Hv as [? ?]. f_equal; [f_equal |]; lia.
Qed.

Lemma serial_date_import_witness :
  SyncView.parseDate (sampleEnv 0) (CNum 45000) = "2023-03-15"
  /\ SyncView.parseDate (sampleEnv (-18000000)) (CNum 45000) = "2023-03-14".
Proof.
  assert (Hy : 1970 <= 2023 <= 9999) by lia.
  assert (Hv : valid_date 2023 3 15)
    by (unfold valid_date; change (days_in_month 2023 3) with 31; lia).
  assert (Hne : (2023, 3, 15) <> (1970, 1, 1)) by discriminate.
  split.
  - apply (proj1 (serial_date_import (sampleEnv 0) 2023 3 15 Hy Hv Hne)).
    cbn; unfold msPerDay; lia.
  - apply (proj2 (serial_date_import (sampleEnv (-18000000)) 2023 3 15 Hy Hv Hne)).
    cbn; unfold msPerDay; lia.
Defined.

(** ** The trailing windows *)

(** The cutoff of a trailing window: the last millisecond of the local
    day that lies the given number of days before today. *)
Lemma cutoffDate_value (env : Env) (days : Z) :
  - msPerDay <= tz env <= msPerDay -> 0 <= now env <= 8000000000000000 ->
  0 <= days <= 1000 ->
  DashboardView.cutoffDate env days
  = Some ((Day (LocalTime env (now env)) - days) * msPerDay + 86399999 - tz env).
Proof.
  intros Htz Hnow Hdays. unfold DashboardView.cutoffDate, DashboardView.endOfDay.
  set (T := Day (LocalTime env (now env))).
  assert (HT : T * msPerDay <= now env + tz env < T * msPerDay + msPerDay).
  { subst T. unfold Day, LocalTime, msPerDay in *.
    pose proof (Z.div_mod (now env + tz env) 86400000 ltac:(lia)).
    pose proof (Z.mod_pos_bound (now env + tz env) 86400000 ltac:(lia)). lia. }
  unfold TimeClip at 1.
  replace (Z.abs (UTC env (T * msPerDay + 86399999)) <=? 8640000000000000) with true
    by (symmetry; apply Z.leb_le; unfold UTC, msPerDay in *; lia).
  assert (Hday : Day (LocalTime env (UTC env (T * msPerDay + 86399999))) = T).
  { unfold Day, LocalTime, UTC.
    replace (T * msPerDay + 86399999 - tz env + tz env) with (86399999 + T * msPerDay) by lia.
    rewrite Z.div_add by discriminate. reflexivity. }
  unfold DashboardView.setDate, getDate. rewrite Hday.
  pose proof (civil_from_days_inv T) as Hinv.
  destruct (civil_from_days T) as [[y m] d]. destruct Hinv as [HD [Hm Hd]].
  rewrite MakeDay_civil by exact Hm.
  replace (d - days) with (d + - days) by lia. rewrite days_from_civil_day, HD.
  assert (Hmod : LocalTime env (UTC env (T * msPerDay + 86399999)) mod msPerDay = 86399999).
  { unfold LocalTime, UTC.
    replace (T * msPerDay + 86399999 - tz env + tz env) with (86399999 + T * msPerDay) by lia.
    rewrite Z.mod_add by discriminate. reflexivity. }
  rewrite Hmod.
  unfold TimeClip.
  replace (Z.abs (UTC env ((T + - days) * msPerDay + 86399999)) <=? 8640000000000000) with true
    by (symmetry; apply Z.leb_le; unfold UTC, msPerDay in *; lia).
  unfold UTC. f_equal; lia.
Qed.

Lemma since_iso (env : Env) (data : list Sale.t) (s : Sale.t) (y m d c : Z) :
  0 <= y <= 9999 -> valid_date y m d -> Sale.date s = iso_date y m d ->
  In s (List.filter (fun s =>
          if negb (truthy_str (Sale.date s)) then false
          else match Date_parse env (Sale.date s), Some c with
               | Some recordDate, Some c => c <=? recordDate
               | _, _ => false
               end) data)
  <-> In s data /\ c <= days_from_civil y m d * msPerDay.
Proof.
  intros Hy Hv Hs. rewrite filter_In, Hs, (Date_parse_iso env y m d Hy Hv).
  change (truthy_str (iso_date y m d)) with true. cbn [negb]. now rewrite Z.leb_le.
Qed.

(** The trailing windows.  With [T] the local day of the clock, a record
    dated [YYYY-MM-DD] is shown in the N-day window exactly when its date
    is at least [T - N + 1] at or ahead of UTC, and at least [T - N + 2]
    behind UTC: the window spans N calendar days ending today in the
    first case, N - 1 in the second, and in both every later date. *)
Theorem trailing_window (env : Env) (data : list Sale.t) (customStart customEnd : string)
    (s : Sale.t) (y m d : Z) :
  - msPerDay <= tz env < msPerDay -> tz env mod 1000 = 0 ->
  0 <= now env <= 8000000000000000 ->
  0 <= y <= 9999 -> valid_date y m d -> Sale.date s = iso_date y m d ->
  let T := Day (LocalTime env (now env)) in
  let first N := if 0 <=? tz env then T - N + 1 else T - N + 2 in
  (In s (DashboardView.filteredData env data DashboardView.d7 customStart customEnd)
   <-> In s data /\ first 7 <= days_from_civil y m d)
  /\ (In s (DashboardView.filteredData env data DashboardView.d30 customStart customEnd)
      <-> In s data /\ first 30 <= days_from_civil y m d).
Proof.
  intros Htz Hsec Hnow Hy Hv Hs T first.
  assert (Hcut : forall N, 0 <= N <= 1000 ->
            ((T - N) * msPerDay + 86399999 - tz env <= days_from_civil y m d * msPerDay
             <-> first N <= days_from_civil y m d)).
  { intros N HN. subst first. cbv beta. clearbody T. clear Hs Hv Hy Hnow.
    generalize dependent (days_from_civil y m d). intros D.
    generalize dependent (tz env). intros z Htz Hsec. unfold msPerDay in *.
    destruct (Z.leb_spec 0 z); Z.div_mod_to_equations; lia. }
  unfold DashboardView.filteredData.
  rewrite !cutoffDate_value by (unfold msPerDay in *; lia). fold T.
  rewrite !(since_iso env data s y m d _ Hy Hv Hs).
  rewrite (Hcut 7), (Hcut 30) by lia. tauto.
Qed.

Lemma trailing_window_witness :
  let env := sampleEnv (-18000000) in
  let today := sampleSale "2023-11-14" "Widget" 5 1 in
  let recent := sampleSale "2023-11-09" "Ring" 7 1 in
  let older := sampleSale "2023-11-08" "Chain" 9 1 in
  toLocaleDateString env (now env) = "2023-11-14"
  /\ In recent (DashboardView.filteredData env [older; recent; today] DashboardView.d7 "" "")
  /\ ~ In older (DashboardView.filteredData env [older; recent; today] DashboardView.d7 "" "").
Proof.
  intros env today recent older.
  assert (Htz : - msPerDay <= tz env < msPerDay) by (cbn; unfold msPerDay; lia).
  assert (Hsec : tz env mod 1000 = 0) by reflexivity.
  assert (Hnow : 0 <= now env <= 8000000000000000) by (cbn; lia).
  assert (Hy : 0 <= 2023 <= 9999) by lia.
  assert (Hv9 : valid_date 2023 11 9)
    by (unfold valid_date; change (days_in_month 2023 11) with 30; lia).
  assert (Hv8 : valid_date 2023 11 8)
    by (unfold valid_date; change (days_in_month 2023 11) with 30; lia).
  split; [vm_compute; reflexivity |]. split.
  - apply (proj2 (proj1 (trailing_window env [older; recent; today] "" "" recent 2023 11 9
                           Htz Hsec Hnow Hy Hv9 eq_refl))).
    split; [right; left; reflexivity | vm_compute; discriminate].
  - intros Hin.
    apply (proj1 (proj1 (trailing_window env [older; recent; today] "" "" older 2023 11 8
                           Htz Hsec Hnow Hy Hv8 eq_refl))) in Hin.
    destruct Hin as [_ Hle]. vm_compute in Hle. apply Hle. reflexivity.
Defined.

(** ** What an import does *)

Lemma not_synced_includes (m : Master.t) (fileName : string) :
  not_synced m fileName ->
  match Master.syncedFiles m with Some fs => includes fileName fs | None => false end = false.
Proof.
  unfold not_synced. destruct (Master.syncedFiles m) as [fs |]; [| reflexivity].
  intros H. destruct (includes fileName fs) eqn:Hi; [| reflexivity].
  apply includes_In in Hi. contradiction.
Qed.

Lemma newSales_nonempty_rows (env : Env) (mp : Mapping.t) (fileName : string)
    (json : list Row) :
  SyncView.newSales env mp fileName json <> [] -> exists first rest, json = first :: rest.
Proof.
  destruct json as [| first rest]; [intros H; now contradiction H | eauto].
Qed.

(** The outcome of [finalizeProcess] on a batch that retains a row. *)
Lemma finalizeProcess_appends (env : Env) (w : World) (m : Master.t) (json : list Row)
    (mp : Mapping.t) (fileName : string) (sales : list Sale.t) :
  master w = Some m -> not_synced m fileName ->
  SyncView.newSales env mp fileName json = sales -> sales <> [] ->
  SyncView.finalizeProcess env w json mp fileName
  = setIsProcessing false
      (setPendingData None
         (setSyncStatus (Some {| success := true; count := Z2F (Z.of_nat (length sales)) |})
            (call {| master := Some (appended env m sales mp fileName);
                     stored := Some (appended env m sales mp fileName);
                     ui := ui (setProcessingStep "Building master records..." w);
                     calls := calls w |}
               (LocalStorageSet (appended env m sales mp fileName))))).
Proof.
  intros Hm Hns Hs Hne. unfold SyncView.finalizeProcess. rewrite Hs.
  destruct sales as [| s0 sales']; [contradiction |].
  unfold App.updateMaster. cbn [master setProcessingStep set_ui]. rewrite Hm.
  assert (Hfiles : (if truthy_str fileName
                       && negb (includes fileName (default [] (Master.syncedFiles m)))
                    then (default [] (Master.syncedFiles m) ++ [fileName])%list
                    else default [] (Master.syncedFiles m))
                   = (default [] (Master.syncedFiles m)
                        ++ (if truthy_str fileName then [fileName] else []))%list).
  { destruct (truthy_str fileName); cbn [andb]; [| now rewrite app_nil_r].
    replace (includes fileName (default [] (Master.syncedFiles m))) with false; [reflexivity |].
    symmetry. pose proof (not_synced_includes m fileName Hns) as H.
    destruct (Master.syncedFiles m); [exact H | reflexivity]. }
  rewrite Hfiles. cbv zeta. unfold appended.
  now destruct (truthy_num (Z2F (Z.of_nat (length (s0 :: sales'))))).
Qed.

(** [processData] on a readable, non-empty file that has not been
    imported: the state in which the mapping is put to use. *)
Lemma processData_mapped (env : Env) (w : World) (m : Master.t) (data fileName : string)
    (first : Row) (rest : list Row) :
  master w = Some m -> not_synced m fileName ->
  xlsxRead env data = XlsxRows (first :: rest) ->
  exists w2,
    master w2 = Some m /\ stored w2 = stored w
    /\ calls w2 = (calls w ++ reading_calls m data first)%list
    /\ isProcessing (ui w2) = true /\ error (ui w2) = None
    /\ syncStatus (ui w2) = syncStatus (ui w)
    /\ pendingData (ui w2) = pendingData (ui w)
    /\ manualMapping (ui w2) = manualMapping (ui w)
    /\ SyncView.processData env w data fileName
       = match mapping_in_use env m first with
         | Some mp =>
             if complete mp then SyncView.finalizeProcess env w2 (first :: rest) mp fileName
             else setIsProcessing false
                    (setManualMapping (Some SyncView.emptyMapping)
                       (setPendingData (Some (first :: rest, fileName)) w2))
         | None =>
             setIsProcessing false
               (setManualMapping (Some SyncView.emptyMapping)
                  (setPendingData (Some (first :: rest, fileName)) w2))
         end.
Proof.
  intros Hm Hns Hx. unfold SyncView.processData, mapping_in_use, reading_calls, complete.
  rewrite Hm, (not_synced_includes m fileName Hns), Hx.
  set (w1 := call (setProcessingStep "Reading report content..."
                     (setError None (setIsProcessing true w))) (XlsxReadCall data)).
  destruct (Master.mappingSchema m) as [mp |].
  - exists w1. repeat split; try reflexivity. exact Hm.
  - exists (call (setProcessingStep "AI is mapping your columns..." w1) (AiMappingCall first)).
    repeat split; try reflexivity; [exact Hm |]. cbn. now rewrite <- app_assoc.
Qed.

(** A successful import.  A file that has not been imported, that the
    reader turns into rows, whose mapping names the date and product
    columns and of which at least one row is retained, is appended: the
    ledger holds the old records followed by the retained rows in order,
    the file name is added to the synced files, the mapping becomes the
    ledger's schema, the stored copy is the new ledger, and the screen
    reports the number of retained rows. *)
Theorem import_appends_batch (env : Env) (w : World) (m : Master.t) (data fileName : string)
    (json : list Row) (first : Row) (mp : Mapping.t) :
  master w = Some m -> not_synced m fileName ->
  xlsxRead env data = XlsxRows json -> head json = Some first ->
  mapping_in_use env m first = Some mp -> complete mp = true ->
  SyncView.newSales env mp fileName json <> [] ->
  let sales := SyncView.newSales env mp fileName json in
  let w' := SyncView.processData env w data fileName in
  exists m',
    master w' = Some m' /\ stored w' = Some m'
    /\ Master.data m' = (Master.data m ++ sales)%list
    /\ Master.syncedFiles m'
       = Some (default [] (Master.syncedFiles m)
                 ++ (if truthy_str fileName then [fileName] else []))%list
    /\ Master.mappingSchema m' = Some mp
    /\ Master.id m' = Master.id m /\ Master.name m' = Master.name m
    /\ Master.lastUpdated m' = toISOString (now env)
    /\ counters_consistent m'
    /\ calls w' = (calls w ++ reading_calls m data first ++ [LocalStorageSet m'])%list
    /\ syncStatus (ui w')
       = Some {| success := true; count := Z2F (Z.of_nat (length sales)) |}
    /\ pendingData (ui w') = None /\ error (ui w') = None
    /\ isProcessing (ui w') = false.
Proof.
  intros Hm Hns Hx Hhead Hmap Hc Hne sales w'.
  destruct json as [| first' rest]; [discriminate |]. injection Hhead as ->.
  destruct (processData_mapped env w m data fileName first rest Hm Hns Hx)
    as [w2 [Hm2 [Hs2 [Hc2 [_ [He2 [_ [_ [_ Hp]]]]]]]]].
  subst w'. rewrite Hp, Hmap, Hc.
  rewrite (finalizeProcess_appends env w2 m (first :: rest) mp fileName sales Hm2 Hns eq_refl Hne).
  exists (appended env m sales mp fileName).
  cbn. rewrite Hc2, He2, <- app_assoc. repeat split; reflexivity.
Qed.

Lemma import_appends_batch_witness :
  let row := sampleRow (CStr "2024-01-07") (CStr "Widget") (CStr "$1,250.50") (CNum 2) in
  let env := sampleEnvWith 0 [row] (Some sampleMapping) in
  let w' := SyncView.processData env (sampleWorld ["dec.csv"]) "bytes" "jan.csv" in
  exists m',
    master w' = Some m'
    /\ map (fun s => (Sale.date s, Sale.product s, Sale.amount s, Sale.quantity s))
         (Master.data m')
       = [("2024-01-07", "Widget", 1250.5%float, 2%float)]
    /\ Master.syncedFiles m' = Some ["dec.csv"; "jan.csv"]
    /\ Master.mappingSchema m' = Some sampleMapping.
Proof.
  intros row env w'.
  assert (Hns : not_synced (sampleMaster ["dec.csv"]) "jan.csv").
  { cbn. intros [H | []]. discriminate H. }
  assert (Hne : SyncView.newSales env sampleMapping "jan.csv" [row] <> [])
    by (vm_compute; discriminate).
  destruct (import_appends_batch env (sampleWorld ["dec.csv"]) (sampleMaster ["dec.csv"])
              "bytes" "jan.csv" [row] row sampleMapping
              eq_refl Hns eq_refl eq_refl eq_refl eq_refl Hne)
    as [m' [Hm [_ [Hd [Hf [Hsch _]]]]]].
  exists m'. split; [exact Hm |]. rewrite Hd, Hf. split; [| split; [reflexivity | exact Hsch]].
  vm_compute. reflexivity.
Defined.

Lemma message_or_nonempty (message fallback : string) :
  fallback <> "" -> message_or message fallback <> "".
Proof.
  intros Hf. unfold message_or. destruct message; [exact Hf | discriminate].
Qed.

(** A file the reader cannot turn into rows.  When the reader throws, or
    returns no row, the import stops with the reader's message (or
    "Mapping failed." when it has none), respectively "The selected file
    appears to be empty.": the only call made is the one to the reader,
    the ledger, its stored copy, the success report and the pending batch
    are as before, and the screen is no longer processing. *)
Theorem unreadable_file_reported (env : Env) (w : World) (m : Master.t)
    (data fileName : string) :
  master w = Some m -> not_synced m fileName ->
  (forall first rest, xlsxRead env data <> XlsxRows (first :: rest)) ->
  let w' := SyncView.processData env w data fileName in
  master w' = Some m /\ stored w' = stored w
  /\ calls w' = (calls w ++ [XlsxReadCall data])%list
  /\ syncStatus (ui w') = syncStatus (ui w)
  /\ pendingData (ui w') = pendingData (ui w)
  /\ manualMapping (ui w') = manualMapping (ui w)
  /\ isProcessing (ui w') = false
  /\ error (ui w')
     = Some match xlsxRead env data with
            | XlsxThrows message => message_or message "Mapping failed."
            | XlsxRows _ => "The selected file appears to be empty."
            end
  /\ error (ui w') <> Some "".
Proof.
  intros Hm Hns Hx w'. subst w'. unfold SyncView.processData.
  rewrite Hm, (not_synced_includes m fileName Hns).
  destruct (xlsxRead env data) as [[| first rest] | message].
  - cbn. repeat split; try reflexivity; [exact Hm | discriminate].
  - now contradiction (Hx first rest).
  - cbn. repeat split; try reflexivity; [exact Hm |].
    intros H. injection H as H. now apply message_or_nonempty in H.
Qed.

Lemma unreadable_file_reported_witness :
  let env := sampleEnvWith 0 [] None in
  let w' := SyncView.processData env (sampleWorld []) "bytes" "jan.csv" in
  master w' = Some (sampleMaster [])
  /\ error (ui w') = Some "The selected file appears to be empty."
  /\ calls w' = [XlsxReadCall "bytes"].
Proof.
  intros env w'.
  assert (Hns : not_synced (sampleMaster []) "jan.csv") by (cbn; tauto).
  assert (Hx : forall first rest, xlsxRead env "bytes" <> XlsxRows (first :: rest))
    by (intros first rest; discriminate).
  destruct (unreadable_file_reported env (sampleWorld []) (sampleMaster []) "bytes" "jan.csv"
              eq_refl Hns Hx) as [H1 [_ [H3 [_ [_ [_ [_ [H8 _]]]]]]]].
  split; [exact H1 |]. split; [exact H8 | exact H3].
Defined.

(** No usable mapping.  When the mapping in use (the ledger's schema, or
    without one the assistant's answer) is missing or names no date or no
    product column, nothing is normalized: the rows and the file name are
    left pending together with a manual mapping whose five fields are all
    unset, the mapping modal is shown, and the ledger, its stored copy
    and the success report are as before.  The assistant is consulted
    only when the ledger has no schema. *)
Theorem incomplete_mapping_asks_user (env : Env) (w : World) (m : Master.t)
    (data fileName : string) (first : Row) (rest : list Row) :
  master w = Some m -> not_synced m fileName ->
  xlsxRead env data = XlsxRows (first :: rest) ->
  (forall mp, mapping_in_use env m first = Some mp -> complete mp = false) ->
  let w' := SyncView.processData env w data fileName in
  master w' = Some m /\ stored w' = stored w
  /\ calls w' = (calls w ++ reading_calls m data first)%list
  /\ pendingData (ui w') = Some (first :: rest, fileName)
  /\ manualMapping (ui w')
     = Some (Mapping.mk (Some "") (Some "") (Some "") (Some "") (Some ""))
  /\ SyncScreen.modalShown (ui w') = true
  /\ syncStatus (ui w') = syncStatus (ui w)
  /\ error (ui w') = None
  /\ isProcessing (ui w') = false.
Proof.
  intros Hm Hns Hx Hinc w'.
  destruct (processData_mapped env w m data fileName first rest Hm Hns Hx)
    as [w2 [Hm2 [Hs2 [Hc2 [_ [He2 [Hst2 [_ [_ Hp]]]]]]]]].
  subst w'. rewrite Hp.
  assert (Hr : match mapping_in_use env m first with
               | Some mp =>
                   if complete mp
                   then SyncView.finalizeProcess env w2 (first :: rest) mp fileName
                   else setIsProcessing false
                          (setManualMapping (Some SyncView.emptyMapping)
                             (setPendingData (Some (first :: rest, fileName)) w2))
               | None =>
                   setIsProcessing false
                     (setManualMapping (Some SyncView.emptyMapping)
                        (setPendingData (Some (first :: rest, fileName)) w2))
               end
               = setIsProcessing false
                   (setManualMapping (Some SyncView.emptyMapping)
                      (setPendingData (Some (first :: rest, fileName)) w2))).
  { destruct (mapping_in_use env m first) as [mp |]; [| reflexivity].
    now rewrite (Hinc mp eq_refl). }
  rewrite Hr. cbn. repeat split; try reflexivity; assumption.
Qed.

Lemma incomplete_mapping_asks_user_witness :
  let row := sampleRow (CStr "2024-01-07") (CStr "Widget") (CNum 5) (CNum 1) in
  let noDate := Mapping.mk None (Some "Item") None (Some "Total") None in
  let env := sampleEnvWith 0 [row] (Some noDate) in
  let w' := SyncView.processData env (sampleWorld []) "bytes" "jan.csv" in
  master w' = Some (sampleMaster [])
  /\ pendingData (ui w') = Some ([row], "jan.csv")
  /\ calls w' = [XlsxReadCall "bytes"; AiMappingCall row].
Proof.
  intros row noDate env w'.
  assert (Hns : not_synced (sampleMaster []) "jan.csv") by (cbn; tauto).
  assert (Hinc : forall mp, mapping_in_use env (sampleMaster []) row = Some mp
                            -> complete mp = false).
  { intros mp H. injection H as <-. reflexivity. }
  destruct (incomplete_mapping_asks_user env (sampleWorld []) (sampleMaster []) "bytes"
              "jan.csv" row [] eq_refl Hns eq_refl Hinc) as [H1 [_ [H3 [H4 _]]]].
  split; [exact H1 |]. split; [exact H4 | exact H3].
Defined.

(** ** The assistant and the stored schema *)

Lemma toLocaleDateString_assistant env ai t :
  toLocaleDateString (with_assistant env ai) t = toLocaleDateString env t.
Proof. unfold toLocaleDateString, LocalTime. cbn [tz with_assistant]. reflexivity. Qed.

Lemma today_assistant env ai : today (with_assistant env ai) = today env.
Proof.
  unfold today. now rewrite toLocaleDateString_assistant.
Qed.

Lemma Date_parse_assistant env ai s :
  Date_parse (with_assistant env ai) s = Date_parse env s.
Proof. unfold Date_parse. destruct (parse_iso_date s); reflexivity. Qed.

Lemma Date_of_cell_assistant env ai c :
  Date_of_cell (with_assistant env ai) c = Date_of_cell env c.
Proof.
  destruct c as [| s | x | b | t]; cbn [Date_of_cell];
    [reflexivity | apply Date_parse_assistant | reflexivity | reflexivity | reflexivity].
Qed.

Lemma ToString_assistant env ai c : ToString (with_assistant env ai) c = ToString env c.
Proof. destruct c; cbn [ToString hostDateToString with_assistant]; reflexivity. Qed.

Lemma parseDate_assistant env ai v :
  SyncView.parseDate (with_assistant env ai) v = SyncView.parseDate env v.
Proof.
  unfold SyncView.parseDate.
  rewrite today_assistant, Date_of_cell_assistant.
  assert (Hfin : forall o : option Z,
            match o with
            | Some t => toLocaleDateString (with_assistant env ai) t
            | None => today env
            end
            = match o with Some t => toLocaleDateString env t | None => today env end)
    by (intros [t |]; [apply toLocaleDateString_assistant | reflexivity]).
  cbv beta zeta. rewrite !Hfin. reflexivity.
Qed.

Lemma normalizeRow_assistant env ai mp f i r :
  SyncView.normalizeRow (with_assistant env ai) mp f i r = SyncView.normalizeRow env mp f i r.
Proof.
  unfold SyncView.normalizeRow, SyncView.cleanAmount, SyncView.string_or.
  rewrite parseDate_assistant. cbn [now with_assistant].
  rewrite !ToString_assistant. reflexivity.
Qed.

Lemma newSales_assistant env ai mp f json :
  SyncView.newSales (with_assistant env ai) mp f json = SyncView.newSales env mp f json.
Proof.
  unfold SyncView.newSales.
  replace (imap (SyncView.normalizeRow (with_assistant env ai) mp f) json)
    with (imap (SyncView.normalizeRow env mp f) json); [reflexivity |].
  apply imap_ext. intros i r _. symmetry. apply normalizeRow_assistant.
Qed.

Lemma finalizeProcess_assistant env ai w json mp f :
  SyncView.finalizeProcess (with_assistant env ai) w json mp f
  = SyncView.finalizeProcess env w json mp f.
Proof.
  unfold SyncView.finalizeProcess. rewrite newSales_assistant.
  unfold App.updateMaster. cbn [now with_assistant]. reflexivity.
Qed.

Lemma finalizeProcess_calls (env : Env) (w : World) (json : list Row) (mp : Mapping.t)
    (fileName : string) (c : Call) :
  In c (calls (SyncView.finalizeProcess env w json mp fileName)) ->
  In c (calls w) \/ exists m', c = LocalStorageSet m'.
Proof.
  unfold SyncView.finalizeProcess.
  destruct (SyncView.newSales env mp fileName json) as [| s sales]; [now left |].
  destruct (App.updateMaster env (setProcessingStep "Building master records..." w)
              (s :: sales) (Some mp) (Some fileName)) as [w' n] eqn:Hu.
  unfold App.updateMaster in Hu. cbn [master setProcessingStep set_ui] in Hu.
  destruct (master w) as [m |]; injection Hu as <- _.
  - cbn [calls call ui set_ui setIsProcessing setPendingData setSyncStatus].
    rewrite in_app_iff. intros [H | [<- | []]]; [left; exact H | right; eauto].
  - intros H. left. exact H.
Qed.

(** Once the ledger has a schema the assistant is out of the loop: an
    import makes no call to it, and its outcome is the same whatever the
    assistant would have answered. *)
Theorem stored_schema_skips_assistant (env : Env) (w : World) (m : Master.t) (mp : Mapping.t)
    (data fileName : string) (ai : Row -> option Mapping.t) :
  master w = Some m -> Master.mappingSchema m = Some mp ->
  let w' := SyncView.processData env w data fileName in
  SyncView.processData (with_assistant env ai) w data fileName = w'
  /\ (forall row, In (AiMappingCall row) (calls w') -> In (AiMappingCall row) (calls w)).
Proof.
  intros Hm Hs w'. subst w'. unfold SyncView.processData. rewrite Hm, Hs.
  change (xlsxRead (with_assistant env ai) data) with (xlsxRead env data).
  set (w0 := setProcessingStep "Reading report content..."
               (setError None (setIsProcessing true w))).
  assert (H1 : forall row, In (AiMappingCall row) (calls (call w0 (XlsxReadCall data)))
                           -> In (AiMappingCall row) (calls w)).
  { intros row H. cbn [calls call] in H. apply in_app_iff in H as [H | [H | []]];
      [exact H | discriminate H]. }
  destruct (match Master.syncedFiles m with
            | Some fs => includes fileName fs
            | None => false
            end); [split; [reflexivity | intros row H; exact H] |].
  destruct (xlsxRead env data) as [[| first rest] | message];
    [split; [reflexivity | exact H1] | | split; [reflexivity | exact H1]].
  destruct (truthy_field (Mapping.date mp) && truthy_field (Mapping.product mp)).
  - split; [apply finalizeProcess_assistant |]. intros row H.
    apply finalizeProcess_calls in H as [H | [m' H]]; [| discriminate H].
    now apply H1.
  - split; [reflexivity | exact H1].
Qed.

Lemma stored_schema_skips_assistant_witness :
  let row := sampleRow (CStr "2024-01-07") (CStr "Widget") (CNum 5) (CNum 1) in
  let env := sampleEnvWith 0 [row] None in
  let m :=
    Master.mk "m1" "Studio" "2023-01-01T00:00:00.000Z" 0 0 [] (Some []) None None None
      (Some sampleMapping) in
  let w := {| master := Some m; stored := Some m; ui := idleView; calls := [] |} in
  master w = Some m
  /\ SyncView.processData
       (with_assistant env (fun _ => Some (Mapping.mk None None None None None))) w
       "bytes" "jan.csv"
     = SyncView.processData env w "bytes" "jan.csv".
Proof.
  intros row env m w. split; [reflexivity |].
  exact (proj1 (stored_schema_skips_assistant env w m sampleMapping "bytes" "jan.csv"
                  (fun _ => Some (Mapping.mk None None None None None)) eq_refl eq_refl)).
Defined.

(** ** How an import ends on the screen *)

(** [finalizeProcess] either finds no row to keep and reports it, or
    appends the retained rows. *)
Lemma finalizeProcess_cases (env : Env) (w : World) (m : Master.t) (json : list Row)
    (mp : Mapping.t) (fileName : string) :
  master w = Some m ->
  (SyncView.newSales env mp fileName json = []
   /\ SyncView.finalizeProcess env w json mp fileName
      = setIsProcessing false
          (setError (Some "No data found.")
             (setProcessingStep "Building master records..." w)))
  \/ (exists m' n,
        continues m m'
        /\ SyncView.finalizeProcess env w json mp fileName
           = setIsProcessing false
               (setPendingData None
                  (setSyncStatus (Some {| success := true; count := n |})
                     (call {| master := Some m'; stored := Some m';
                              ui := ui (setProcessingStep "Building master records..." w);
                              calls := calls w |} (LocalStorageSet m'))))).
Proof.
  intros Hm. unfold SyncView.finalizeProcess.
  destruct (SyncView.newSales env mp fileName json) as [| s sales]; [left; split; reflexivity |].
  right.
  destruct (App.updateMaster env (setProcessingStep "Building master records..." w)
              (s :: sales) (Some mp) (Some fileName)) as [w' n] eqn:Hu.
  unfold App.updateMaster in Hu. cbn [master setProcessingStep set_ui] in Hu.
  rewrite Hm in Hu. injection Hu as <- <-.
  eexists. eexists. split; [| reflexivity].
  unfold continues, grows, counters_consistent. cbn [Master.id Master.name Master.data
    Master.syncedFiles Master.totalSales Master.totalRevenue].
  repeat split.
  - now apply prefix_app_r.
  - intros f Hf. cbn [default].
    destruct (truthy_str fileName && negb (includes fileName (default [] (Master.syncedFiles m))));
      [apply in_or_app; now left | exact Hf].
Qed.

Ltac unfold_setters :=
  cbn [master stored ui calls set_ui call setIsProcessing setProcessingStep setSyncStatus
       setError setPendingData setManualMapping isProcessing processingStep syncStatus
       error pendingData manualMapping].

Lemma panel_error (v : ViewState) (message : string) :
  isProcessing v = false -> syncStatus v = None -> error v = Some message -> message <> "" ->
  SyncScreen.panel v = SyncScreen.Error message.
Proof.
  intros Hp Hs He Hne. unfold SyncScreen.panel. rewrite Hp, Hs, He.
  now destruct message.
Qed.

Lemma panel_idle (v : ViewState) :
  SyncScreen.panel v = SyncScreen.ImportFile ->
  isProcessing v = false /\ syncStatus v = None.
Proof.
  unfold SyncScreen.panel. destruct (isProcessing v); [discriminate |].
  destruct (syncStatus v); [discriminate |]. now split.
Qed.

(** How an import started from the idle screen ends.  Exactly one of
    three things is on the screen afterwards: the success panel, with the
    ledger continued by at least the old records and its stored copy
    equal to it; the error panel with a non-empty message; or the mapping
    modal over the idle panel.  In the last two cases the ledger and its
    stored copy are as before.  The screen is never left processing. *)
Theorem import_outcome (env : Env) (w : World) (m : Master.t) (data fileName : string) :
  master w = Some m ->
  SyncScreen.panel (ui w) = SyncScreen.ImportFile ->
  SyncScreen.modalShown (ui w) = false ->
  let w' := SyncView.processData env w data fileName in
  (exists n m',
      SyncScreen.panel (ui w') = SyncScreen.Success n
      /\ SyncScreen.modalShown (ui w') = false
      /\ master w' = Some m' /\ stored w' = Some m' /\ continues m m')
  \/ (exists message,
        SyncScreen.panel (ui w') = SyncScreen.Error message /\ message <> ""
        /\ SyncScreen.modalShown (ui w') = false
        /\ master w' = Some m /\ stored w' = stored w)
  \/ (SyncScreen.panel (ui w') = SyncScreen.ImportFile
      /\ SyncScreen.modalShown (ui w') = true
      /\ master w' = Some m /\ stored w' = stored w).
Proof.
  intros Hm Hidle Hmodal w'. subst w'.
  destruct (panel_idle _ Hidle) as [Hp Hs]. unfold SyncScreen.modalShown in Hmodal.
  assert (Herr : forall message (w0 : World),
            message <> "" -> syncStatus (ui w0) = None ->
            SyncScreen.modalShown (ui w0) = false -> master w0 = Some m ->
            stored w0 = stored w ->
            exists message',
              SyncScreen.panel (ui (setIsProcessing false (setError (Some message) w0)))
              = SyncScreen.Error message' /\ message' <> ""
              /\ SyncScreen.modalShown (ui (setIsProcessing false (setError (Some message) w0)))
                 = false
              /\ master (setIsProcessing false (setError (Some message) w0)) = Some m
              /\ stored (setIsProcessing false (setError (Some message) w0)) = stored w).
  { intros message w0 Hne Hs0 Hm0 Hma0 Hst0. exists message.
    split; [apply panel_error; unfold_setters; auto |].
    unfold SyncScreen.modalShown in *. repeat split; assumption. }
  unfold SyncView.processData. rewrite Hm.
  set (w0 := setProcessingStep "Reading report content..."
               (setError None (setIsProcessing true w))).
  destruct (match Master.syncedFiles m with
            | Some fs => includes fileName fs
            | None => false
            end).
  { right. left. apply Herr; try (subst w0; unfold SyncScreen.modalShown; unfold_setters; first [assumption | reflexivity]).
    apply message_or_nonempty. discriminate. }
  set (w1 := call w0 (XlsxReadCall data)).
  destruct (xlsxRead env data) as [[| first rest] | message].
  { right. left. apply Herr; try (subst w1 w0; unfold SyncScreen.modalShown; unfold_setters; first [assumption | reflexivity]).
    apply message_or_nonempty. discriminate. }
  2:{ right. left. apply Herr; try (subst w1 w0; unfold SyncScreen.modalShown; unfold_setters; first [assumption | reflexivity]).
      apply message_or_nonempty. discriminate. }
  set (w2 := match Master.mappingSchema m with
             | Some _ => w1
             | None => call (setProcessingStep "AI is mapping your columns..." w1)
                         (AiMappingCall first)
             end).
  assert (Hw2 : master w2 = Some m /\ stored w2 = stored w
                /\ syncStatus (ui w2) = None /\ pendingData (ui w2) = pendingData (ui w)
                /\ manualMapping (ui w2) = manualMapping (ui w)).
  { subst w2 w1 w0. destruct (Master.mappingSchema m); unfold_setters;
      repeat split; first [assumption | reflexivity]. }
  destruct Hw2 as [Hm2 [Hst2 [Hs2 [Hpd2 Hmm2]]]].
  assert (Hpending :
            SyncScreen.panel (ui (setIsProcessing false
                                    (setManualMapping (Some SyncView.emptyMapping)
                                       (setPendingData (Some (first :: rest, fileName)) w2))))
            = SyncScreen.ImportFile
            /\ SyncScreen.modalShown
                 (ui (setIsProcessing false
                        (setManualMapping (Some SyncView.emptyMapping)
                           (setPendingData (Some (first :: rest, fileName)) w2)))) = true
            /\ master (setIsProcessing false
                         (setManualMapping (Some SyncView.emptyMapping)
                            (setPendingData (Some (first :: rest, fileName)) w2))) = Some m
            /\ stored (setIsProcessing false
                         (setManualMapping (Some SyncView.emptyMapping)
                            (setPendingData (Some (first :: rest, fileName)) w2))) = stored w).
  { unfold SyncScreen.panel, SyncScreen.modalShown. unfold_setters. rewrite Hs2.
    replace (error (ui w2)) with (@None string)
      by (subst w2 w1 w0; destruct (Master.mappingSchema m); reflexivity).
    repeat split; first [assumption | reflexivity]. }
  assert (Hfin : forall mp,
            (exists n m',
                SyncScreen.panel (ui (SyncView.finalizeProcess env w2 (first :: rest) mp fileName))
                = SyncScreen.Success n
                /\ SyncScreen.modalShown
                     (ui (SyncView.finalizeProcess env w2 (first :: rest) mp fileName)) = false
                /\ master (SyncView.finalizeProcess env w2 (first :: rest) mp fileName) = Some m'
                /\ stored (SyncView.finalizeProcess env w2 (first :: rest) mp fileName) = Some m'
                /\ continues m m')
            \/ (exists message,
                  SyncScreen.panel
                    (ui (SyncView.finalizeProcess env w2 (first :: rest) mp fileName))
                  = SyncScreen.Error message /\ message <> ""
                  /\ SyncScreen.modalShown
                       (ui (SyncView.finalizeProcess env w2 (first :: rest) mp fileName)) = false
                  /\ master (SyncView.finalizeProcess env w2 (first :: rest) mp fileName) = Some m
                  /\ stored (SyncView.finalizeProcess env w2 (first :: rest) mp fileName)
                     = stored w)).
  { intros mp.
    destruct (finalizeProcess_cases env w2 m (first :: rest) mp fileName Hm2)
      as [[_ ->] | [m' [n [Hcont ->]]]].
    - right. apply Herr; unfold SyncScreen.modalShown; unfold_setters; try assumption;
        [discriminate |]. rewrite Hpd2, Hmm2. exact Hmodal.
    - left. exists n, m'. unfold SyncScreen.panel, SyncScreen.modalShown. unfold_setters.
      do 4 (split; [reflexivity |]). exact Hcont. }
  assert (Hcase :
            match Master.mappingSchema m with
            | Some mp => (Some mp, w1)
            | None =>
                (aiMapping env first,
                 call (setProcessingStep "AI is mapping your columns..." w1)
                   (AiMappingCall first))
            end
            = (match Master.mappingSchema m with
               | Some mp => Some mp
               | None => aiMapping env first
               end, w2)).
  { subst w2. now destruct (Master.mappingSchema m). }
  rewrite Hcase.
  destruct (match Master.mappingSchema m with
            | Some mp => Some mp
            | None => aiMapping env first
            end) as [mp |]; [| right; right; exact Hpending].
  destruct (truthy_field (Mapping.date mp) && truthy_field (Mapping.product mp));
    [| right; right; exact Hpending].
  destruct (Hfin mp) as [H | H]; [left; exact H | right; left; exact H].
Qed.

Lemma import_outcome_witness :
  let row := sampleRow (CStr "2024-01-07") (CStr "Widget") (CNum 5) (CNum 1) in
  let env := sampleEnvWith 0 [row] (Some sampleMapping) in
  SyncScreen.panel (ui (SyncView.processData env (sampleWorld []) "bytes" "jan.csv"))
  = SyncScreen.Success 1.
Proof.
  intros row env.
  destruct (import_outcome env (sampleWorld []) (sampleMaster []) "bytes" "jan.csv"
              eq_refl eq_refl eq_refl) as [[n [m' [Hp _]]] | [[message [Hp _]] | [Hp _]]];
    vm_compute in Hp |- *; congruence.
Defined.

(** ** Sessions *)



Lemma finalizeProcess_ledger (env : Env) (w : World) (json : list Row) (mp : Mapping.t)
    (fileName : string) :
  ledger_step w (SyncView.finalizeProcess env w json mp fileName).
Proof.
  destruct (master w) as [m |] eqn:Hm.
  - destruct (finalizeProcess_cases env w m json mp fileName Hm)
      as [[_ ->] | [m' [n [Hcont ->]]]].
    + left. split; reflexivity.
    + right. exists m, m'. repeat split; try reflexivity; [exact Hm | apply Hcont ..].
  - left. unfold SyncView.finalizeProcess.
    destruct (SyncView.newSales env mp fileName json); [split; reflexivity |].
    unfold App.updateMaster. cbn [master setProcessingStep set_ui]. rewrite Hm.
    unfold_setters. split; [exact Hm | reflexivity].
Qed.

Lemma ledger_step_frame (w0 w w' : World) :
  master w = master w0 -> stored w = stored w0 -> ledger_step w w' -> ledger_step w0 w'.
Proof.
  intros Hm Hs [[H1 H2] | [m [m' [H1 [H2 [H3 H4]]]]]].
  - left. split; congruence.
  - right. exists m, m'. repeat split; try assumption; [congruence | apply H4 ..].
Qed.

Lemma processData_ledger (env : Env) (w : World) (data fileName : string) :
  ledger_step w (SyncView.processData env w data fileName).
Proof.
  unfold SyncView.processData.
  destruct (master w) as [m |] eqn:Hm; [| left; split; reflexivity].
  destruct (match Master.syncedFiles m with
            | Some fs => includes fileName fs
            | None => false
            end); [left; split; reflexivity |].
  destruct (xlsxRead env data) as [[| first rest] | message];
    [left; split; reflexivity | | left; split; reflexivity].
  destruct (Master.mappingSchema m) as [mp |].
  - destruct (truthy_field (Mapping.date mp) && truthy_field (Mapping.product mp));
      [| left; split; reflexivity].
    eapply ledger_step_frame; [| | apply finalizeProcess_ledger]; reflexivity.
  - destruct (aiMapping env first) as [mp |]; [| left; split; reflexivity].
    destruct (truthy_field (Mapping.date mp) && truthy_field (Mapping.product mp));
      [| left; split; reflexivity].
    eapply ledger_step_frame; [| | apply finalizeProcess_ledger]; reflexivity.
Qed.

Lemma modal_ledger (env : Env) (w : World) (a : SyncView.ModalAction) :
  ledger_step w (SyncView.modal env w a).
Proof.
  unfold SyncView.modal.
  destruct (pendingData (ui w)) as [[json fileName] |]; [| left; split; reflexivity].
  destruct (manualMapping (ui w)) as [mm |]; [| left; split; reflexivity].
  destruct a; [left; split; reflexivity | left; split; reflexivity |].
  apply finalizeProcess_ledger.
Qed.

Lemma pick_ledger (env : Env) (w0 w : World) (run : SyncScreen.DriveRun) :
  master w = master w0 -> stored w = stored w0 ->
  ledger_step w0 (SyncScreen.pick env w run).
Proof.
  intros H1 H2. unfold SyncScreen.pick.
  destruct (SyncScreen.openPicker run) as [name | | message].
  - destruct (SyncScreen.downloadFile run) as [data | message].
    + eapply ledger_step_frame; [| | apply processData_ledger]; assumption.
    + left. split; assumption.
  - left. split; assumption.
  - left. split; assumption.
Qed.

Lemma handleDrivePick_ledger (env : Env) (w : World) (run : SyncScreen.DriveRun) :
  ledger_step w (SyncScreen.handleDrivePick env w run).
Proof.
  unfold SyncScreen.handleDrivePick.
  destruct (negb (SyncScreen.service run)); [left; split; reflexivity |].
  destruct (truthy_field (SyncScreen.getStoredToken run)); [apply pick_ledger; reflexivity |].
  destruct (SyncScreen.authenticate run) as [token | message]; [| left; split; reflexivity].
  destruct (truthy_str token); [apply pick_ledger; reflexivity | left; split; reflexivity].
Qed.

Lemma handle_ledger (env : Env) (w : World) (e : SyncScreen.Event) :
  ledger_step w (SyncScreen.handle env w e).
Proof.
  destruct e as [data fileName | run | a | |]; cbn [SyncScreen.handle].
  - apply processData_ledger.
  - apply handleDrivePick_ledger.
  - apply modal_ledger.
  - left. split; reflexivity.
  - left. split; reflexivity.
Qed.

Lemma app_handle_invariant (env : Env) (st : AppShell.State) (e : AppShell.Event) :
  setup_consistent e ->
  mirrored (AppShell.world st) /\ ledger_consistent (AppShell.world st) ->
  mirrored (AppShell.world (AppShell.handle env st e))
  /\ ledger_consistent (AppShell.world (AppShell.handle env st e)).
Proof.
  intros He [Hmir Hcons]. unfold mirrored, ledger_consistent in *.
  assert (Hsame : stored (AppShell.world st) = master (AppShell.world st)
                  /\ (forall m, master (AppShell.world st) = Some m -> counters_consistent m))
    by (split; assumption).
  assert (Hmount : stored (AppShell.world {| AppShell.world := AppShell.mount (AppShell.world st);
                                             AppShell.view := AppShell.view st |})
                   = master (AppShell.mount (AppShell.world st))
                   /\ (forall m, master (AppShell.mount (AppShell.world st)) = Some m
                                 -> counters_consistent m))
    by (split; assumption).
  destruct e as [id data | v | e' | insight | | link]; unfold AppShell.handle.
  - destruct (AppShell.view st); try exact Hsame.
    unfold AppShell.handleSetupComplete, AppShell.mount, AppShell.setMaster.
    cbn [AppShell.world master stored set_ui call]. split; [reflexivity |].
    intros m Hm. injection Hm as <-.
    destruct data as [name | record]; [split; reflexivity | exact He].
  - unfold AppShell.navigate.
    destruct (master (AppShell.world st)) as [m |] eqn:Hm; [| rewrite Hm; exact Hsame].
    destruct (truthy_str (Master.name m)); [| rewrite Hm; exact Hsame].
    cbn [AppShell.world].
    destruct v, (AppShell.view st); first [rewrite Hm; exact Hsame | exact Hmount].
  - destruct (AppShell.view st); try exact Hsame.
    destruct (master (AppShell.world st)) as [m |] eqn:Hm; [| rewrite Hm; exact Hsame].
    cbn [AppShell.world].
    destruct (handle_ledger env (AppShell.world st) e') as [[H1 H2] | [m0 [m' [H1 [H2 [H3 H4]]]]]].
    + rewrite H1, H2, Hm. exact Hsame.
    + rewrite H2, H3. split; [reflexivity |]. intros m1 Hm1. injection Hm1 as <-. apply H4.
  - destruct (AppShell.view st); try exact Hsame.
    destruct (master (AppShell.world st)) as [m |] eqn:Hm; [| rewrite Hm; exact Hsame].
    unfold AppShell.saveAnalysis. rewrite Hm. unfold AppShell.setMaster.
    cbn [AppShell.world master stored call]. split; [reflexivity |].
    intros m1 Hm1. injection Hm1 as <-. apply (proj2 Hsame m eq_refl).
  - unfold AppShell.handleSwitchFile, AppShell.mount. cbn [AppShell.world master stored set_ui].
    split; [reflexivity | discriminate].
  - unfold AppShell.syncToCloud.
    destruct (master (AppShell.world st)) as [m |] eqn:Hm; [| rewrite Hm; exact Hsame].
    destruct link as [link |]; [| rewrite Hm; exact Hsame].
    destruct (truthy_str link && _); [| rewrite Hm; exact Hsame].
    unfold AppShell.setMaster. cbn [AppShell.world master stored call].
    split; [reflexivity |]. intros m1 Hm1. injection Hm1 as <-. apply (proj2 Hsame m eq_refl).
Qed.

(** Persistence and counters over a session.  Started from a state in
    which the stored copy is the ledger and the ledger's counters agree
    with its records, every session of setups (from consistent ledgers),
    navigation, imports by file or from Drive, modal actions, dismissals,
    saved analyses, cloud saves and sign-outs, each handled to its end on
    the state the previous one left, ends in such a state. *)
Theorem session_keeps_ledger_stored (st : AppShell.State)
    (events : list (Env * AppShell.Event)) :
  mirrored (AppShell.world st) -> ledger_consistent (AppShell.world st) ->
  Forall (fun ee => setup_consistent (snd ee)) events ->
  mirrored (AppShell.world (AppShell.run st events))
  /\ ledger_consistent (AppShell.world (AppShell.run st events)).
Proof.
  intros Hmir Hcons Hev. revert st Hmir Hcons.
  induction Hev as [| [env e] events He _ IH]; intros st Hmir Hcons; [now split |].
  unfold AppShell.run. cbn [fold_left fst snd].
  destruct (app_handle_invariant env st e He (conj Hmir Hcons)) as [H1 H2].
  now apply IH.
Qed.

Lemma session_keeps_ledger_stored_witness :
  let row := sampleRow (CStr "2024-01-07") (CStr "Widget") (CNum 5) (CNum 1) in
  let env := sampleEnvWith 0 [row] (Some sampleMapping) in
  let st0 :=
    {| AppShell.world := {| master := None; stored := None; ui := SyncScreen.initial;
                            calls := [] |};
       AppShell.view := AppShell.setup |} in
  let session :=
    [(env, AppShell.CompleteSetup "k3x9" (AppShell.NewName "Studio"));
     (env, AppShell.OnSyncScreen (SyncScreen.ChooseFile "bytes" "jan.csv"));
     (env, AppShell.OnSyncScreen SyncScreen.Done);
     (env, AppShell.CloudSaved (Some "https://drive.example/file"));
     (env, AppShell.Navigate AppShell.analyze);
     (env, AppShell.AnalysisReady "{}")] in
  stored (AppShell.world (AppShell.run st0 session))
  = master (AppShell.world (AppShell.run st0 session))
  /\ (Master.totalSales <$> master (AppShell.world (AppShell.run st0 session))) = Some 1%float.
Proof.
  intros row env st0 session.
  assert (Hev : Forall (fun ee => setup_consistent (snd ee)) session)
    by (repeat constructor).
  split.
  - exact (proj1 (session_keeps_ledger_stored st0 session eq_refl
                    ltac:(intros m H; discriminate H) Hev)).
  - vm_compute. reflexivity.
Defined.




(** ** Imports from Drive *)

Lemma importFailed_nonempty (message : option string) : SyncScreen.importFailed message <> "".
Proof. unfold SyncScreen.importFailed. discriminate. Qed.

Lemma driveError_failed (w w0 : World) (message : option string) :
  untouched w w0 -> drive_failed w (SyncScreen.driveError message w0).
Proof.
  intros Hu. split; [exact Hu |]. split; [reflexivity |].
  eexists. split; [reflexivity |]. apply message_or_nonempty. discriminate.
Qed.

Lemma pick_cases (env : Env) (w w0 : World) (run : SyncScreen.DriveRun) :
  untouched w w0 -> error (ui w0) = None ->
  match SyncScreen.openPicker run, SyncScreen.downloadFile run with
  | SyncScreen.Picked name, inl data =>
      exists w1, untouched w w1
                 /\ SyncScreen.pick env w0 run = SyncView.processData env w1 data name
  | SyncScreen.Dismissed, _ =>
      untouched w (SyncScreen.pick env w0 run)
      /\ error (ui (SyncScreen.pick env w0 run)) = None
  | _, _ => drive_failed w (SyncScreen.pick env w0 run)
  end.
Proof.
  intros Hu He. unfold SyncScreen.pick.
  destruct (SyncScreen.openPicker run) as [name | | message].
  - destruct (SyncScreen.downloadFile run) as [data | message].
    + eexists. split; [| reflexivity]. exact Hu.
    + split; [exact Hu |]. split; [reflexivity |].
      eexists. split; [reflexivity | apply importFailed_nonempty].
  - destruct (SyncScreen.downloadFile run); split; assumption.
  - destruct (SyncScreen.downloadFile run); now apply driveError_failed.
Qed.

(** An import from Drive.  Without a service object nothing happens.
    Without a token (none held, and authentication rejected or resolved
    with an empty one) the run fails.  With a token, the picked file is
    handed to [processData] when its download succeeds, nothing but the
    progress and error indications having changed until then; a
    dismissed picker leaves no error; a picker that throws and a download
    that fails make the run fail.  A failed run ends with a non-empty
    error message, not processing, and with the ledger, its stored copy,
    the calls made, the success report and the pending batch as
    before. *)
Theorem drive_import (env : Env) (w : World) (run : SyncScreen.DriveRun) :
  let w' := SyncScreen.handleDrivePick env w run in
  (SyncScreen.service run = false -> w' = w)
  /\ (SyncScreen.service run = true ->
      match drive_token run with
      | None => drive_failed w w'
      | Some _ =>
          match SyncScreen.openPicker run, SyncScreen.downloadFile run with
          | SyncScreen.Picked name, inl data =>
              exists w1, untouched w w1 /\ w' = SyncView.processData env w1 data name
          | SyncScreen.Dismissed, _ => untouched w w' /\ error (ui w') = None
          | _, _ => drive_failed w w'
          end
      end).
Proof.
  intros w'. subst w'. unfold SyncScreen.handleDrivePick, drive_token.
  split; [intros ->; reflexivity |]. intros ->. cbn [negb].
  assert (Hw : untouched w w) by (repeat split).
  destruct (truthy_field (SyncScreen.getStoredToken run)) eqn:Ht.
  - destruct (SyncScreen.getStoredToken run) as [token |]; [| discriminate Ht].
    apply pick_cases; [exact Hw | reflexivity].
  - destruct (SyncScreen.authenticate run) as [token | message].
    + destruct (truthy_str token).
      * apply pick_cases; [exact Hw | reflexivity].
      * now apply driveError_failed.
    + now apply driveError_failed.
Qed.

Lemma drive_import_witness :
  let run :=
    {| SyncScreen.service := true; SyncScreen.getStoredToken := None;
       SyncScreen.authenticate := inl "token";
       SyncScreen.openPicker := SyncScreen.Picked "jan.csv";
       SyncScreen.downloadFile := inr (Some "Download failed.") |} in
  let w' := SyncScreen.handleDrivePick (sampleEnv 0) (sampleWorld []) run in
  master w' = master (sampleWorld [])
  /\ error (ui w') = Some "Import failed: Download failed."
  /\ isProcessing (ui w') = false.
Proof.
  intros run w'.
  destruct (proj2 (drive_import (sampleEnv 0) (sampleWorld []) run) eq_refl)
    as [[Hm _] [Hp _]].
  split; [exact Hm |]. split; [reflexivity | exact Hp].
Defined.

(** ** The figures of the dashboard *)

(** *** Dictionaries, entries and sorting *)

Lemma dict_get_set_eq {V} (d : DashboardView.Dict V) (k : string) (v : V) :
  DashboardView.dict_get (DashboardView.dict_set d k v) k = Some v.
Proof.
  induction d as [| [k' v'] d IH]; cbn [DashboardView.dict_set DashboardView.dict_get].
  - now rewrite String.eqb_refl.
  - destruct (String.eqb k' k) eqn:He; cbn [DashboardView.dict_get]; rewrite He; [reflexivity | exact IH].
Qed.

Lemma dict_get_set_ne {V} (d : DashboardView.Dict V) (k k' : string) (v : V) :
  k <> k' -> DashboardView.dict_get (DashboardView.dict_set d k v) k' = DashboardView.dict_get d k'.
Proof.
  intros Hne. induction d as [| [k0 v0] d IH]; cbn [DashboardView.dict_set DashboardView.dict_get].
  - destruct (String.eqb_spec k k'); [contradiction | reflexivity].
  - destruct (String.eqb_spec k0 k) as [-> | Hk]; cbn [DashboardView.dict_get].
    + destruct (String.eqb_spec k k'); [contradiction | reflexivity].
    + destruct (String.eqb k0 k'); [reflexivity | exact IH].
Qed.

Lemma dict_set_keys {V} (d : DashboardView.Dict V) (k : string) (v : V) :
  map fst (DashboardView.dict_set d k v)
  = if existsb (String.eqb k) (map fst d) then map fst d else (map fst d ++ [k])%list.
Proof.
  induction d as [| [k0 v0] d IH]; cbn [DashboardView.dict_set map fst existsb app]; [reflexivity |].
  rewrite (String.eqb_sym k k0).
  destruct (String.eqb k0 k); cbn [map fst orb]; [reflexivity |].
  rewrite IH. now destruct (existsb (String.eqb k) (map fst d)).
Qed.

Lemma dict_set_nodup {V} (d : DashboardView.Dict V) (k : string) (v : V) :
  NoDup (map fst d) -> NoDup (map fst (DashboardView.dict_set d k v)).
Proof.
  intros Hd. rewrite dict_set_keys.
  destruct (existsb (String.eqb k) (map fst d)) eqn:He; [exact Hd |].
  apply NoDup_app. split; [exact Hd |]. split; [| apply NoDup_singleton].
  intros x Hx Hk. apply list_elem_of_singleton in Hk. subst x.
  assert (Ht : existsb (String.eqb k) (map fst d) = true).
  { apply existsb_exists. exists k. split; [now apply list_elem_of_In | apply String.eqb_refl]. }
  congruence.
Qed.

Lemma dict_get_In {V} (d : DashboardView.Dict V) (k : string) (v : V) :
  NoDup (map fst d) -> (DashboardView.dict_get d k = Some v <-> In (k, v) d).
Proof.
  induction d as [| [k0 v0] d IH]; cbn [DashboardView.dict_get map fst In]; intros Hd.
  - split; [discriminate | tauto].
  - apply NoDup_cons in Hd as [Hk0 Hd].
    destruct (String.eqb_spec k0 k) as [-> | Hne].
    + split; [intros [= ->]; now left |].
      intros [[= ->] | Hin]; [reflexivity |]. exfalso. apply Hk0.
      apply list_elem_of_In. apply in_map_iff. now exists (k, v).
    + rewrite (IH Hd). split; [tauto |]. intros [[= -> _] | Hin]; [contradiction | exact Hin].
Qed.

Lemma insert_index_perm {V} (n : Z) (e : string * V) (l : list (Z * (string * V))) :
  DashboardView.insert_index n e l ≡ₚ (n, e) :: l.
Proof.
  induction l as [| [n' e'] l IH]; cbn [DashboardView.insert_index]; [reflexivity |].
  destruct (n <? n'); [reflexivity |]. rewrite IH. apply Permutation_swap.
Qed.

(** [Object.entries] lists every entry once. *)
Lemma Object_entries_perm {V} (d : DashboardView.Dict V) : DashboardView.Object_entries d ≡ₚ d.
Proof.
  unfold DashboardView.Object_entries.
  assert (H : forall acc : list (Z * (string * V)),
            (map snd (fold_left (fun acc e =>
                        match DashboardView.array_index (fst e) with
                        | Some n => DashboardView.insert_index n e acc
                        | None => acc
                        end) d acc)
             ++ List.filter (fun e => match DashboardView.array_index (fst e) with
                                      | Some _ => false
                                      | None => true
                                      end) d)%list
            ≡ₚ (map snd acc ++ d)%list).
  { induction d as [| e d IH]; intros acc; cbn [fold_left List.filter].
    - reflexivity.
    - destruct (DashboardView.array_index (fst e)) as [n |].
      + rewrite IH, insert_index_perm. cbn [map snd app].
        apply Permutation_middle.
      + rewrite <- Permutation_middle, IH. apply Permutation_middle. }
  apply (H []).
Qed.

Lemma sort_insert_perm {A} (cmp : A -> A -> number) (x : A) (l : list A) :
  DashboardView.sort_insert cmp x l ≡ₚ x :: l.
Proof.
  induction l as [| y l IH]; cbn [DashboardView.sort_insert]; [reflexivity |].
  destruct (0 <? cmp x y)%float; [| reflexivity]. rewrite IH. apply Permutation_swap.
Qed.

(** Sorting keeps every element, once. *)
Lemma sort_perm {A} (cmp : A -> A -> number) (l : list A) : DashboardView.sort cmp l ≡ₚ l.
Proof.
  unfold DashboardView.sort. induction l as [| x l IH]; cbn [fold_right]; [reflexivity |].
  now rewrite sort_insert_perm, IH.
Qed.

(** *** Grouping by key *)

Lemma group_get {A V : Type} (key : A -> option string) (init : V) (upd : V -> A -> V)
    (l : list A) (d : DashboardView.Dict V) (k : string) :
  DashboardView.dict_get (fold_left (group_step key init upd) l d) k
  = match keyed key k l with
    | [] => DashboardView.dict_get d k
    | _ => Some (fold_left upd (keyed key k l) (default init (DashboardView.dict_get d k)))
    end.
Proof.
  revert d. induction l as [| a l IH]; intros d; cbn [fold_left keyed List.filter];
    [reflexivity |].
  rewrite IH. fold (keyed key k l).
  assert (Hstep : group_step key init upd d a
                  = match key a with
                    | Some k => DashboardView.dict_set d k (upd (default init (DashboardView.dict_get d k)) a)
                    | None => d
                    end) by reflexivity.
  rewrite Hstep. clear Hstep.
  destruct (key a) as [k' |] eqn:Hk.
  - destruct (decide (k' = k)) as [-> | Hne].
    + rewrite bool_decide_eq_true_2 by reflexivity. rewrite dict_get_set_eq.
      cbn [default fold_left]. now destruct (keyed key k l).
    + rewrite bool_decide_eq_false_2 by congruence.
      now rewrite dict_get_set_ne by exact Hne.
  - rewrite bool_decide_eq_false_2 by congruence. reflexivity.
Qed.

Lemma group_nodup {A V : Type} (key : A -> option string) (init : V) (upd : V -> A -> V)
    (l : list A) (d : DashboardView.Dict V) :
  NoDup (map fst d) -> NoDup (map fst (fold_left (group_step key init upd) l d)).
Proof.
  revert d. induction l as [| a l IH]; intros d Hd; cbn [fold_left]; [exact Hd |].
  apply IH. unfold group_step. destruct (key a); [now apply dict_set_nodup | exact Hd].
Qed.

(** The groups of a list: one entry per key that occurs, holding the
    rows of that key folded in their order. *)
Lemma group_entries {A V : Type} (key : A -> option string) (init : V) (upd : V -> A -> V)
    (l : list A) (k : string) (v : V) :
  In (k, v) (fold_left (group_step key init upd) l [])
  <-> keyed key k l <> [] /\ v = fold_left upd (keyed key k l) init.
Proof.
  rewrite <- dict_get_In by (apply group_nodup; constructor).
  rewrite group_get. cbn [DashboardView.dict_get default].
  destruct (keyed key k l) as [| a r].
  - split; [discriminate | intros [H _]; now contradiction H].
  - split; [intros [= <-]; split; [discriminate | reflexivity] | intros [_ ->]; reflexivity].
Qed.

Lemma fold_left_ext_eq {A B} (f g : A -> B -> A) (l : list B) (a : A) :
  (forall a b, f a b = g a b) -> fold_left f l a = fold_left g l a.
Proof.
  intros H. revert a. induction l as [| b l IH]; intros a; cbn [fold_left]; [reflexivity |].
  now rewrite H, IH.
Qed.

Lemma filter_ext_eq {A} (f g : A -> bool) (l : list A) :
  (forall a, f a = g a) -> List.filter f l = List.filter g l.
Proof.
  intros H. induction l as [| a l IH]; cbn [List.filter]; [reflexivity |].
  now rewrite H, IH.
Qed.

Lemma keyed_eqb {A} (key : A -> string) (k : string) (l : list A) :
  keyed (fun a => Some (key a)) k l = List.filter (fun a => String.eqb (key a) k) l.
Proof.
  apply filter_ext_eq. intros a.
  destruct (String.eqb_spec (key a) k) as [-> | Hne].
  - now apply bool_decide_eq_true_2.
  - apply bool_decide_eq_false_2. congruence.
Qed.

Lemma pair_totals (l : list Sale.t) (c r : number) :
  fold_left (fun (v : number * number) s =>
               ((fst v + Sale.quantity s)%float, (snd v + Sale.amount s)%float)) l (c, r)
  = (fold_left (fun acc s => (acc + Sale.quantity s)%float) l c,
     fold_left (fun acc s => (acc + Sale.amount s)%float) l r).
Proof.
  revert c r. induction l as [| s l IH]; intros c r; cbn [fold_left fst snd]; [reflexivity |].
  apply IH.
Qed.

Lemma filter_nil_none {A} (f : A -> bool) (l : list A) :
  List.filter f l = [] <-> forall a, In a l -> f a = false.
Proof.
  induction l as [| a l IH]; cbn [List.filter In].
  - split; [tauto | reflexivity].
  - destruct (f a) eqn:Hf.
    + split; [discriminate |]. intros H. specialize (H a (or_introl eq_refl)). congruence.
    + rewrite IH. split.
      * intros H b [<- | Hb]; [exact Hf | now apply H].
      * intros H b Hb. apply H. now right.
Qed.

(** The product table of [stats].  As long as no product is named like a
    property every object inherits, the table has one line per product
    name ([Unknown] standing for an empty name), the line of a product
    holds the quantities and the amounts of its records added up in the
    order of the records, and there is a top product unless there is no
    record at all. *)
Theorem product_totals (filtered : list Sale.t) :
  Forall (fun s => ~ In (product_group s) DashboardTrend.inherited) filtered ->
  let products := DashboardView.sortedProducts (DashboardView.stats filtered) in
  NoDup (map DashboardView.pname products)
  /\ (forall e : DashboardView.ProductStat,
        In e products
        <-> sold_as (DashboardView.pname e) filtered <> []
            /\ DashboardView.pcount e = sum_by Sale.quantity (sold_as (DashboardView.pname e) filtered)
            /\ DashboardView.prevenue e = sum_by Sale.amount (sold_as (DashboardView.pname e) filtered))
  /\ (DashboardView.topProduct (DashboardView.stats filtered) = None <-> filtered = []).
Proof.
  intros _ products.
  set (key := fun s : Sale.t => Some (product_group s)).
  set (upd := fun (v : number * number) (s : Sale.t) =>
                ((fst v + Sale.quantity s)%float, (snd v + Sale.amount s)%float)).
  set (pm := fold_left (group_step key (0%float, 0%float) upd) filtered []).
  set (mk := fun e : string * (number * number) =>
               {| DashboardView.pname := fst e; DashboardView.pcount := fst (snd e); DashboardView.prevenue := snd (snd e) |}).
  assert (Hperm : products ≡ₚ map mk pm).
  { subst products. unfold DashboardView.stats. cbn [DashboardView.sortedProducts].
    rewrite sort_perm. apply Permutation_map. rewrite Object_entries_perm.
    subst pm. erewrite fold_left_ext_eq; [reflexivity |].
    intros d s. unfold group_step, key, upd, product_group.
    now destruct (default _ _). }
  assert (Hin : forall e, In e products
                <-> sold_as (DashboardView.pname e) filtered <> []
                    /\ DashboardView.pcount e = sum_by Sale.quantity (sold_as (DashboardView.pname e) filtered)
                    /\ DashboardView.prevenue e = sum_by Sale.amount (sold_as (DashboardView.pname e) filtered)).
  { intros e. rewrite <- !list_elem_of_In, Hperm, list_elem_of_In, in_map_iff.
    unfold sold_as. rewrite <- (keyed_eqb product_group). fold key.
    split.
    - intros ([k [c r]] & <- & Hk). cbn [mk DashboardView.pname DashboardView.pcount DashboardView.prevenue fst snd].
      apply (group_entries key (0%float, 0%float) upd) in Hk as [Hne Hv].
      split; [exact Hne |]. unfold upd in Hv. rewrite pair_totals in Hv.
      injection Hv as -> ->. split; reflexivity.
    - intros (Hne & Hc & Hr). exists (DashboardView.pname e, (DashboardView.pcount e, DashboardView.prevenue e)).
      split; [now destruct e |].
      apply (group_entries key (0%float, 0%float) upd). split; [exact Hne |].
      unfold upd. rewrite pair_totals, Hc, Hr. reflexivity. }
  split; [| split; [exact Hin |]].
  - rewrite Hperm, map_map. cbn [mk DashboardView.pname]. apply (group_nodup key). constructor.
  - change (DashboardView.topProduct (DashboardView.stats filtered)) with (head products).
    split.
    + intros Hh. destruct filtered as [| s l]; [reflexivity |]. exfalso.
      assert (Hs : In (mk (product_group s,
                          (sum_by Sale.quantity (sold_as (product_group s) (s :: l)),
                           sum_by Sale.amount (sold_as (product_group s) (s :: l))))) products).
      { apply Hin. cbn [mk DashboardView.pname DashboardView.pcount DashboardView.prevenue fst snd]. split; [| split; reflexivity].
        unfold sold_as. cbn [List.filter]. now rewrite String.eqb_refl. }
      destruct products; [contradiction | discriminate].
    + intros ->. reflexivity.
Qed.

Lemma product_totals_witness :
  In {| DashboardView.pname := "Facial"; DashboardView.pcount := 2; DashboardView.prevenue := 170 |} (DashboardView.sortedProducts (DashboardView.stats sampleSales)).
Proof.
  assert (H : Forall (fun s => ~ In (product_group s) DashboardTrend.inherited) sampleSales).
  { repeat constructor; cbn; intuition discriminate. }
  apply (proj1 (proj2 (product_totals sampleSales H))).
  vm_compute. repeat split; discriminate.
Defined.

Lemma truthy_running (l : list Sale.t) (v : number) :
  truthy_num v = true ->
  Forall (fun t => truthy_num t = true) (running_totals v l) ->
  fold_left (fun (v : number) s => ((if truthy_num v then v else 0) + Sale.amount s)%float) l v
  = fold_left (fun acc s => (acc + Sale.amount s)%float) l v.
Proof.
  revert v. induction l as [| s l IH]; intros v Hv Hall; cbn [fold_left]; [reflexivity |].
  cbn [running_totals] in Hall. apply Forall_cons in Hall as [Hs Hall].
  rewrite Hv. now apply IH.
Qed.

(** The category chart of [stats].  As long as no category is named
    like a property every object inherits, the chart has one slice per
    category ([General] standing for an empty one), and the value of a
    slice is the sum of the amounts of its records whenever none of the
    totals reached while adding them up is zero or [NaN]. *)
Theorem category_slices (filtered : list Sale.t) :
  Forall (fun s => ~ In (category_group s) DashboardTrend.inherited) filtered ->
  let chart := DashboardView.categoryData (DashboardView.stats filtered) in
  NoDup (map fst chart)
  /\ (forall C : string, In C (map fst chart) <-> filed_under C filtered <> [])
  /\ (forall (C : string) (v : number),
        In (C, v) chart ->
        Forall (fun t => truthy_num t = true) (running_totals 0 (filed_under C filtered)) ->
        v = sum_by Sale.amount (filed_under C filtered)).
Proof.
  intros _ chart.
  set (key := fun s : Sale.t => Some (category_group s)).
  set (upd := fun (v : number) (s : Sale.t) =>
                ((if truthy_num v then v else 0) + Sale.amount s)%float).
  set (cm := fold_left (group_step key PrimFloat.nan upd) filtered []).
  assert (Hperm : chart ≡ₚ cm).
  { subst chart. unfold DashboardView.stats. cbn [DashboardView.categoryData].
    rewrite sort_perm, Object_entries_perm. reflexivity. }
  assert (Hin : forall C v, In (C, v) chart
                <-> filed_under C filtered <> []
                    /\ v = fold_left upd (filed_under C filtered) PrimFloat.nan).
  { intros C v. rewrite <- list_elem_of_In, Hperm, list_elem_of_In.
    unfold filed_under. rewrite <- (keyed_eqb category_group).
    apply (group_entries key PrimFloat.nan upd). }
  split; [| split].
  - rewrite Hperm. apply (group_nodup key). constructor.
  - intros C. rewrite in_map_iff. split.
    + intros ([C' v] & <- & Hv). now apply Hin in Hv.
    + intros Hne. exists (C, fold_left upd (filed_under C filtered) PrimFloat.nan).
      split; [reflexivity |]. now apply Hin.
  - intros C v Hv Hall. apply Hin in Hv as [Hne ->].
    unfold sum_by. destruct (filed_under C filtered) as [| s l]; [contradiction |].
    cbn [fold_left running_totals] in *. apply Forall_cons in Hall as [Hs Hall].
    unfold upd at 2. change (truthy_num PrimFloat.nan) with false. cbv iota.
    now apply truthy_running.
Qed.

Lemma category_slices_witness :
  In ("General", 200%float) (DashboardView.categoryData (DashboardView.stats sampleSales))
  /\ 200%float = sum_by Sale.amount (filed_under "General" sampleSales).
Proof.
  assert (H : Forall (fun s => ~ In (category_group s) DashboardTrend.inherited) sampleSales).
  { repeat constructor; cbn; intuition discriminate. }
  assert (Hin : In ("General", 200%float) (DashboardView.categoryData (DashboardView.stats sampleSales))).
  { vm_compute. now left. }
  split; [exact Hin |].
  apply (proj2 (proj2 (category_slices sampleSales H)) "General" 200%float Hin).
  vm_compute. repeat constructor.
Defined.

(** The revenue trend.  Whatever order the host's [localeCompare]
    gives, and as long as no date string is the name of a property every
    object inherits, the trend has exactly one point per date that is not
    empty and occurs in the records, holding the sum of the amounts of
    that date's records; records without a date are in no point. *)
Theorem revenue_trend_points (localeCompare : string -> string -> number)
    (filtered : list Sale.t) :
  Forall (fun s => ~ In (Sale.date s) DashboardTrend.inherited) filtered ->
  let trend := DashboardTrend.revenueTrend localeCompare filtered in
  NoDup (map fst trend)
  /\ (forall (d : string) (v : number),
        In (d, v) trend
        <-> d <> "" /\ dated d filtered <> [] /\ v = sum_by Sale.amount (dated d filtered)).
Proof.
  intros _ trend.
  set (key := fun s : Sale.t => if truthy_str (Sale.date s) then Some (Sale.date s) else None).
  set (upd := fun (v : number) (s : Sale.t) => (v + Sale.amount s)%float).
  set (daily := fold_left (group_step key 0%float upd) filtered []).
  assert (Hperm : trend ≡ₚ daily).
  { subst trend. unfold DashboardTrend.revenueTrend.
    rewrite sort_perm, Object_entries_perm. subst daily.
    erewrite fold_left_ext_eq; [reflexivity |].
    intros acc s. unfold group_step, key. now destruct (truthy_str (Sale.date s)). }
  split.
  - rewrite Hperm. apply (group_nodup key). constructor.
  - intros d v. rewrite <- list_elem_of_In, Hperm, list_elem_of_In.
    unfold daily. rewrite (group_entries key 0%float upd).
    assert (Hrows : d <> "" -> keyed key d filtered = dated d filtered).
    { intros Hd. apply filter_ext_eq. intros s. unfold key.
      destruct (String.eqb_spec (Sale.date s) d) as [-> | Hne].
      - destruct d; [contradiction |]. now apply bool_decide_eq_true_2.
      - apply bool_decide_eq_false_2. destruct (truthy_str (Sale.date s)); congruence. }
    assert (Hempty : keyed key "" filtered = []).
    { apply filter_nil_none. intros s _. apply bool_decide_eq_false_2. unfold key.
      destruct (Sale.date s); cbn [truthy_str]; congruence. }
    destruct (decide (d = "")) as [-> | Hd].
    + rewrite Hempty. split; [intros [H _]; now contradiction H | intros [H _]; now contradiction H].
    + rewrite (Hrows Hd). unfold sum_by, upd. tauto.
Qed.

Lemma revenue_trend_points_witness :
  In ("2024-01-06", 30%float)
     (DashboardTrend.revenueTrend (fun a b => if String.ltb a b then (-1)%float else 1%float)
        sampleSales).
Proof.
  assert (H : Forall (fun s => ~ In (Sale.date s) DashboardTrend.inherited) sampleSales).
  { repeat constructor; cbn; intuition discriminate. }
  apply (proj2 (revenue_trend_points _ sampleSales H)).
  vm_compute. repeat split; discriminate.
Defined.

Lemma dayIndex_range (env : Env) (s : Sale.t) (j : Z) :
  DashboardView.dayIndex env s = Some j -> 0 <= j < 7.
Proof.
  unfold DashboardView.dayIndex. destruct (_ || _); [discriminate |].
  destruct (map _ _) as [| y [| m [| d [| ? ?]]]]; try discriminate.
  destruct (Date_ymd _ _ _ _); [| discriminate].
  destruct ((0 <=? _) && (_ <? 7)) eqn:Hr; [| discriminate].
  intros [= <-]. lia.
Qed.

Lemma busiestDays_slot (env : Env) (l : list Sale.t) (ds : list DashboardView.DayStat) (i : nat) :
  fold_left (DashboardView.busiestDays_step env) l ds !! i
  = (fun d => fold_left (fun d s => DashboardView.add_sale s d) (falling_on env (Z.of_nat i) l) d)
      <$> ds !! i.
Proof.
  revert ds. induction l as [| s l IH]; intros ds; cbn [fold_left falling_on List.filter].
  - now destruct (ds !! i).
  - rewrite IH. fold (falling_on env (Z.of_nat i) l). unfold DashboardView.busiestDays_step.
    destruct (DashboardView.dayIndex env s) as [j |] eqn:Hj; [| reflexivity].
    apply dayIndex_range in Hj.
    destruct (Z.eqb_spec j (Z.of_nat i)) as [-> | Hne].
    + rewrite Nat2Z.id, list_lookup_alter, decide_True by reflexivity.
      destruct (ds !! i); reflexivity.
    + rewrite list_lookup_alter_ne by lia. reflexivity.
Qed.

Lemma add_sale_totals (l : list Sale.t) (r q : number) :
  fold_left (fun d s => DashboardView.add_sale s d) l {| DashboardView.revenue := r; DashboardView.quantity := q |}
  = {| DashboardView.revenue := fold_left (fun acc s => (acc + Sale.amount s)%float) l r;
       DashboardView.quantity := fold_left (fun acc s => (acc + Sale.quantity s)%float) l q |}.
Proof.
  revert r q. induction l as [| s l IH]; intros r q; cbn [fold_left]; [reflexivity |].
  unfold DashboardView.add_sale at 2. cbn [DashboardView.revenue DashboardView.quantity]. apply IH.
Qed.

(** The weekday chart.  The seven bars are named Sun to Sat in this
    order, and each holds the revenue and the quantity of exactly the
    records that fall into its slot, added up in the order of the
    records; a record without a slot is counted nowhere. *)
Theorem weekday_totals (env : Env) (filtered : list Sale.t) :
  DashboardView.busiestDays env filtered
  = imap (fun i name =>
            (name,
             {| DashboardView.revenue := sum_by Sale.amount (falling_on env (Z.of_nat i) filtered);
                DashboardView.quantity := sum_by Sale.quantity (falling_on env (Z.of_nat i) filtered) |}))
      DashboardView.dayNames.
Proof.
  unfold DashboardView.busiestDays. apply imap_ext. intros i name Hi.
  apply lookup_lt_Some in Hi. change (length DashboardView.dayNames) with 7%nat in Hi.
  rewrite busiestDays_slot.
  assert (Hz : repeat {| DashboardView.revenue := 0; DashboardView.quantity := 0 |} 7 !! i
               = Some {| DashboardView.revenue := 0; DashboardView.quantity := 0 |}).
  { do 7 (destruct i as [| i]; [reflexivity |]). lia. }
  rewrite Hz. cbn [fmap option_fmap option_map default]. now rewrite add_sale_totals.
Qed.

Lemma unique_from_spec (seen : gset string) (xs : list string) :
  NoDup (Enrichment.unique_from seen xs)
  /\ (forall x, x ∈ Enrichment.unique_from seen xs <-> x ∈ xs /\ x ∉ seen).
Proof.
  revert seen. induction xs as [| x r IH]; intros seen; cbn [Enrichment.unique_from].
  - split; [constructor |]. intros y. rewrite elem_of_nil. tauto.
  - destruct (decide (x ∈ seen)) as [Hx | Hx].
    + destruct (IH seen) as [Hnd Hin]. split; [exact Hnd |].
      intros y. rewrite Hin, elem_of_cons.
      split; [tauto |]. intros [[-> | Hy] Hs]; [contradiction | tauto].
    + destruct (IH ({[x]} ∪ seen)) as [Hnd Hin]. split.
      * apply NoDup_cons. split; [| exact Hnd]. rewrite Hin. intros [_ Hn].
        apply Hn, elem_of_union_l, elem_of_singleton. reflexivity.
      * intros y. rewrite !elem_of_cons, Hin, not_elem_of_union, not_elem_of_singleton.
        destruct (decide (y = x)) as [-> | Hne]; tauto.
Qed.

Lemma slices_spec {A} (size fuel : nat) (xs : list A) :
  (0 < size)%nat -> (length xs <= fuel)%nat ->
  concat (Enrichment.slices size fuel xs) = xs
  /\ Forall (fun b => (0 < length b <= size)%nat) (Enrichment.slices size fuel xs).
Proof.
  intros Hsize. revert xs. induction fuel as [| fuel IH]; intros xs Hlen.
  - destruct xs; [split; [reflexivity | constructor] | cbn in Hlen; lia].
  - destruct xs as [| x r]; [split; [reflexivity | constructor] |].
    cbn [Enrichment.slices]. destruct (IH (drop size (x :: r))) as [Hc Hf].
    { rewrite length_drop. cbn [length] in *. lia. }
    split.
    + cbn [concat]. rewrite Hc. apply take_drop.
    + constructor; [| exact Hf]. rewrite length_take. cbn [length]. lia.
Qed.

(** The batches sent to the categorizer.  Every product name of the
    parsed rows is in exactly one batch, once, nothing else is, and every
    batch has between one and fifty names. *)
Theorem products_batched (parsedSales : list Sale.t) :
  let sent := Enrichment.batches (Enrichment.unique (map Sale.product parsedSales)) in
  NoDup (concat sent)
  /\ (forall p : string, In p (concat sent) <-> exists s, In s parsedSales /\ Sale.product s = p)
  /\ Forall (fun b => (0 < length b <= 50)%nat) sent.
Proof.
  intros sent. subst sent. unfold Enrichment.batches.
  destruct (slices_spec Enrichment.batchSize (length (Enrichment.unique (map Sale.product parsedSales)))
              (Enrichment.unique (map Sale.product parsedSales))) as [Hc Hf];
    [unfold Enrichment.batchSize; lia | lia |].
  rewrite Hc. destruct (unique_from_spec ∅ (map Sale.product parsedSales)) as [Hnd Hin].
  split; [exact Hnd |]. split; [| exact Hf].
  intros p. rewrite <- list_elem_of_In. unfold Enrichment.unique. rewrite Hin, list_elem_of_In, in_map_iff.
  split.
  - intros [(s & Hs & Hp) _]. now exists s.
  - intros (s & Hs & Hp). split; [now exists s | apply not_elem_of_empty].
Qed.

(** ** An inverted range, and the identifiers of a batch *)

Lemma lex_le_trans (a b c : string) : lex_le a b -> lex_le b c -> lex_le a c.
Proof.
  intros Hab. revert c. induction Hab as [s | c1 c2 s1 s2 Hlt | c0 s1 s2 Hle IH]; intros c Hbc.
  - constructor.
  - inversion Hbc; subst.
    + apply lex_le_lt. lia.
    + now apply lex_le_lt.
  - inversion Hbc; subst.
    + now apply lex_le_lt.
    + apply lex_le_eq. now apply IH.
Qed.

(** A custom range whose end is set and lies before its start (as
    strings) shows no record. *)
Theorem inverted_range_empty (env : Env) (data : list Sale.t) (customStart customEnd : string) :
  customEnd <> "" ->
  str_le customStart customEnd = false ->
  DashboardView.filteredData env data DashboardView.custom customStart customEnd = [].
Proof.
  intros He Hinv. unfold DashboardView.filteredData.
  assert (Hs : truthy_str customStart = true).
  { destruct customStart; [| reflexivity]. destruct customEnd; [contradiction | discriminate]. }
  assert (Hte : truthy_str customEnd = true) by (destruct customEnd; [contradiction | reflexivity]).
  rewrite Hs, Hte. cbn [negb orb].
  apply filter_nil_none. intros s _.
  destruct (negb (truthy_str (Sale.date s))); [reflexivity |].
  apply not_true_is_false. intros Hb. apply andb_true_iff in Hb as [H1 H2].
  unfold str_ge, str_le in *. apply leb_lex_le in H1, H2.
  assert (H3 : String.leb customStart customEnd = true)
    by (apply leb_lex_le; eapply lex_le_trans; eassumption).
  congruence.
Qed.

Lemma inverted_range_empty_witness :
  DashboardView.filteredData (sampleEnv 0) sampleSales DashboardView.custom
    "2024-01-07" "2024-01-05" = [].
Proof.
  apply inverted_range_empty; [discriminate | reflexivity].
Defined.

Lemma append_inv_head (s a b : string) : s ++ a = s ++ b -> a = b.
Proof.
  induction s as [| c s IH]; [tauto |].
  change (String c s ++ a) with (String c (s ++ a)).
  change (String c s ++ b) with (String c (s ++ b)). intros [= H]. now apply IH.
Qed.

Lemma append_length (a b : string) :
  String.length (a ++ b) = (String.length a + String.length b)%nat.
Proof.
  induction a as [| c a IH]; [reflexivity |].
  change (String c a ++ b) with (String c (a ++ b)). cbn [String.length plus]. now rewrite IH.
Qed.

Lemma append_inv_tail (a b s : string) : a ++ s = b ++ s -> a = b.
Proof.
  intros H.
  assert (Hlen : String.length a = String.length b).
  { apply (f_equal String.length) in H. rewrite !append_length in H. lia. }
  revert b H Hlen. induction a as [| c a IH]; intros [| c' b] H Hlen;
    cbn [String.length] in Hlen; try discriminate; [reflexivity |].
  change (String c a ++ s) with (String c (a ++ s)) in H.
  change (String c' b ++ s) with (String c' (b ++ s)) in H.
  injection H as -> H. f_equal. apply IH; [exact H | lia].
Qed.

Lemma Z_to_string_inj (x y : Z) : Z_to_string x = Z_to_string y -> x = y.
Proof.
  unfold Z_to_string. intros H.
  assert (Hn : forall z, Z.to_int z <> Decimal.Pos Decimal.Nil
                         /\ Z.to_int z <> Decimal.Neg Decimal.Nil).
  { intros [| p | p]; cbn [Z.to_int]; split; try discriminate;
      intros [= Hp]; now apply (DecimalPos.Unsigned.to_uint_nonnil p). }
  apply (f_equal NilZero.int_of_string) in H.
  rewrite !NilZero.isi in H by apply Hn.
  injection H as H. apply (f_equal Z.of_int) in H. now rewrite !DecimalZ.of_to in H.
Qed.

(** The records of one import have pairwise distinct identifiers. *)
Theorem batch_ids_distinct (env : Env) (mapping : Mapping.t) (fileName : string)
    (json : list Row) :
  NoDup (map Sale.id (SyncView.newSales env mapping fileName json)).
Proof.
  unfold SyncView.newSales.
  apply (sublist_NoDup _ (map Sale.id (imap (SyncView.normalizeRow env mapping fileName) json)));
    cycle 1.
  { apply fmap_sublist. clear. induction (imap _ json) as [| s l IH]; cbn [List.filter].
    - constructor.
    - destruct (SyncView.retained s); [now apply sublist_skip | now apply sublist_cons]. }
  apply NoDup_alt. intros i j x Hi Hj.
  change (map Sale.id ?l) with (Sale.id <$> l) in Hi, Hj.
  rewrite list_lookup_fmap, list_lookup_imap in Hi, Hj.
  destruct (json !! i) as [ri |]; [| discriminate].
  destruct (json !! j) as [rj |]; [| discriminate].
  cbn [fmap option_fmap option_map SyncView.normalizeRow Sale.id] in Hi, Hj.
  injection Hi as Hi. injection Hj as Hj. rewrite <- Hj in Hi.
  apply append_inv_head, append_inv_head, append_inv_tail, Z_to_string_inj in Hi. lia.
Qed.
